(** * generate_maps.py: incremental observation history and overlay builder

    A shallow embedding of [src/generate_maps.py].  The script is a
    straight-line program; the embedding follows its numbered sections:

    - the calendar-date conversion of a Sentinel-2 [system:index]
      ([strptime] / [strftime], the latter as the GNU C library prints
      a year: without padding);
    - the scan of the candidate images that computes [new_dates] and
      records the first index seen per date;
    - the colour maps [get_lai_color] and [get_ndvi_color];
    - the per-date, per-field sampling loop with its [try]/[except];
    - the writes of the two maps, the history file and the marker file.

    The Earth Engine service, the spreadsheet and the disk are inputs of
    the run: every blocking call is answered by a field of [service].
    The indices ([add_indices]) and the masking and scaling of the bands
    are computed by the service and come with its answers; of
    [mask_s2_clouds] the test of the two QA60 bits is modelled, at one
    pixel ([cloud_mask]).
    The HTML text of the maps, the text of the JSON file and the
    progress lines of the standard output are not modelled: a map is the
    list of its layers with its title panel, a file holds a value, whole
    or torn.  The directory [output], which [os.makedirs] creates when it
    is missing, is not part of the disk of the model. *)

From Stdlib Require Import ZArith List String Ascii Floats Lia.
From stdpp Require Import base option list gmap strings sorting.

Set Warnings "-inexact-float".

Local Open Scope Z_scope.

(** ** Calendar dates *)

Module Calendar.

Record date := mkdate { year : Z; month : Z; day : Z }.

Definition is_leap (y : Z) : bool :=
  (y mod 4 =? 0) && (negb (y mod 100 =? 0) || (y mod 400 =? 0)).

Definition days_in_month (y m : Z) : Z :=
  match m with
  | 2 => if is_leap y then 29 else 28
  | 4 | 6 | 9 | 11 => 30
  | _ => 31
  end.

(** The range check of [datetime.date(year, month, day)]:
    [MINYEAR = 1], [MAXYEAR = 9999]. *)
Definition valid_date (d : date) : bool :=
  (1 <=? year d) && (year d <=? 9999)
  && (1 <=? month d) && (month d <=? 12)
  && (1 <=? day d) && (day d <=? days_in_month (year d) (month d)).

Definition date_compare (a b : date) : comparison :=
  match year a ?= year b with
  | Eq => match month a ?= month b with
          | Eq => day a ?= day b
          | c => c
          end
  | c => c
  end.

(** Calendar order: earlier than, and not later than. *)
Definition date_lt (a b : date) : Prop := date_compare a b = Lt.
Definition date_le (a b : date) : Prop := date_compare a b <> Gt.

(** *** Characters and digits *)

Definition ord (c : ascii) : Z := Z.of_N (N_of_ascii c).
Definition chr (n : Z) : ascii := ascii_of_N (Z.to_N n).

Definition is_digit (c : ascii) : bool := (48 <=? ord c) && (ord c <=? 57).

Definition digit_val (c : ascii) : Z := ord c - 48.

Definition in_range (lo hi : Z) (c : ascii) : bool :=
  (lo <=? digit_val c) && (digit_val c <=? hi) && is_digit c.

Definition digit_char (n : Z) : ascii := chr (48 + n).

(** [idx[:n]]: the first [n] characters, fewer when [idx] is shorter. *)
Fixpoint slice_to (n : nat) (s : string) : string :=
  match n, s with
  | S n', String c s' => String c (slice_to n' s')
  | _, _ => EmptyString
  end.

(** *** [datetime.strptime(s, '%Y%m%d')]

    CPython compiles the format to the regular expression
    [(?P<Y>\d\d\d\d)(?P<m>1[0-2]|0[1-9]|[1-9])(?P<d>3[0-1]|[1-2]\d|0[1-9]|[1-9]| [1-9])],
    takes the first match the backtracking matcher finds at the start of
    the string, and raises [ValueError] when there is none, when the
    match stops before the end ("unconverted data remains"), or when the
    three numbers are not a date.  Each alternative list below is in the
    order of the expression.  Strings are 8-bit here, so [\d] is an
    ASCII digit, as in every [system:index] of the image collection. *)

Definition match_Y (s : string) : list (Z * string) :=
  match s with
  | String a (String b (String c (String d r))) =>
      if is_digit a && is_digit b && is_digit c && is_digit d
      then [(1000 * digit_val a + 100 * digit_val b
             + 10 * digit_val c + digit_val d, r)]
      else []
  | _ => []
  end.

Definition two (p q : ascii -> bool) (s : string) : list (Z * string) :=
  match s with
  | String a (String b r) =>
      if p a && q b then [(10 * digit_val a + digit_val b, r)] else []
  | _ => []
  end.

Definition one (p : ascii -> bool) (s : string) : list (Z * string) :=
  match s with
  | String a r => if p a then [(digit_val a, r)] else []
  | _ => []
  end.

Definition space_then (p : ascii -> bool) (s : string)
  : list (Z * string) :=
  match s with
  | String a (String b r) =>
      if (ord a =? 32) && p b then [(digit_val b, r)] else []
  | _ => []
  end.

Definition match_m (s : string) : list (Z * string) :=
  two (in_range 1 1) (in_range 0 2) s
  ++ two (in_range 0 0) (in_range 1 9) s
  ++ one (in_range 1 9) s.

Definition match_d (s : string) : list (Z * string) :=
  two (in_range 3 3) (in_range 0 1) s
  ++ two (in_range 1 2) is_digit s
  ++ two (in_range 0 0) (in_range 1 9) s
  ++ one (in_range 1 9) s
  ++ space_then (in_range 1 9) s.

(** All matches of the whole expression, in the matcher's order. *)
Definition match_Ymd (s : string) : list (date * string) :=
  '(y, r1) ← match_Y s;
  '(m, r2) ← match_m r1;
  '(d, r3) ← match_d r2;
  [(mkdate y m d, r3)].

Definition strptime (s : string) : option date :=
  match match_Ymd s with
  | (d, EmptyString) :: _ => if valid_date d then Some d else None
  | _ => None
  end.

(** *** [date.strftime('%Y-%m-%d')]

    [datetime] hands the format to the [strftime] of the C library.
    [%m] and [%d] are on two digits, padded with a zero.  [%Y] is the
    year as a decimal number: the GNU C library prints it without
    padding, so that a year below 1000 takes fewer than four digits
    (['999-01-01'] for the first day of 999).

    [zfill k n] is the decimal numeral of [n] on [k] digits, padded with
    zeros on the left; [numeral k n] is the decimal numeral of [n]
    without padding, for [0 <= n < 10 ^ k].  The year of a date is at
    most 9999. *)
Fixpoint zfill (k : nat) (n : Z) (tail : string) : string :=
  match k with
  | O => tail
  | S k' => zfill k' (n / 10) (String (digit_char (n mod 10)) tail)
  end.

Fixpoint numeral (k : nat) (n : Z) (tail : string) : string :=
  match k with
  | O => tail
  | S k' =>
      let tail' := String (digit_char (n mod 10)) tail in
      if n / 10 =? 0 then tail' else numeral k' (n / 10) tail'
  end.

Definition strftime (d : date) : string :=
  numeral 4 (year d) (String "-" (zfill 2 (month d)
                     (String "-" (zfill 2 (day d) EmptyString)))).

End Calendar.

Import Calendar.

(** ** Colour maps *)

Local Open Scope float_scope.

(** [np.isnan]: a NaN is the only value that differs from itself. *)
Definition isnan (x : float) : bool := negb (PrimFloat.eqb x x).

(** The argument is [props.get('LAI')]: [None] when the band is absent. *)
Definition get_lai_color (lai : option float) : string :=
  match lai with
  | None => "#808080"
  | Some v =>
      if isnan v then "#808080"
      else if PrimFloat.ltb v 0.5 then "#d73027"
      else if PrimFloat.ltb v 1.0 then "#fc8d59"
      else if PrimFloat.ltb v 2.0 then "#fee08b"
      else if PrimFloat.ltb v 3.0 then "#91cf60"
      else "#1a9850"
  end.

Definition get_ndvi_color (ndvi : option float) : string :=
  match ndvi with
  | None => "#808080"
  | Some v =>
      if isnan v then "#808080"
      else if PrimFloat.ltb v 0.2 then "#d73027"
      else if PrimFloat.ltb v 0.4 then "#fc8d59"
      else if PrimFloat.ltb v 0.6 then "#fee08b"
      else if PrimFloat.ltb v 0.8 then "#91cf60"
      else "#1a9850"
  end.

Local Close Scope float_scope.

(** ** Data of a run *)

(** [history]: the dictionary loaded from, and dumped to,
    [output/observation_history.json]. *)
Record history := mkhistory {
  dates : list string;
  date_to_index : gmap string string;
  pixel_counts : gmap string Z }.

Definition empty_history : history := mkhistory [] ∅ ∅.

(** One entry of [collection_info['features']]; [system_index] is
    [props['system:index']], [None] when the properties lack the key. *)
Record image_feature := mkimage { system_index : option string }.

(** One entry of [fields_info['features']]. *)
Record field_feature := mkfield {
  geom_type : string;
  coordinates : list (list (float * float));
  polygon_uu : option string }.

(** One entry of a sample's ['features']: [geometry] is the [(lon, lat)]
    of the point, [None] when the geometry is missing or empty;
    [properties] is [None] when the properties are missing or empty, and
    otherwise holds [props.get(band)]. *)
Record pixel_feature := mkpixel {
  geometry : option (float * float);
  properties : option (option float) }.

Inductive band := LAI | NDVI.

Inductive exn :=
  | ValueError | KeyError | IndexError | ZeroDivisionError
  | JSONDecodeError | OSError | EEException.

Inductive ext (A : Type) := Returns (a : A) | Raises (e : exn).
Arguments Returns {A} a.
Arguments Raises {A} e.

(** What is drawn on a layer. *)
Inductive element :=
  | Rectangle (bounds : (float * float) * (float * float))
      (color : string) (address date : string) (value : option float)
  | Polygon (outline : list (float * float)).

Record feature_group := mkgroup {
  name : string;
  show : bool;
  children : list element }.

(** The title panel of a map: first and last observed date, number of
    observed days, number of fields, the pixel total (LAI map only) and
    the newest date of the run. *)
Record title := mktitle {
  span_from : string;
  span_to : string;
  n_days : nat;
  n_fields : nat;
  total_pixels : option Z;
  latest : string }.

Record map_doc := mkmap { layers : list feature_group; panel : title }.

(** *** The disk

    A file that a write did not finish holds the first [n] characters of
    the text being written: [open(path, 'w')] empties the file before
    the first character is written. *)
Inductive content (A : Type) := Whole (a : A) | Torn (a : A) (n : nat).
Arguments Whole {A} a.
Arguments Torn {A} a n.

Record files := mkfiles {
  history_file : option (content history);
  state_file : option (content string);
  index_html : option (content map_doc);
  ndvi_html : option (content map_doc) }.

Inductive target := IndexHtml | NdviHtml | HistoryJson | StateTxt.

(** How a write ends: it completes; [open] is refused and the file is
    left as it was; or the process stops after [n] characters. *)
Inductive fate := Completes | Refused | Interrupted (n : nat).

(** *** The collaborators *)
Record service := mkservice {
  ee_initialize : bool;
  read_excel : ext (list (string * string));
  collection_size : ext nat;
  collection_getInfo : ext (option (list image_feature));
  fields_getInfo : ext (list field_feature);
  bounds_getInfo : ext (list (float * float));
  sample : band -> string -> field_feature
           -> ext (option (list pixel_feature));
  write_fate : target -> fate }.

(** Lines of the standard output that report an outcome. *)
Inductive line :=
  | InitError
  | NoNewImages
  | HistoryLoaded (n : nat)
  | HistoryCreated
  | NewDateCount (n : nat)
  | NoNewDates
  | FieldNoData (address : string)
  | FieldPixels (address : string) (n : nat)
  | FieldError (address : string) (e : exn)
  | DateDone (date : string) (n : Z)
  | MapsSaved
  | HistorySaved
  | MarkerSaved (date : string).

(** ** The run monad: state, exit and exceptions *)

Inductive halt := Exit (code : Z) | Uncaught (e : exn) | Crashed.

Inductive outcome (A : Type) := Ret (a : A) | Stop (h : halt).
Arguments Ret {A} a.
Arguments Stop {A} h.

(** The world of a run: the disk, the lines printed so far, and the
    files opened for writing so far, oldest first. *)
Record world := mkworld {
  disk : files;
  stdout : list line;
  opened : list target }.

(** The world at the start of a process. *)
Definition boot (d : files) : world := mkworld d [] [].

Definition M (A : Type) : Type := world -> outcome A * world.

Definition ret {A} (a : A) : M A := fun w => (Ret a, w).

Definition bind {A B} (m : M A) (f : A -> M B) : M B :=
  fun w => match m w with
           | (Ret a, w') => f a w'
           | (Stop h, w') => (Stop h, w')
           end.

Notation "'do' x <- m ; k" := (bind m (fun x => k))
  (at level 10, x name, m at level 100, k at level 200).
Notation "'do' ' p <- m ; k" := (bind m (fun x => let 'p := x in k))
  (at level 10, p pattern, m at level 100, k at level 200).

Definition stop {A} (h : halt) : M A := fun w => (Stop h, w).
Definition exit {A} (code : Z) : M A := stop (Exit code).
Definition raise {A} (e : exn) : M A := stop (Uncaught e).

Definition call {A} (r : ext A) : M A :=
  match r with Returns a => ret a | Raises e => raise e end.

Definition print (l : line) : M unit :=
  fun w => (Ret tt, mkworld (disk w) (stdout w ++ [l]) (opened w)).

Definition read_disk : M files := fun w => (Ret (disk w), w).

Definition update_disk (f : files -> files) : M unit :=
  fun w => (Ret tt, mkworld (f (disk w)) (stdout w) (opened w)).

Definition open_w (t : target) : M unit :=
  fun w => (Ret tt, mkworld (disk w) (stdout w) (opened w ++ [t])).

(** [with open(path, 'w') as f: f.write(...)] under a given fate: what
    the file holds afterwards, and how the statement ends. *)
Definition written {A} (f : fate) (new : A) (old : option (content A))
  : option (content A) :=
  match f with
  | Completes => Some (Whole new)
  | Refused => old
  | Interrupted n => Some (Torn new n)
  end.

Definition finish_write (f : fate) : M unit :=
  match f with
  | Completes => ret tt
  | Refused => raise OSError
  | Interrupted _ => stop Crashed
  end.

Fixpoint for_each {A S} (body : S -> A -> M S) (s : S) (l : list A) : M S :=
  match l with
  | [] => ret s
  | a :: l' => do s' <- body s a; for_each body s' l'
  end.

Fixpoint print_all (ls : list line) : M unit :=
  match ls with
  | [] => ret tt
  | l :: ls' => do _ <- print l; print_all ls'
  end.

(** [l[0]] and [l[-1]]. *)
Definition item_first {A} (l : list A) : ext A :=
  match l with
  | x :: _ => Returns x
  | [] => Raises IndexError
  end.

Definition item_last {A} (l : list A) : ext A :=
  match last l with
  | Some x => Returns x
  | None => Raises IndexError
  end.

(** [sorted(l)] on strings: ascending in the code-point order. *)
Definition sorted (l : list string) : list string := merge_sort String.le l.

(** ** [2] The cloud mask

    Line 67 of [mask_s2_clouds], at one pixel whose QA60 value is [qa]:
    [qa.bitwiseAnd(1 << 10).eq(0).And(qa.bitwiseAnd(1 << 11).eq(0))].
    The pixel is kept where the mask is [true]. *)
Definition cloud_mask (qa : Z) : bool :=
  (Z.land qa (Z.shiftl 1 10) =? 0) && (Z.land qa (Z.shiftl 1 11) =? 0).

(** ** [3] Load the history *)

Definition load_history : M history :=
  do d <- read_disk;
  match history_file d with
  | Some (Whole h) => do _ <- print (HistoryLoaded (length (dates h))); ret h
  | Some (Torn _ _) => raise JSONDecodeError
  | None => do _ <- print HistoryCreated; ret empty_history
  end.

(** ** [4] New observation dates

    The body of the loop over [collection_info['features']]: the state is
    the history, whose [date_to_index] the loop updates in place, and
    [new_dates]. *)
Definition scan_feature (acc : history * list string) (feature : image_feature)
  : ext (history * list string) :=
  match system_index feature with
  | None => Returns acc
  | Some idx =>
      match strptime (slice_to 8 idx) with
      | None => Raises ValueError
      | Some date_obj =>
          let date_str := strftime date_obj in
          match date_to_index acc.1 !! date_str with
          | Some _ => Returns acc
          | None =>
              Returns (mkhistory (dates acc.1)
                         (<[date_str := idx]> (date_to_index acc.1))
                         (pixel_counts acc.1),
                       acc.2 ++ [date_str])
          end
      end
  end.

Fixpoint scan_features (acc : history * list string)
    (features : list image_feature) : ext (history * list string) :=
  match features with
  | [] => Returns acc
  | feature :: rest =>
      match scan_feature acc feature with
      | Returns acc' => scan_features acc' rest
      | Raises e => Raises e
      end
  end.

(** Lines 114 to 129: the scan, then [new_dates = sorted(new_dates)]. *)
Definition compute_delta (h : history) (features : list image_feature)
  : ext (history * list string) :=
  match scan_features (h, []) features with
  | Returns (h', new_dates) => Returns (h', sorted new_dates)
  | Raises e => Raises e
  end.

(** ** [7] Layers of a new date *)

Local Open Scope float_scope.

Definition PIXEL_SCALE : float := 10.

Definition half_size : float := PIXEL_SCALE / 2 / 111320.

Definition pixel_bounds (lon lat : float)
  : (float * float) * (float * float) :=
  ((lat - half_size, lon - half_size), (lat + half_size, lon + half_size)).

Local Close Scope float_scope.

(** The rectangles of one sample; a pixel without geometry or without
    properties is passed over. *)
Definition draw_pixels (color_of : option float -> string)
    (address date : string) (features : list pixel_feature) : list element :=
  omap (fun px =>
          match geometry px, properties px with
          | Some (lon, lat), Some v =>
              Some (Rectangle (pixel_bounds lon lat) (color_of v)
                      address date v)
          | _, _ => None
          end) features.

Definition unknown_address : string := "不明".

Definition lookup_address (df : list (string * string)) (uu : option string)
  : string :=
  match uu with
  | Some u =>
      match filter (fun row => row.1 = u) df with
      | row :: _ => row.2
      | [] => unknown_address
      end
  | None => unknown_address
  end.

(** State of the loop over the fields for one date. *)
Record layer_state := mkstate {
  lai_children : list element;
  ndvi_children : list element;
  date_pixels : Z;
  report : list line }.

Definition say (st : layer_state) (l : line) : layer_state :=
  mkstate (lai_children st) (ndvi_children st) (date_pixels st)
          (report st ++ [l]).

(** The body of the loop over [fields_info['features']], with its
    [try] ... [except Exception]. *)
Definition process_field (svc : service) (df : list (string * string))
    (target_index date : string) (st : layer_state) (feature : field_feature)
  : layer_state :=
  if negb (String.eqb (geom_type feature) "Polygon") then st
  else
    let address := lookup_address df (polygon_uu feature) in
    match sample svc LAI target_index feature with
    | Raises e => say st (FieldError address e)
    | Returns sample_lai =>
        match sample svc NDVI target_index feature with
        | Raises e => say st (FieldError address e)
        | Returns sample_ndvi =>
            match sample_lai, sample_ndvi with
            | Some lai_features, Some ndvi_features =>
                let pixel_count := length lai_features in
                mkstate
                  (lai_children st
                   ++ draw_pixels get_lai_color address date lai_features)
                  (ndvi_children st
                   ++ draw_pixels get_ndvi_color address date ndvi_features)
                  (date_pixels st + Z.of_nat pixel_count)
                  (report st ++ [FieldPixels address pixel_count])
            | _, _ => say st (FieldNoData address)
            end
        end
    end.

Definition sample_fields (svc : service) (df : list (string * string))
    (target_index date : string) (fields : list field_feature) : layer_state :=
  foldl (process_field svc df target_index date) (mkstate [] [] 0 []) fields.

(** The field boundaries: [feature['geometry']['coordinates'][0]] with
    each [(lon, lat)] turned into [(lat, lon)]. *)
Fixpoint outlines (fields : list field_feature) : ext (list element) :=
  match fields with
  | [] => Returns []
  | feature :: rest =>
      if String.eqb (geom_type feature) "Polygon" then
        match coordinates feature with
        | [] => Raises IndexError
        | ring :: _ =>
            match outlines rest with
            | Returns l =>
                Returns (Polygon (map (fun c => (c.2, c.1)) ring) :: l)
            | Raises e => Raises e
            end
        end
      else outlines rest
  end.

Definition process_date (svc : service) (df : list (string * string))
    (fields : list field_feature) (new_dates : list string)
    (acc : history * list feature_group * list feature_group) (date : string)
  : M (history * list feature_group * list feature_group) :=
  let '(h, m_lai, m_ndvi) := acc in
  match date_to_index h !! date with
  | None => raise KeyError
  | Some target_index =>
      let visible := bool_decide (last new_dates = Some date) in
      let st := sample_fields svc df target_index date fields in
      do _ <- print_all (report st);
      do borders <- call (outlines fields);
      let layer_lai :=
        mkgroup ("LAI_" +:+ date) visible (lai_children st ++ borders) in
      let layer_ndvi :=
        mkgroup ("NDVI_" +:+ date) visible (ndvi_children st ++ borders) in
      do _ <- print (DateDone date (date_pixels st));
      ret (mkhistory (dates h ++ [date]) (date_to_index h)
             (<[date := date_pixels st]> (pixel_counts h)),
           m_lai ++ [layer_lai], m_ndvi ++ [layer_ndvi])
  end.

(** ** [8] Saving *)

Definition save_map (svc : service) (t : target) (m : map_doc) : M unit :=
  do _ <- open_w t;
  do _ <- update_disk (fun d =>
            match t with
            | NdviHtml =>
                mkfiles (history_file d) (state_file d) (index_html d)
                        (written (write_fate svc t) m (ndvi_html d))
            | _ =>
                mkfiles (history_file d) (state_file d)
                        (written (write_fate svc t) m (index_html d))
                        (ndvi_html d)
            end);
  finish_write (write_fate svc t).

Definition save_history (svc : service) (h : history) : M unit :=
  do _ <- open_w HistoryJson;
  do _ <- update_disk (fun d =>
            mkfiles (written (write_fate svc HistoryJson) h (history_file d))
                    (state_file d) (index_html d) (ndvi_html d));
  finish_write (write_fate svc HistoryJson).

Definition save_marker (svc : service) (date : string) : M unit :=
  do _ <- open_w StateTxt;
  do _ <- update_disk (fun d =>
            mkfiles (history_file d)
                    (written (write_fate svc StateTxt) date (state_file d))
                    (index_html d) (ndvi_html d));
  finish_write (write_fate svc StateTxt).

(** [sum(history['pixel_counts'].values())]. *)
Definition sum_values (m : gmap string Z) : Z :=
  map_fold (fun _ v acc => v + acc) 0 m.

(** ** The script

    The script is one sequence of statements; it is cut here at the two
    places where its data changes hands: after [new_dates] is known, and
    before the first file is written. *)

(** Lines 21 to 134: initialisation, the two inputs, the count of new
    images, the history and the delta. *)
Definition detect (svc : service)
  : M (list (string * string) * history * list string) :=
  if negb (ee_initialize svc) then do _ <- print InitError; exit 1
  else
  do target_fields_df <- call (read_excel svc);
  do new_image_count <- call (collection_size svc);
  if (new_image_count =? 0)%nat then do _ <- print NoNewImages; exit 0
  else
  do history0 <- load_history;
  do collection_info <- call (collection_getInfo svc);
  do ' (history1, new_dates) <-
     call (compute_delta history0 (default [] collection_info));
  do _ <- print (NewDateCount (length new_dates));
  if (length new_dates =? 0)%nat then do _ <- print NoNewDates; exit 0
  else ret (target_fields_df, history1, new_dates).

(** Lines 139 to 398: the fields, the centre of the map, the layers of
    every new date, the titles. *)
Definition build (svc : service) (target_fields_df : list (string * string))
    (history1 : history) (new_dates : list string)
  : M (history * map_doc * map_doc * string) :=
  do fields_info <- call (fields_getInfo svc);
  do coords <- call (bounds_getInfo svc);
  if (length coords =? 0)%nat then raise ZeroDivisionError
  else
  do ' (history2, m_lai, m_ndvi) <-
     for_each (process_date svc target_fields_df fields_info new_dates)
       (history1, [], []) new_dates;
  let all_dates := sorted (dates history2) in
  let total := sum_values (pixel_counts history2) in
  do oldest <- call (item_first all_dates);
  do youngest <- call (item_last all_dates);
  do newest <- call (item_last new_dates);
  let title_lai :=
    mktitle oldest youngest (length all_dates) (length fields_info)
            (Some total) newest in
  let title_ndvi :=
    mktitle oldest youngest (length all_dates) (length fields_info)
            None newest in
  ret (history2, mkmap m_lai title_lai, mkmap m_ndvi title_ndvi, newest).

(** Lines 400 to 420: the two maps, the history, the marker. *)
Definition persist (svc : service) (history2 : history)
    (m_lai m_ndvi : map_doc) (newest : string) : M unit :=
  do _ <- save_map svc IndexHtml m_lai;
  do _ <- save_map svc NdviHtml m_ndvi;
  do _ <- print MapsSaved;
  do _ <- save_history svc history2;
  do _ <- print HistorySaved;
  do _ <- save_marker svc newest;
  print (MarkerSaved newest).

Definition run (svc : service) : M unit :=
  do ' (target_fields_df, history1, new_dates) <- detect svc;
  do ' (history2, m_lai, m_ndvi, newest) <-
     build svc target_fields_df history1 new_dates;
  persist svc history2 m_lai m_ndvi newest.

(** The process exit status: 0 when the script runs to its end, the
    argument of [exit], 1 after an uncaught exception; none when the
    process was stopped from outside. *)
Definition exit_code (o : outcome unit) : option Z :=
  match o with
  | Ret _ => Some 0
  | Stop (Exit c) => Some c
  | Stop (Uncaught _) => Some 1
  | Stop Crashed => None
  end.

(** * Vocabulary of the properties *)

(** Lexicographic combination of two comparisons. *)
Definition lex (c k : comparison) : comparison :=
  match c with Eq => k | _ => c end.

(** The date identifier of a candidate, when it has one. *)
Definition date_id (f : image_feature) : option string :=
  idx ← system_index f; strftime <$> strptime (slice_to 8 idx).

(** A candidate is well dated when its index, if any, starts with a date. *)
Definition well_dated (f : image_feature) : Prop :=
  match system_index f with
  | Some idx => is_Some (strptime (slice_to 8 idx))
  | None => True
  end.

(** A candidate has a full year when its index, if any, starts with a
    date whose year takes four digits: 1000 to 9999. *)
Definition full_year (f : image_feature) : Prop :=
  match system_index f with
  | Some idx => exists d, strptime (slice_to 8 idx) = Some d /\ 1000 <= year d
  | None => True
  end.

(** The text [YYYY-MM-DD] of a date, the year padded to four digits. *)
Definition iso_text (d : date) : string :=
  zfill 4 (year d) (String "-" (zfill 2 (month d)
                   (String "-" (zfill 2 (day d) EmptyString)))).

(** A text without its leading zeros. *)
Fixpoint unpad (s : string) : string :=
  match s with
  | String c r => if Ascii.eqb c "0" then unpad r else s
  | EmptyString => s
  end.

(** The index of the first candidate of the list dated [s]. *)
Fixpoint first_seen (s : string) (features : list image_feature)
  : option string :=
  match features with
  | [] => None
  | f :: rest =>
      if decide (date_id f = Some s) then system_index f
      else first_seen s rest
  end.

(** What [json.load] makes of the history file. *)
Definition read_history (d : files) : ext history :=
  match history_file d with
  | Some (Whole h) => Returns h
  | Some (Torn _ _) => Raises JSONDecodeError
  | None => Returns empty_history
  end.

(** A computation is quiet when it opens no file for writing, so that
    every file is as it was and the process is not stopped midway. *)
Definition quiet {A} (m : M A) : Prop :=
  forall w o w', m w = (o, w') ->
    disk w' = disk w /\ opened w' = opened w /\ o <> Stop Crashed.

(** The test [feature['geometry']['type'] == 'Polygon']. *)
Definition is_polygon (f : field_feature) : bool :=
  String.eqb (geom_type f) "Polygon".

(** The two samplings of a field taken together: both feature lists, no
    data when a response lacks ['features'], or the exception raised. *)
Definition sampled (svc : service) (target_index : string) (f : field_feature)
  : ext (option (list pixel_feature * list pixel_feature)) :=
  match sample svc LAI target_index f with
  | Raises e => Raises e
  | Returns sample_lai =>
      match sample svc NDVI target_index f with
      | Raises e => Raises e
      | Returns sample_ndvi =>
          match sample_lai, sample_ndvi with
          | Some lai_features, Some ndvi_features =>
              Returns (Some (lai_features, ndvi_features))
          | _, _ => Returns None
          end
      end
  end.

(** The pixels a field adds to the count of a date. *)
Definition counted (svc : service) (target_index : string) (f : field_feature)
  : Z :=
  if is_polygon f then
    match sampled svc target_index f with
    | Returns (Some (lai_features, _)) => Z.of_nat (length lai_features)
    | _ => 0
    end
  else 0.

(** What one field adds to the state of the loop. *)
Definition contribution (svc : service) (df : list (string * string))
    (target_index date : string) (f : field_feature) : layer_state :=
  process_field svc df target_index date (mkstate [] [] 0 []) f.

(** The state of the loop after [a] then [b]. *)
Definition merge (a b : layer_state) : layer_state :=
  mkstate (lai_children a ++ lai_children b)
          (ndvi_children a ++ ndvi_children b)
          (date_pixels a + date_pixels b)
          (report a ++ report b).

(** The pixel count of a date under a given index table. *)
Definition pixels_on (svc : service) (df : list (string * string))
    (fields : list field_feature) (index : gmap string string) (d : string)
  : Z :=
  match index !! d with
  | Some idx => date_pixels (sample_fields svc df idx d fields)
  | None => 0
  end.

(** The three parts of a history name the same dates. *)
Definition consistent (h : history) : Prop :=
  forall s, (s ∈ dates h <-> is_Some (date_to_index h !! s))
            /\ (s ∈ dates h <-> is_Some (pixel_counts h !! s)).

(** A candidate brings nothing new when it has no index, or when its
    date already has one. *)
Definition already_known (h : history) (f : image_feature) : Prop :=
  match system_index f with
  | Some _ => exists s, date_id f = Some s /\ is_Some (date_to_index h !! s)
  | None => True
  end.

(** The form [YYYY-MM-DD]: ten characters, digits but for two hyphens. *)
Definition iso_form (s : string) : bool :=
  match s with
  | String y1 (String y2 (String y3 (String y4 (String h1
      (String m1 (String m2 (String h2
        (String d1 (String d2 EmptyString))))))))) =>
      is_digit y1 && is_digit y2 && is_digit y3 && is_digit y4
      && Ascii.eqb h1 "-" && is_digit m1 && is_digit m2
      && Ascii.eqb h2 "-" && is_digit d1 && is_digit d2
  | _ => false
  end.

(** A pixel that the drawing passes over. *)
Definition passed_over (px : pixel_feature) : bool :=
  match geometry px, properties px with
  | Some _, Some _ => false
  | _, _ => true
  end.

(** The text [YYYY-MM-DD] made of eight characters. *)
Definition hyphenate (a b c d e f g h : ascii) : string :=
  String a (String b (String c (String d (String "-"
    (String e (String f (String "-" (String g (String h EmptyString))))))))).

(** The date that eight digits spell. *)
Definition digits_date (a b c d e f g h : ascii) : date :=
  mkdate (1000 * digit_val a + 100 * digit_val b + 10 * digit_val c
          + digit_val d)
         (10 * digit_val e + digit_val f) (10 * digit_val g + digit_val h).

(** The eight characters [YYYYMMDD] of a date, as a Sentinel-2 index
    starts. *)
Definition compact (d : date) : string :=
  zfill 4 (year d) (zfill 2 (month d) (zfill 2 (day d) EmptyString)).

(** The alternative of a directive that is tried when [b] holds. *)
Definition first_if (b : bool) (x : Z * string) : list (Z * string) :=
  if b then [x] else [].

(** A computation is exitless when it never ends by [exit]. *)
Definition exitless {A} (m : M A) : Prop :=
  forall w c w', m w <> (Stop (Exit c), w').

(** The layer of a date on one of the two maps: its name, whether it is
    shown, and its children, the rectangles of the fields followed by the
    field boundaries. *)
Definition layer_of_date (svc : service) (df : list (string * string))
    (fields : list field_feature) (new_dates : list string)
    (index : gmap string string) (tag : string)
    (pick : layer_state -> list element) (d : string) (l : feature_group)
  : Prop :=
  exists idx borders,
    index !! d = Some idx
    /\ outlines fields = Returns borders
    /\ l = mkgroup (tag +:+ d) (bool_decide (last new_dates = Some d))
             (pick (sample_fields svc df idx d fields) ++ borders).

(** The rectangle drawn for the pixel at [(lon, lat)] with value [v]. *)
Definition rectangle_of (color_of : option float -> string)
    (address date : string) (lon lat : float) (v : option float) : element :=
  Rectangle (pixel_bounds lon lat) (color_of v) address date v.

(** The outline of a polygon field: its first ring, each [(lon, lat)]
    turned into [(lat, lon)]. *)
Definition outline_of (f : field_feature) : element :=
  Polygon (map (fun c => (c.2, c.1)) (hd [] (coordinates f))).

(** * Concrete runs *)

(** A history that knows 2025-03-10, and the service answering with a new
    image of 2025-03-17 before the known one. *)
Definition known_history : history :=
  mkhistory ["2025-03-10"] {[ "2025-03-10" := "20250310T000000" ]}
            {[ "2025-03-10" := 120 ]}.

Definition overlapping_images : list image_feature :=
  [mkimage (Some "20250317T013651_20250317T013652_T54SVH");
   mkimage (Some "20250310T000000")].

Definition a_field : field_feature :=
  mkfield "Polygon"
    [[(140.30, 38.76); (140.31, 38.76); (140.31, 38.77); (140.30, 38.76)]%float]
    (Some "uu-0001").

Definition a_pixel (v : float) : pixel_feature :=
  mkpixel (Some (140.305, 38.765)%float) (Some (Some v)).

(** No history yet; the service returns one image of 2025-03-10. *)
Definition first_service : service :=
  mkservice true (Returns [("uu-0001", "Shinjo 1")])
    (Returns 1%nat) (Returns (Some [mkimage (Some "20250310T000000")]))
    (Returns [a_field])
    (Returns [(140.30, 38.76); (140.31, 38.77)]%float)
    (fun b _ _ =>
       match b with
       | LAI => Returns (Some [a_pixel 1.2%float; mkpixel None None])
       | NDVI => Returns (Some [a_pixel 0.45%float])
       end)
    (fun _ => Completes).

Definition empty_disk : files := mkfiles None None None None.

Definition first_run : outcome unit * world :=
  run first_service (boot empty_disk).



Definition known_disk : files :=
  mkfiles (Some (Whole known_history)) (Some (Whole "2025-03-10")) None None.

(** The service returns again the image of 2025-03-10. *)
Definition replay_service : service :=
  mkservice true (Returns [("uu-0001", "Shinjo 1")])
    (Returns 1%nat) (Returns (Some [mkimage (Some "20250310T000000")]))
    (Returns [a_field])
    (Returns [(140.30, 38.76); (140.31, 38.77)]%float)
    (fun _ _ _ => Returns (Some [a_pixel 1.2%float]))
    (fun _ => Completes).

(** The history knows 2025-03-10; the service returns a new image of
    2025-03-17; the process stops just after it has opened the history
    file for writing. *)
Definition torn_service : service :=
  mkservice true (Returns [("uu-0001", "Shinjo 1")])
    (Returns 1%nat)
    (Returns (Some [mkimage (Some "20250317T013651_20250317T013652_T54SVH")]))
    (Returns [a_field])
    (Returns [(140.30, 38.76); (140.31, 38.77)]%float)
    (fun _ _ _ => Returns (Some [a_pixel 1.2%float]))
    (fun t => match t with HistoryJson => Interrupted 0 | _ => Completes end).

(** The service of the first run, with every sampling raising. *)
Definition failing_service : service :=
  mkservice true (Returns [("uu-0001", "Shinjo 1")])
    (Returns 1%nat) (Returns (Some [mkimage (Some "20250310T000000")]))
    (Returns [a_field])
    (Returns [(140.30, 38.76); (140.31, 38.77)]%float)
    (fun _ _ _ => Raises EEException)
    (fun _ => Completes).

(** The service returns an image whose index does not start with a date. *)
Definition misnamed_service : service :=
  mkservice true (Returns [("uu-0001", "Shinjo 1")])
    (Returns 2%nat)
    (Returns (Some [mkimage (Some "20250317T013651"); mkimage (Some "mosaic_2025")]))
    (Returns [a_field])
    (Returns [(140.30, 38.76); (140.31, 38.77)]%float)
    (fun _ _ _ => Returns (Some [a_pixel 1.2%float]))
    (fun _ => Completes).

(** The disk left by the interrupted save. *)
Definition torn_disk : files :=
  mkfiles (Some (Torn known_history 0)) (Some (Whole "2025-03-10")) None None.

(** A field whose geometry is not a polygon. *)
Definition a_multipolygon : field_feature :=
  mkfield "MultiPolygon" [] (Some "uu-0002").

(** The bounds of the fields come back empty. *)
Definition no_bounds_service : service :=
  mkservice true (Returns [("uu-0001", "Shinjo 1")])
    (Returns 1%nat) (Returns (Some [mkimage (Some "20250310T000000")]))
    (Returns [a_field]) (Returns [])
    (fun _ _ _ => Returns (Some [a_pixel 1.2%float]))
    (fun _ => Completes).

(** The history file cannot be opened for writing. *)
Definition refused_service : service :=
  mkservice true (Returns [("uu-0001", "Shinjo 1")])
    (Returns 1%nat)
    (Returns (Some [mkimage (Some "20250317T013651_20250317T013652_T54SVH")]))
    (Returns [a_field])
    (Returns [(140.30, 38.76); (140.31, 38.77)]%float)
    (fun _ _ _ => Returns (Some [a_pixel 1.2%float]))
    (fun t => match t with HistoryJson => Refused | _ => Completes end).

(** Two candidates a day apart: the last day of 999 and the first day of
    1000, on an empty disk. *)
Definition early_images : list image_feature :=
  [mkimage (Some "09991231T013651"); mkimage (Some "10000101T013651")].

Definition early_service : service :=
  mkservice true (Returns [("uu-0001", "Shinjo 1")])
    (Returns 2%nat) (Returns (Some early_images))
    (Returns [a_field])
    (Returns [(140.30, 38.76); (140.31, 38.77)]%float)
    (fun _ _ _ => Returns (Some [a_pixel 1.2%float]))
    (fun _ => Completes).

(** A history file that lists 2025-03-10 in [dates] and in
    [pixel_counts], without an index for it. *)
Definition unindexed_history : history :=
  mkhistory ["2025-03-10"] ∅ {[ "2025-03-10" := 120 ]}.

Definition unindexed_disk : files :=
  mkfiles (Some (Whole unindexed_history)) (Some (Whole "2025-03-10"))
          None None.

(** The history knows 2025-03-10; the service returns a new image of
    2025-03-17 and the known one again; every write completes. *)
Definition overlap_service : service :=
  mkservice true (Returns [("uu-0001", "Shinjo 1")])
    (Returns 2%nat) (Returns (Some overlapping_images))
    (Returns [a_field])
    (Returns [(140.30, 38.76); (140.31, 38.77)]%float)
    (fun _ _ _ => Returns (Some [a_pixel 1.2%float]))
    (fun _ => Completes).

(** * Properties *)

(** ** Dates and their text *)

Section CalendarFacts.

Lemma compare_split (a b : Z) :
  0 <= a -> 0 <= b ->
  (a ?= b) = lex (a / 10 ?= b / 10) (a mod 10 ?= b mod 10).
Proof.
  intros Ha Hb. unfold lex.
  pose proof (Z.div_mod a 10 ltac:(lia)) as Ea.
  pose proof (Z.div_mod b 10 ltac:(lia)) as Eb.
  pose proof (Z.mod_pos_bound a 10 ltac:(lia)) as Ba.
  pose proof (Z.mod_pos_bound b 10 ltac:(lia)) as Bb.
  destruct (Z.compare_spec (a / 10) (b / 10)) as [H|H|H];
    destruct (Z.compare_spec (a mod 10) (b mod 10)) as [H'|H'|H'];
    first [ apply Z.compare_eq_iff | apply Z.compare_lt_iff
          | apply Z.compare_gt_iff ]; lia.
Qed.

Lemma ord_digit_char (x : Z) : 0 <= x < 10 -> ord (digit_char x) = 48 + x.
Proof.
  intros Hx. unfold ord, digit_char, chr.
  rewrite N_ascii_embedding; lia.
Qed.

Lemma compare_digit_char (x y : Z) :
  0 <= x < 10 -> 0 <= y < 10 ->
  Ascii.compare (digit_char x) (digit_char y) = (x ?= y).
Proof.
  intros Hx Hy. unfold Ascii.compare.
  rewrite <- N2Z.inj_compare.
  fold (ord (digit_char x)). fold (ord (digit_char y)).
  rewrite !ord_digit_char by done.
  apply Z.add_compare_mono_l.
Qed.

Lemma zfill_compare (k : nat) : forall (a b : Z) (s t : string),
  0 <= a < 10 ^ Z.of_nat k -> 0 <= b < 10 ^ Z.of_nat k ->
  String.compare (zfill k a s) (zfill k b t)
  = lex (a ?= b) (String.compare s t).
Proof.
  induction k as [|k IH]; intros a b s t Ha Hb.
  - simpl in *. assert (a = 0) as -> by lia. assert (b = 0) as -> by lia.
    done.
  - rewrite Nat2Z.inj_succ, Z.pow_succ_r in Ha, Hb by lia.
    assert (Hdiv : forall x, 0 <= x < 10 * 10 ^ Z.of_nat k ->
                         0 <= x / 10 < 10 ^ Z.of_nat k).
    { intros x Hx. split; [apply Z.div_pos; lia|].
      apply Z.div_lt_upper_bound; lia. }
    cbn [zfill]. rewrite IH by auto.
    cbn [String.compare].
    rewrite compare_digit_char by (apply Z.mod_pos_bound; lia).
    rewrite (compare_split a b) by lia.
    unfold lex.
    destruct (a / 10 ?= b / 10); [|done..].
    by destruct (a mod 10 ?= b mod 10).
Qed.

(** The fields of a date that [datetime] accepts fit their columns. *)
Lemma valid_date_bounds (d : date) :
  valid_date d = true ->
  1 <= year d <= 9999 /\ 1 <= month d <= 12 /\ 1 <= day d <= 31.
Proof.
  unfold valid_date. rewrite !andb_true_iff, !Z.leb_le.
  intros [[[[[? ?] ?] ?] ?] Hd]. repeat split; try done.
  etrans; [exact Hd|]. unfold days_in_month.
  repeat (case_match; try lia).
Qed.

(** A year of four digits is printed as it is with padding. *)
Lemma numeral_zfill (y : Z) (t : string) :
  1000 <= y <= 9999 -> numeral 4 y t = zfill 4 y t.
Proof.
  intros Hy. cbn [numeral zfill].
  assert (100 <= y / 10) by (apply Z.div_le_lower_bound; lia).
  assert (10 <= y / 10 / 10) by (apply Z.div_le_lower_bound; lia).
  assert (1 <= y / 10 / 10 / 10) by (apply Z.div_le_lower_bound; lia).
  rewrite !(proj2 (Z.eqb_neq _ 0)) by lia.
  by destruct (_ =? 0).
Qed.

Lemma strftime_iso_text (d : date) :
  1000 <= year d <= 9999 -> strftime d = iso_text d.
Proof. intros Hy. unfold strftime, iso_text. by rewrite numeral_zfill. Qed.

(** The text order of two padded dates is their calendar order. *)
Lemma iso_text_compare (a b : date) :
  valid_date a = true -> valid_date b = true ->
  String.compare (iso_text a) (iso_text b) = date_compare a b.
Proof.
  intros (Hy & Hm & Hd)%valid_date_bounds (Hy' & Hm' & Hd')%valid_date_bounds.
  unfold iso_text, date_compare.
  rewrite zfill_compare by (simpl; lia). cbn [String.compare].
  change (Ascii.compare "-" "-") with Eq. cbv iota.
  rewrite zfill_compare by (simpl; lia). cbn [String.compare].
  change (Ascii.compare "-" "-") with Eq. cbv iota.
  rewrite zfill_compare by (simpl; lia). cbn [String.compare].
  unfold lex. by repeat case_match.
Qed.

(** The text order of two formatted dates is their calendar order when
    both years have four digits. *)
Lemma strftime_compare (a b : date) :
  valid_date a = true -> valid_date b = true ->
  1000 <= year a -> 1000 <= year b ->
  String.compare (strftime a) (strftime b) = date_compare a b.
Proof.
  intros Ha Hb Hya Hyb.
  pose proof (valid_date_bounds _ Ha) as (? & _).
  pose proof (valid_date_bounds _ Hb) as (? & _).
  rewrite !strftime_iso_text by lia. by apply iso_text_compare.
Qed.

Lemma date_compare_eq (a b : date) : date_compare a b = Eq -> a = b.
Proof.
  destruct a as [y m d], b as [y' m' d']. unfold date_compare. simpl.
  destruct (Z.compare_spec y y'); try done.
  destruct (Z.compare_spec m m'); try done.
  destruct (Z.compare_spec d d'); try done.
  intros _. by subst.
Qed.

Lemma date_compare_refl (a : date) : date_compare a a = Eq.
Proof. unfold date_compare. by rewrite !Z.compare_refl. Qed.

Lemma date_le_refl (a : date) : date_le a a.
Proof. unfold date_le. by rewrite date_compare_refl. Qed.

Lemma strftime_le (a b : date) :
  valid_date a = true -> valid_date b = true ->
  1000 <= year a -> 1000 <= year b ->
  String.le (strftime a) (strftime b) <-> date_le a b.
Proof.
  intros Ha Hb Hya Hyb. unfold String.le, String.leb, date_le.
  rewrite strftime_compare by done.
  destruct (date_compare a b); simpl; split; done.
Qed.

Lemma strptime_valid (s : string) (d : date) :
  strptime s = Some d -> valid_date d = true.
Proof.
  unfold strptime. intros H.
  repeat case_match; simplify_eq. done.
Qed.

End CalendarFacts.

(** ** The scan of the candidate images *)

Section Scan.

Implicit Types (h : history) (acc : history * list string).
Implicit Types (f : image_feature) (fs : list image_feature).

Lemma date_id_index f s : date_id f = Some s -> is_Some (system_index f).
Proof. unfold date_id. destruct (system_index f); [eauto|done]. Qed.

Lemma date_id_well_dated f s : date_id f = Some s -> well_dated f.
Proof.
  unfold date_id, well_dated. destruct (system_index f) as [idx|]; [|done].
  simpl. destruct (strptime _); [eauto|done].
Qed.

Lemma date_id_valid f s :
  date_id f = Some s -> exists d, valid_date d = true /\ s = strftime d.
Proof.
  unfold date_id. destruct (system_index f) as [idx|]; [|done]. simpl.
  destruct (strptime _) as [d|] eqn:E; [|done]. intros [= <-].
  exists d. split; [by eapply strptime_valid|done].
Qed.

Lemma date_id_full_year f s :
  full_year f -> date_id f = Some s ->
  exists d, (valid_date d = true /\ 1000 <= year d) /\ s = strftime d.
Proof.
  unfold full_year, date_id. destruct (system_index f) as [idx|]; [|done].
  simpl. intros (d & E & Hy). rewrite E. intros [= <-].
  exists d. split; [|done]. split; [by eapply strptime_valid|done].
Qed.

Lemma full_year_well_dated f : full_year f -> well_dated f.
Proof.
  unfold full_year, well_dated. destruct (system_index f); [|done].
  intros (d & -> & _). eauto.
Qed.

(** One step of the scan, in terms of the candidate's date identifier. *)
Lemma scan_feature_spec acc f :
  well_dated f ->
  scan_feature acc f =
  Returns
    match date_id f, system_index f with
    | Some s, Some idx =>
        match date_to_index acc.1 !! s with
        | Some _ => acc
        | None => (mkhistory (dates acc.1)
                     (<[s := idx]> (date_to_index acc.1))
                     (pixel_counts acc.1), acc.2 ++ [s])
        end
    | _, _ => acc
    end.
Proof.
  unfold well_dated, scan_feature, date_id.
  destruct (system_index f) as [idx|]; [|done]. simpl.
  intros [d ->]. simpl. by destruct (_ !! _).
Qed.

Lemma scan_feature_well_dated acc f acc' :
  scan_feature acc f = Returns acc' -> well_dated f.
Proof.
  unfold well_dated, scan_feature.
  destruct (system_index f) as [idx|]; [|done].
  destruct (strptime _); [eauto|done].
Qed.

Lemma first_seen_some s fs :
  is_Some (first_seen s fs) <-> exists f, f ∈ fs /\ date_id f = Some s.
Proof.
  induction fs as [|f fs IH]; simpl.
  - split; [by intros [? ?]|]. intros (f & Hf & _). by apply elem_of_nil in Hf.
  - case_decide as Hd.
    + split; [|by intros _; eapply date_id_index]. intros _.
      exists f. split; [left|done].
    + rewrite IH. split.
      * intros (g & Hg & Hs). exists g. split; [by right|done].
      * intros (g & Hg & Hs). apply elem_of_cons in Hg as [->|Hg]; [done|].
        eauto.
Qed.

(** The scan always returns on well-dated candidates. *)
Lemma scan_features_returns fs : forall acc,
  Forall well_dated fs -> exists acc', scan_features acc fs = Returns acc'.
Proof.
  induction fs as [|f fs IH]; intros acc Hwf; simpl; [eauto|].
  apply Forall_cons in Hwf as [Hf Hfs].
  rewrite scan_feature_spec by done. by apply IH.
Qed.

Lemma scan_features_well_dated fs : forall acc acc',
  scan_features acc fs = Returns acc' -> Forall well_dated fs.
Proof.
  induction fs as [|f fs IH]; intros acc acc' H; [constructor|].
  simpl in H. destruct (scan_feature acc f) as [acc1|e] eqn:E; [|done].
  constructor; [by eapply scan_feature_well_dated|by eapply IH].
Qed.

(** The scan touches neither [dates] nor [pixel_counts]. *)
Lemma scan_features_frame fs : forall acc acc',
  scan_features acc fs = Returns acc' ->
  dates acc'.1 = dates acc.1 /\ pixel_counts acc'.1 = pixel_counts acc.1.
Proof.
  induction fs as [|f fs IH]; intros acc acc' H; simpl in H.
  - by simplify_eq.
  - destruct (scan_feature acc f) as [acc1|e] eqn:E; [|done].
    apply IH in H as [-> ->].
    rewrite scan_feature_spec in E by (by eapply scan_feature_well_dated).
    simplify_eq.
    by repeat case_match.
Qed.

(** After the scan a date has the index it had, or else the index of the
    first candidate with that date. *)
Lemma scan_features_lookup fs : forall acc acc' s,
  scan_features acc fs = Returns acc' ->
  date_to_index acc'.1 !! s =
  match date_to_index acc.1 !! s with
  | Some i => Some i
  | None => first_seen s fs
  end.
Proof.
  induction fs as [|f fs IH]; intros acc acc' s H; simpl in H.
  - simplify_eq. simpl. by destruct (_ !! _).
  - destruct (scan_feature acc f) as [acc1|e] eqn:E; [|done].
    rewrite (IH _ _ s H). clear IH H.
    pose proof (scan_feature_well_dated _ _ _ E) as Hf.
    rewrite scan_feature_spec in E by done. simplify_eq. simpl.
    destruct (date_id f) as [s0|] eqn:Ed; cycle 1.
    { rewrite decide_False by congruence. done. }
    destruct (date_id_index _ _ Ed) as [idx Ei]. rewrite Ei.
    destruct (date_to_index acc.1 !! s0) as [i0|] eqn:E0.
    + case_decide; simplify_eq; [by rewrite E0|done].
    + simpl. case_decide; simplify_eq.
      * by rewrite lookup_insert_eq, E0.
      * rewrite lookup_insert_ne by congruence. done.
Qed.

(** What the scan appends to [new_dates]: once each, the dates that had
    no index and that some candidate carries. *)
Lemma scan_features_added fs : forall acc acc',
  scan_features acc fs = Returns acc' ->
  exists added,
    acc'.2 = acc.2 ++ added /\ NoDup added
    /\ forall s, s ∈ added <->
                 date_to_index acc.1 !! s = None /\ is_Some (first_seen s fs).
Proof.
  induction fs as [|f fs IH]; intros acc acc' H; simpl in H.
  - simplify_eq. exists []. rewrite app_nil_r. split; [done|].
    split; [constructor|]. intros s. simpl. split.
    + by intros ?%elem_of_nil.
    + by intros [_ [? ?]].
  - destruct (scan_feature acc f) as [acc1|e] eqn:E; [|done].
    destruct (IH _ _ H) as (added & Heq & Hnd & Hin). clear IH.
    pose proof (scan_feature_well_dated _ _ _ E) as Hf.
    rewrite scan_feature_spec in E by done. simplify_eq.
    destruct (date_id f) as [s0|] eqn:Ed; cycle 1.
    { exists added. split; [done|]. split; [done|]. intros s.
      rewrite Hin. simpl. rewrite decide_False by congruence. done. }
    destruct (date_id_index _ _ Ed) as [idx Ei]. rewrite Ei in *.
    destruct (date_to_index acc.1 !! s0) as [i0|] eqn:E0.
    + exists added. split; [done|]. split; [done|]. intros s.
      rewrite Hin. simpl. case_decide; simplify_eq; [|done].
      rewrite E0. split; intros [? _]; done.
    + simpl in *. exists (s0 :: added).
      split; [by rewrite Heq, <- app_assoc|].
      split.
      * constructor; [|done]. rewrite Hin, lookup_insert_eq. by intros [? _].
      * intros s. rewrite elem_of_cons, Hin.
        destruct (decide (s0 = s)) as [->|Hne].
        -- rewrite decide_True by done. rewrite E0.
           split; [intros _; split; [done|eauto]|intros _; by left].
        -- rewrite lookup_insert_ne by done.
           rewrite decide_False by congruence.
           split; [intros [?|?]; done|intros ?; by right].
Qed.

End Scan.

(** ** The delta *)

Section Delta.

Implicit Types (h : history) (fs : list image_feature).

Lemma compute_delta_inv h fs h' new_dates :
  compute_delta h fs = Returns (h', new_dates) ->
  exists raw, scan_features (h, []) fs = Returns (h', raw)
              /\ new_dates = sorted raw.
Proof.
  unfold compute_delta.
  destruct (scan_features _ _) as [[h1 raw]|e]; [|done].
  intros [= <- <-]. eauto.
Qed.

Lemma compute_delta_returns h fs :
  Forall well_dated fs -> exists r, compute_delta h fs = Returns r.
Proof.
  intros Hwf. unfold compute_delta.
  destruct (scan_features_returns fs (h, []) Hwf) as [[h1 raw] ->]. eauto.
Qed.

Lemma sorted_perm (l : list string) : sorted l ≡ₚ l.
Proof. apply merge_sort_Permutation. Qed.

Lemma sorted_Sorted (l : list string) : Sorted String.le (sorted l).
Proof. apply Sorted_merge_sort; apply _. Qed.

(** [new_dates] has no repetition and holds the dates that had no index
    at the start and that some candidate carries. *)
Lemma new_dates_elem h fs h' new_dates :
  compute_delta h fs = Returns (h', new_dates) ->
  NoDup new_dates
  /\ forall s, s ∈ new_dates <->
               date_to_index h !! s = None
               /\ exists f, f ∈ fs /\ date_id f = Some s.
Proof.
  intros (raw & Hscan & ->)%compute_delta_inv.
  destruct (scan_features_added _ _ _ Hscan) as (added & Heq & Hnd & Hin).
  simpl in *. subst raw. split.
  - by rewrite sorted_perm.
  - intros s. rewrite sorted_perm, Hin. by rewrite first_seen_some.
Qed.

(** A list of formatted valid dates with years of four digits that is
    sorted as text and has no repetition is the image of a list of dates
    in strict calendar order. *)
Lemma text_order_calendar_order (l : list string) :
  Forall (fun s => exists d, (valid_date d = true /\ 1000 <= year d)
                             /\ s = strftime d) l ->
  Sorted String.le l -> NoDup l ->
  exists ds, l = strftime <$> ds
             /\ Forall (fun d => valid_date d = true /\ 1000 <= year d) ds
             /\ StronglySorted date_lt ds.
Proof.
  intros Hall Hs%Sorted_StronglySorted; [|apply _].
  induction Hall as [|s l (d & Hd & ->) Hall IH]; intros Hnd.
  - exists []. repeat split; constructor.
  - apply StronglySorted_inv in Hs as [Hs Hhd].
    apply NoDup_cons in Hnd as [Hnotin Hnd].
    destruct (IH Hs Hnd) as (ds & -> & Hv & Hss).
    exists (d :: ds). split; [done|]. split; [by constructor|].
    constructor; [done|].
    apply Forall_forall. intros d' Hin.
    rewrite Forall_forall in Hv. rewrite Forall_forall in Hhd.
    assert (Hmem : strftime d' ∈ strftime <$> ds)
      by (apply list_elem_of_fmap; eauto).
    specialize (Hhd _ Hmem).
    apply strftime_le in Hhd; [|apply Hd|by apply Hv|apply Hd|by apply Hv].
    unfold date_le in Hhd. unfold date_lt.
    destruct (date_compare d d') eqn:E; [|done|done].
    apply date_compare_eq in E as ->. done.
Qed.

(** [new_dates] is sorted as text. *)
Lemma new_dates_text_sorted h fs h' new_dates :
  compute_delta h fs = Returns (h', new_dates) -> Sorted String.le new_dates.
Proof. intros (raw & _ & ->)%compute_delta_inv. apply sorted_Sorted. Qed.

(** When every candidate has a full year, [new_dates] is the text of a
    list of dates in strictly ascending calendar order. *)
Lemma new_dates_calendar_sorted h fs h' new_dates :
  compute_delta h fs = Returns (h', new_dates) ->
  Forall full_year fs ->
  exists ds, new_dates = strftime <$> ds
             /\ Forall (fun d => valid_date d = true /\ 1000 <= year d) ds
             /\ StronglySorted date_lt ds.
Proof.
  intros Hc Hfull. destruct (new_dates_elem _ _ _ _ Hc) as [Hnd Hin].
  apply text_order_calendar_order; [| |done].
  - apply Forall_forall. intros s [_ (f & Hfin & Hf)]%Hin.
    rewrite Forall_forall in Hfull. by eapply date_id_full_year; eauto.
  - by eapply new_dates_text_sorted.
Qed.

End Delta.

(** ** The run monad *)

Section Monad.

Context {A B : Type}.

Lemma bind_inv (m : M A) (f : A -> M B) w o w' :
  bind m f w = (o, w') ->
  (exists a w1, m w = (Ret a, w1) /\ f a w1 = (o, w'))
  \/ (exists h, m w = (Stop h, w') /\ o = Stop h).
Proof.
  unfold bind. destruct (m w) as [[a|h] w1]; [eauto|].
  intros [= <- <-]. eauto.
Qed.

Lemma bind_ret_inv (m : M A) (f : A -> M B) w b w' :
  bind m f w = (Ret b, w') ->
  exists a w1, m w = (Ret a, w1) /\ f a w1 = (Ret b, w').
Proof. intros [H|(h & _ & [=])]%bind_inv. done. Qed.

Lemma call_inv (r : ext A) w a w' :
  call r w = (Ret a, w') -> r = Returns a /\ w' = w.
Proof. destruct r; intros [= <- <-]; done. Qed.

Lemma quiet_bind (m : M A) (f : A -> M B) :
  quiet m -> (forall a, quiet (f a)) -> quiet (bind m f).
Proof.
  intros Hm Hf w o w' [(a & w1 & H1 & H2)|(h & H1 & ->)]%bind_inv.
  - destruct (Hf _ _ _ _ H2) as (-> & -> & ?).
    destruct (Hm _ _ _ H1) as (-> & -> & _). done.
  - destruct (Hm _ _ _ H1) as (-> & -> & Hn). split; [done|].
    split; [done|]. intros [= ->]. done.
Qed.

Lemma quiet_ret (a : A) : quiet (ret a).
Proof. by intros w o w' [= <- <-]. Qed.

Lemma quiet_exit (c : Z) : quiet (@exit A c).
Proof. by intros w o w' [= <- <-]. Qed.

Lemma quiet_raise (e : exn) : quiet (@raise A e).
Proof. by intros w o w' [= <- <-]. Qed.

Lemma quiet_call (r : ext A) : quiet (call r).
Proof. destruct r; [apply quiet_ret|apply quiet_raise]. Qed.

End Monad.

Lemma quiet_print (l : line) : quiet (print l).
Proof. by intros w o w' [= <- <-]. Qed.

Lemma quiet_read_disk : quiet read_disk.
Proof. by intros w o w' [= <- <-]. Qed.

Lemma quiet_print_all (ls : list line) : quiet (print_all ls).
Proof.
  induction ls as [|l ls IH]; simpl; [apply quiet_ret|].
  apply quiet_bind; [apply quiet_print|done].
Qed.

Lemma quiet_for_each {A S} (body : S -> A -> M S) (l : list A) :
  (forall s a, quiet (body s a)) -> forall s, quiet (for_each body s l).
Proof.
  intros Hb. induction l as [|a l IH]; intros s; simpl; [apply quiet_ret|].
  apply quiet_bind; [apply Hb|done].
Qed.

Create HintDb quiet.

#[local] Hint Resolve quiet_ret quiet_exit quiet_raise quiet_call quiet_print
  quiet_read_disk quiet_print_all : quiet.

Ltac quiet_tac :=
  repeat first
    [ apply quiet_bind; [|intros ?]
    | apply quiet_for_each; intros ? ?
    | progress eauto with quiet
    | match goal with
      | |- quiet (match ?x with _ => _ end) => destruct x
      | |- quiet (let '(_, _) := ?x in _) => destruct x
      | |- quiet (if ?b then _ else _) => destruct b
      end ].

Lemma quiet_load_history : quiet load_history.
Proof. unfold load_history. quiet_tac. Qed.

Lemma quiet_process_date svc df fields new_dates acc date :
  quiet (process_date svc df fields new_dates acc date).
Proof. unfold process_date. quiet_tac. Qed.

(** Nothing is written before the maps are saved. *)
Lemma quiet_detect svc : quiet (detect svc).
Proof. unfold detect. pose proof quiet_load_history. quiet_tac. Qed.

Lemma quiet_build svc df history1 new_dates :
  quiet (build svc df history1 new_dates).
Proof. unfold build. pose proof quiet_process_date. quiet_tac. Qed.

(** ** Detection *)

Lemma load_history_inv w h w' :
  load_history w = (Ret h, w') -> read_history (disk w) = Returns h.
Proof.
  unfold load_history, read_history, bind, read_disk.
  destruct (history_file (disk w)) as [[h0|h0 n]|]; simpl; [|done|].
  - by intros [= <- _].
  - by intros [= <- _].
Qed.

Lemma load_history_total w h :
  read_history (disk w) = Returns h ->
  exists w', load_history w = (Ret h, w') /\ disk w' = disk w.
Proof.
  unfold load_history, read_history, bind, read_disk.
  destruct (history_file (disk w)) as [[h0|h0 n]|]; simpl; [|done|].
  - intros [= <-]. eauto.
  - intros [= <-]. eauto.
Qed.

(** What is known when the script gets past the delta. *)
Lemma detect_inv svc w df history1 new_dates w' :
  detect svc w = (Ret (df, history1, new_dates), w') ->
  ee_initialize svc = true
  /\ read_excel svc = Returns df
  /\ exists n history0 info,
       collection_size svc = Returns (S n)
       /\ read_history (disk w) = Returns history0
       /\ collection_getInfo svc = Returns info
       /\ compute_delta history0 (default [] info)
          = Returns (history1, new_dates)
       /\ new_dates <> [].
Proof.
  unfold detect. destruct (ee_initialize svc); simpl.
  2:{ by intros (? & ? & _ & [=])%bind_ret_inv. }
  intros (df' & w1 & (Hdf & ->)%call_inv & H)%bind_ret_inv.
  apply bind_ret_inv in H as (n & w2 & (Hn & ->)%call_inv & H).
  destruct n as [|n]; simpl in H.
  { by apply bind_ret_inv in H as (? & ? & _ & [=]). }
  apply bind_ret_inv in H as (h0 & w3 & Hload%load_history_inv & H).
  apply bind_ret_inv in H as (info & w4 & (Hinfo & ->)%call_inv & H).
  apply bind_ret_inv in H as ([h1 nd] & w5 & (Hdelta & ->)%call_inv & H).
  apply bind_ret_inv in H as ([] & w6 & _ & H).
  destruct nd as [|d nd]; simpl in H.
  { by apply bind_ret_inv in H as (? & ? & _ & [=]). }
  injection H as <- <- <- <-.
  split; [done|]. split; [done|]. exists n, h0, info. done.
Qed.

(** ** The loop over the fields *)

Section Fields.

Variables (svc : service) (df : list (string * string)).
Variables (target_index date : string).

Implicit Types (st : layer_state) (f : field_feature).
Implicit Types (fields : list field_feature).

Lemma merge_empty_r st : merge st (mkstate [] [] 0 []) = st.
Proof.
  destruct st. unfold merge. simpl. by rewrite !app_nil_r, Z.add_0_r.
Qed.

Lemma merge_empty_l st : merge (mkstate [] [] 0 []) st = st.
Proof. by destruct st. Qed.

Lemma merge_assoc a b c : merge (merge a b) c = merge a (merge b c).
Proof. unfold merge. simpl. by rewrite !app_assoc, Z.add_assoc. Qed.

Lemma process_field_merge st f :
  process_field svc df target_index date st f
  = merge st (contribution svc df target_index date f).
Proof.
  unfold contribution, process_field, say.
  repeat case_match; unfold merge; simpl;
    rewrite ?app_nil_r, ?Z.add_0_r; try done; by destruct st.
Qed.

Lemma foldl_process_field fields : forall st,
  foldl (process_field svc df target_index date) st fields
  = merge st (sample_fields svc df target_index date fields).
Proof.
  unfold sample_fields.
  induction fields as [|f fields IH]; intros st; simpl.
  - by rewrite merge_empty_r.
  - rewrite IH, (IH (process_field _ _ _ _ _ f)).
    rewrite (process_field_merge st), (process_field_merge (mkstate _ _ _ _)).
    by rewrite merge_empty_l, merge_assoc.
Qed.

Lemma sample_fields_cons f fields :
  sample_fields svc df target_index date (f :: fields)
  = merge (contribution svc df target_index date f)
          (sample_fields svc df target_index date fields).
Proof.
  unfold sample_fields at 1. simpl. rewrite foldl_process_field.
  by rewrite process_field_merge, merge_empty_l.
Qed.

Lemma sample_fields_app fields1 fields2 :
  sample_fields svc df target_index date (fields1 ++ fields2)
  = merge (sample_fields svc df target_index date fields1)
          (sample_fields svc df target_index date fields2).
Proof.
  induction fields1 as [|f fields1 IH]; simpl.
  - by rewrite merge_empty_l.
  - by rewrite !sample_fields_cons, IH, merge_assoc.
Qed.

(** A field counts its LAI features when both samplings answer with
    features, and nothing otherwise. *)
Lemma contribution_pixels f :
  date_pixels (contribution svc df target_index date f)
  = counted svc target_index f.
Proof.
  unfold contribution, process_field, counted, sampled, is_polygon, say.
  repeat case_match; simplify_eq; simpl; done.
Qed.

Lemma sample_fields_pixels fields :
  date_pixels (sample_fields svc df target_index date fields)
  = foldr Z.add 0 (counted svc target_index <$> fields).
Proof.
  induction fields as [|f fields IH]; [done|].
  rewrite sample_fields_cons. simpl. by rewrite contribution_pixels, IH.
Qed.

(** A field whose sampling raises or gives no data adds a report line and
    nothing else. *)
Lemma contribution_failed f :
  is_polygon f = true ->
  (forall got, sampled svc target_index f <> Returns (Some got)) ->
  exists l,
    contribution svc df target_index date f = mkstate [] [] 0 [l]
    /\ (l = FieldNoData (lookup_address df (polygon_uu f))
        \/ exists e, l = FieldError (lookup_address df (polygon_uu f)) e).
Proof.
  unfold contribution, process_field, sampled, is_polygon, say.
  intros -> Hfail. simpl.
  destruct (sample svc LAI target_index f) as [[lai|]|e]; simpl; eauto;
    destruct (sample svc NDVI target_index f) as [[ndvi|]|e']; simpl; eauto.
  by destruct (Hfail (lai, ndvi)).
Qed.

End Fields.

(** ** The loop over the new dates *)

Section Dates.

Variables (svc : service) (df : list (string * string)).
Variables (fields : list field_feature) (new_dates : list string).

Implicit Types (h : history) (ml mn : list feature_group).

Lemma process_date_inv h ml mn date acc' w w' :
  process_date svc df fields new_dates (h, ml, mn) date w = (Ret acc', w') ->
  exists idx borders,
    date_to_index h !! date = Some idx
    /\ outlines fields = Returns borders
    /\ acc'.1.1 =
       mkhistory (dates h ++ [date]) (date_to_index h)
         (<[date := date_pixels (sample_fields svc df idx date fields)]>
            (pixel_counts h)).
Proof.
  unfold process_date. destruct (date_to_index h !! date) as [idx|]; [|done].
  intros ([] & w1 & _ & H)%bind_ret_inv.
  apply bind_ret_inv in H as (borders & w2 & (Hb & ->)%call_inv & H).
  apply bind_ret_inv in H as ([] & w3 & _ & H).
  injection H as <- <-. eauto.
Qed.

(** The date loop ends whatever the samplings answer. *)
Lemma process_date_total h ml mn date w idx borders :
  date_to_index h !! date = Some idx ->
  outlines fields = Returns borders ->
  exists h' ml' mn' w',
    process_date svc df fields new_dates (h, ml, mn) date w
    = (Ret (h', ml', mn'), w')
    /\ date_to_index h' = date_to_index h.
Proof.
  intros Hidx Hb. unfold process_date. rewrite Hidx, Hb.
  unfold bind at 1.
  destruct (print_all _ w) as [[[]|hlt] w1] eqn:E.
  - simpl. eauto 10.
  - exfalso. clear -E. revert w E.
    generalize (report (sample_fields svc df idx date fields)).
    intros ls. induction ls as [|l ls IH]; intros w; simpl; [done|].
    unfold bind. simpl. apply IH.
Qed.

Lemma date_loop_inv (l : list string) : forall h ml mn h' ml' mn' w w',
  for_each (process_date svc df fields new_dates) (h, ml, mn) l w
  = (Ret (h', ml', mn'), w') ->
  dates h' = dates h ++ l
  /\ date_to_index h' = date_to_index h
  /\ (forall d, d ∈ l -> is_Some (date_to_index h !! d))
  /\ (forall d, pixel_counts h' !! d =
                if decide (d ∈ l)
                then Some (pixels_on svc df fields (date_to_index h) d)
                else pixel_counts h !! d).
Proof.
  induction l as [|date l IH]; intros h ml mn h' ml' mn' w w' H; simpl in H.
  - injection H as <- <- <- <-. rewrite app_nil_r.
    split; [done|]. split; [done|]. split; [by intros d ?%elem_of_nil|].
    intros d. rewrite decide_False; [done|]. by intros ?%elem_of_nil.
  - apply bind_ret_inv in H as ([[h1 ml1] mn1] & w1 & Hd & H).
    apply process_date_inv in Hd as (idx & borders & Hidx & _ & Hh1).
    simpl in Hh1. subst h1.
    apply IH in H as (Hdates & Hdti & Hkeys & Hpc). simpl in *.
    split; [by rewrite Hdates, <- app_assoc|]. split; [done|]. split.
    + intros d [->|Hd]%elem_of_cons; eauto.
    + intros d. rewrite Hpc. clear Hpc.
      destruct (decide (d ∈ l)) as [Hin|Hnin].
      * rewrite decide_True by (by right). done.
      * destruct (decide (d = date)) as [->|Hne].
        -- rewrite decide_True by (by left). rewrite lookup_insert_eq.
           unfold pixels_on. by rewrite Hidx.
        -- rewrite lookup_insert_ne by done.
           rewrite decide_False; [done|].
           by intros [?|?]%elem_of_cons.
Qed.

Lemma date_loop_total (l : list string) borders : forall h ml mn w,
  outlines fields = Returns borders ->
  (forall d, d ∈ l -> is_Some (date_to_index h !! d)) ->
  exists r w', for_each (process_date svc df fields new_dates) (h, ml, mn) l w
               = (Ret r, w').
Proof.
  induction l as [|date l IH]; intros h ml mn w Hb Hkeys; [simpl; eauto|].
  cbn [for_each].
  destruct (Hkeys date) as [idx Hidx]; [by left|].
  destruct (process_date_total h ml mn date w idx borders Hidx Hb)
    as (h1 & ml1 & mn1 & w1 & Hd & Hdti).
  unfold bind. rewrite Hd. apply IH; [done|].
  intros d Hin. rewrite Hdti. apply Hkeys. by right.
Qed.

End Dates.

(** ** Building and saving *)

Lemma build_inv svc df history1 new_dates history2 m_lai m_ndvi newest w w' :
  build svc df history1 new_dates w
  = (Ret (history2, m_lai, m_ndvi, newest), w') ->
  exists fields,
    fields_getInfo svc = Returns fields
    /\ last new_dates = Some newest
    /\ dates history2 = dates history1 ++ new_dates
    /\ date_to_index history2 = date_to_index history1
    /\ (forall d, d ∈ new_dates -> is_Some (date_to_index history1 !! d))
    /\ (forall d, pixel_counts history2 !! d =
                  if decide (d ∈ new_dates)
                  then Some (pixels_on svc df fields
                               (date_to_index history1) d)
                  else pixel_counts history1 !! d).
Proof.
  unfold build.
  intros (fields & w1 & (Hf & ->)%call_inv & H)%bind_ret_inv.
  apply bind_ret_inv in H as (coords & w2 & (Hc & ->)%call_inv & H).
  destruct (length coords =? 0)%nat; [done|].
  apply bind_ret_inv in H as ([[h2 ml] mn] & w3 & Hloop & H).
  apply date_loop_inv in Hloop as (Hdates & Hdti & Hkeys & Hpc).
  apply bind_ret_inv in H as (oldest & w4 & _ & H).
  apply bind_ret_inv in H as (youngest & w5 & _ & H).
  apply bind_ret_inv in H as (newest' & w6 & (Hn & ->)%call_inv & H).
  injection H as <- <- <- <- <-.
  exists fields. repeat split; try done.
  unfold item_last in Hn. by destruct (last new_dates); simplify_eq.
Qed.

Section Persist.

Variables (svc : service) (history2 : history) (m_lai m_ndvi : map_doc).
Variable (newest : string).

Lemma persist_finished w w' :
  persist svc history2 m_lai m_ndvi newest w = (Ret tt, w') ->
  disk w' = mkfiles (Some (Whole history2)) (Some (Whole newest))
                    (Some (Whole m_lai)) (Some (Whole m_ndvi)).
Proof.
  unfold persist, save_map, save_history, save_marker, finish_write, bind,
    open_w.
  destruct (write_fate svc IndexHtml), (write_fate svc NdviHtml),
    (write_fate svc HistoryJson), (write_fate svc StateTxt); simpl;
    try done.
  by intros [= <-].
Qed.

(** The files are opened in the order maps, history, marker, and the
    marker is opened only once the history file is whole. *)
Lemma persist_opened w o w' :
  persist svc history2 m_lai m_ndvi newest w = (o, w') ->
  exists new,
    opened w' = opened w ++ new
    /\ new `prefix_of` [IndexHtml; NdviHtml; HistoryJson; StateTxt]
    /\ (StateTxt ∈ new ->
        write_fate svc HistoryJson = Completes
        /\ history_file (disk w') = Some (Whole history2)).
Proof.
  unfold persist, save_map, save_history, save_marker, finish_write, bind,
    open_w.
  destruct (write_fate svc IndexHtml), (write_fate svc NdviHtml),
    (write_fate svc HistoryJson), (write_fate svc StateTxt); simpl;
    intros [= <- <-]; simpl; rewrite <- ?app_assoc; simpl;
    (eexists; split; [reflexivity|]);
    (split; [eexists; reflexivity|]);
    first [ done | intros Hin%list_elem_of_In; simpl in Hin;
                   intuition discriminate ].
Qed.

Lemma persist_unopened w o w' new :
  persist svc history2 m_lai m_ndvi newest w = (o, w') ->
  opened w' = opened w ++ new ->
  StateTxt ∉ new ->
  state_file (disk w') = state_file (disk w).
Proof.
  unfold persist, save_map, save_history, save_marker, finish_write, bind,
    open_w.
  destruct (write_fate svc IndexHtml), (write_fate svc NdviHtml),
    (write_fate svc HistoryJson), (write_fate svc StateTxt); simpl;
    intros [= <- <-]; simpl; try done;
    rewrite <- ?app_assoc; simpl; intros <-%app_inv_head Hn;
    destruct Hn; apply list_elem_of_In; simpl; tauto.
Qed.

(** When the file cannot be opened the script stops and the file stays. *)
Lemma persist_refused w o w' :
  persist svc history2 m_lai m_ndvi newest w = (o, w') ->
  write_fate svc HistoryJson = Refused ->
  history_file (disk w') = history_file (disk w)
  /\ state_file (disk w') = state_file (disk w)
  /\ o <> Ret tt.
Proof.
  unfold persist, save_map, save_history, save_marker, finish_write, bind,
    open_w.
  intros H E. rewrite E in H.
  destruct (write_fate svc IndexHtml), (write_fate svc NdviHtml); simpl in H;
    by injection H as <- <-.
Qed.

End Persist.

(** ** The whole run *)

(** A run stops before the first write, with the disk as it was, or it
    gets to the saving with the disk as it was. *)
Lemma run_inv svc w o w' :
  run svc w = (o, w') ->
  (disk w' = disk w /\ opened w' = opened w
   /\ exists h, o = Stop h /\ h <> Crashed)
  \/ exists df history1 new_dates w1 history2 m_lai m_ndvi newest w2,
       detect svc w = (Ret (df, history1, new_dates), w1)
       /\ build svc df history1 new_dates w1
          = (Ret (history2, m_lai, m_ndvi, newest), w2)
       /\ persist svc history2 m_lai m_ndvi newest w2 = (o, w')
       /\ disk w2 = disk w /\ opened w2 = opened w.
Proof.
  unfold run.
  intros [([[df h1] nd] & w1 & Hd & H)|(h & Hd & ->)]%bind_inv.
  2:{ left. destruct (quiet_detect _ _ _ _ Hd) as (? & ? & Hn).
      split; [done|]. split; [done|]. exists h. split; [done|].
      by intros ->. }
  destruct (quiet_detect _ _ _ _ Hd) as (Hq1 & Ho1 & _).
  apply bind_inv in H
    as [([[[h2 ml] mn] newest] & w2 & Hb & H)|(h & Hb & ->)].
  2:{ left. destruct (quiet_build _ _ _ _ _ _ _ Hb) as (? & ? & Hn).
      split; [congruence|]. split; [congruence|]. exists h.
      split; [done|]. by intros ->. }
  destruct (quiet_build _ _ _ _ _ _ _ Hb) as (Hq2 & Ho2 & _).
  right. exists df, h1, nd, w1, h2, ml, mn, newest, w2.
  repeat split; try done; congruence.
Qed.

Lemma run_finished_inv svc w w' :
  run svc w = (Ret tt, w') ->
  exists df history1 new_dates w1 history2 m_lai m_ndvi newest w2,
    detect svc w = (Ret (df, history1, new_dates), w1)
    /\ build svc df history1 new_dates w1
       = (Ret (history2, m_lai, m_ndvi, newest), w2)
    /\ disk w' = mkfiles (Some (Whole history2)) (Some (Whole newest))
                         (Some (Whole m_lai)) (Some (Whole m_ndvi)).
Proof.
  intros [(_ & _ & h & [=] & _)|H]%run_inv.
  destruct H as (df & h1 & nd & w1 & h2 & ml & mn & newest & w2
                 & Hd & Hb & Hp & _).
  apply persist_finished in Hp. eauto 12.
Qed.

(** ** When a run reaches its end *)

Lemma new_dates_indexed h fs h' new_dates d :
  compute_delta h fs = Returns (h', new_dates) ->
  d ∈ new_dates ->
  date_to_index h !! d = None
  /\ is_Some (first_seen d fs)
  /\ date_to_index h' !! d = first_seen d fs.
Proof.
  intros Hc Hd.
  destruct (new_dates_elem _ _ _ _ Hc) as [_ Hin].
  apply Hin in Hd as [Hnone Hf]. apply first_seen_some in Hf.
  apply compute_delta_inv in Hc as (raw & Hscan & _).
  pose proof (scan_features_lookup _ _ _ d Hscan) as Hl. simpl in Hl.
  by rewrite Hl, Hnone.
Qed.

Lemma detect_total svc w df n history0 info history1 new_dates :
  ee_initialize svc = true ->
  read_excel svc = Returns df ->
  collection_size svc = Returns (S n) ->
  read_history (disk w) = Returns history0 ->
  collection_getInfo svc = Returns info ->
  compute_delta history0 (default [] info) = Returns (history1, new_dates) ->
  new_dates <> [] ->
  exists w1, detect svc w = (Ret (df, history1, new_dates), w1).
Proof.
  intros Hi Hdf Hn Hh Hinfo Hc Hne. unfold detect.
  rewrite Hi, Hdf, Hn. simpl. unfold bind at 1. simpl.
  unfold bind at 1. simpl. unfold bind at 1.
  destruct (load_history_total _ _ Hh) as (w1 & -> & _).
  rewrite Hinfo. unfold bind at 1. simpl. rewrite Hc.
  unfold bind at 1. simpl. unfold bind at 1. simpl.
  destruct new_dates; [done|]. simpl. eauto.
Qed.

Lemma item_first_sorted (l : list string) :
  l <> [] -> exists x, item_first (sorted l) = Returns x.
Proof.
  intros Hne. destruct (sorted l) as [|x l'] eqn:E; simpl; [|eauto].
  destruct Hne. apply Permutation_nil_r. by rewrite <- E, sorted_perm.
Qed.

Lemma item_last_nonempty {A} (l : list A) :
  l <> [] -> exists x, item_last l = Returns x.
Proof.
  intros Hne. unfold item_last.
  destruct (last l) eqn:E; [eauto|]. by apply last_None in E.
Qed.

Lemma build_total svc df history1 new_dates w fields coords borders :
  fields_getInfo svc = Returns fields ->
  bounds_getInfo svc = Returns coords ->
  coords <> [] ->
  outlines fields = Returns borders ->
  new_dates <> [] ->
  (forall d, d ∈ new_dates -> is_Some (date_to_index history1 !! d)) ->
  exists r w', build svc df history1 new_dates w = (Ret r, w').
Proof.
  intros Hf Hc Hne Hb Hnd Hkeys. unfold build. rewrite Hf, Hc.
  unfold bind at 1. simpl. unfold bind at 1. simpl.
  destruct coords; [done|]. simpl.
  destruct (date_loop_total svc df fields new_dates new_dates borders
              history1 [] [] w Hb Hkeys) as ([[h2 ml] mn] & w2 & Hloop).
  unfold bind at 1. rewrite Hloop.
  apply date_loop_inv in Hloop as (Hdates & _).
  destruct (item_first_sorted (dates h2)) as [oldest ->].
  { rewrite Hdates. intros [_ ?]%app_eq_nil. done. }
  destruct (item_last_nonempty (sorted (dates h2))) as [youngest ->].
  { intros E. pose proof (sorted_perm (dates h2)) as Hp. rewrite E in Hp.
    apply Permutation_nil_l in Hp. rewrite Hdates in Hp.
    symmetry in Hp. apply app_eq_nil in Hp as [_ ?]. done. }
  destruct (item_last_nonempty new_dates Hnd) as [newest ->].
  simpl. unfold bind. simpl. eauto.
Qed.

Lemma persist_total svc history2 m_lai m_ndvi newest w :
  (forall t, write_fate svc t = Completes) ->
  exists w', persist svc history2 m_lai m_ndvi newest w = (Ret tt, w').
Proof.
  intros Hw.
  unfold persist, save_map, save_history, save_marker, finish_write, bind,
    open_w.
  rewrite !Hw. simpl. eauto.
Qed.

(** A run reaches its end when the collaborators answer, some candidate
    carries a date without an index, and the four writes complete:
    nothing is asked of the samplings. *)
Lemma run_completes svc w df n history0 info fields coords borders :
  ee_initialize svc = true ->
  read_excel svc = Returns df ->
  collection_size svc = Returns (S n) ->
  read_history (disk w) = Returns history0 ->
  collection_getInfo svc = Returns info ->
  Forall well_dated (default [] info) ->
  (exists f s, f ∈ default [] info /\ date_id f = Some s
               /\ date_to_index history0 !! s = None) ->
  fields_getInfo svc = Returns fields ->
  bounds_getInfo svc = Returns coords ->
  coords <> [] ->
  outlines fields = Returns borders ->
  (forall t, write_fate svc t = Completes) ->
  exists w', run svc w = (Ret tt, w').
Proof.
  intros Hi Hdf Hn Hh Hinfo Hwf (f & s & Hf & Hs & Hnone) Hfi Hco Hne Hb Hw.
  destruct (compute_delta_returns history0 _ Hwf) as [[h1 nd] Hc].
  assert (Hin : s ∈ nd).
  { apply (new_dates_elem _ _ _ _ Hc). eauto. }
  assert (Hnd : nd <> []) by (intros ->; by apply elem_of_nil in Hin).
  destruct (detect_total svc w df n history0 info h1 nd) as [w1 Hd];
    try done.
  destruct (build_total svc df h1 nd w1 fields coords borders)
    as ([[[h2 ml] mn] newest] & w2 & Hbuild); try done.
  { intros d Hd'.
    destruct (new_dates_indexed _ _ _ _ _ Hc Hd') as (_ & Hsome & ->). done. }
  destruct (persist_total svc h2 ml mn newest w2 Hw) as [w' Hp].
  exists w'. unfold run. unfold bind at 1. rewrite Hd.
  unfold bind at 1. rewrite Hbuild. done.
Qed.

(** What a run that reaches its end has done. *)
Lemma finished_run svc w w' :
  run svc w = (Ret tt, w') ->
  exists df fields history0 info history1 new_dates history2 newest
         m_lai m_ndvi,
    read_excel svc = Returns df
    /\ fields_getInfo svc = Returns fields
    /\ read_history (disk w) = Returns history0
    /\ collection_getInfo svc = Returns info
    /\ compute_delta history0 (default [] info)
       = Returns (history1, new_dates)
    /\ last new_dates = Some newest
    /\ dates history2 = dates history0 ++ new_dates
    /\ date_to_index history2 = date_to_index history1
    /\ (forall d, pixel_counts history2 !! d =
                  if decide (d ∈ new_dates)
                  then Some (pixels_on svc df fields
                               (date_to_index history1) d)
                  else pixel_counts history0 !! d)
    /\ disk w' = mkfiles (Some (Whole history2)) (Some (Whole newest))
                         (Some (Whole m_lai)) (Some (Whole m_ndvi)).
Proof.
  intros (df & h1 & nd & w1 & h2 & ml & mn & newest & w2
          & Hd & Hb & Hdisk)%run_finished_inv.
  apply detect_inv in Hd
    as (_ & Hdf & n & h0 & info & _ & Hh & Hinfo & Hc & _).
  apply build_inv in Hb as (fields & Hf & Hlast & Hdates & Hdti & _ & Hpc).
  pose proof Hc as (raw & Hscan & _)%compute_delta_inv.
  apply scan_features_frame in Hscan as [Hfd Hfp]. simpl in *.
  exists df, fields, h0, info, h1, nd, h2, newest, ml, mn.
  rewrite <- Hfd, <- Hfp. done.
Qed.

(** ** Counting the entries of a date *)



(** Two deltas that hold the same dates are the same list. *)
Lemma new_dates_unique h fs h' nd g gs g' nd' :
  compute_delta h fs = Returns (h', nd) ->
  compute_delta g gs = Returns (g', nd') ->
  (forall s, s ∈ nd <-> s ∈ nd') ->
  nd = nd'.
Proof.
  intros Hc Hc' Hsame.
  destruct (new_dates_elem _ _ _ _ Hc) as [Hnd _].
  destruct (new_dates_elem _ _ _ _ Hc') as [Hnd' _].
  apply (Sorted_unique String.le).
  - apply compute_delta_inv in Hc as (raw & _ & ->). apply sorted_Sorted.
  - apply compute_delta_inv in Hc' as (raw & _ & ->). apply sorted_Sorted.
  - by apply NoDup_Permutation.
Qed.

Lemma already_known_well_dated h f : already_known h f -> well_dated f.
Proof.
  unfold already_known, well_dated.
  destruct (system_index f) as [idx|] eqn:E; [|done].
  intros (s & Hs & _). apply date_id_well_dated in Hs.
  unfold well_dated in Hs. by rewrite E in Hs.
Qed.

Lemma nothing_new h fs :
  Forall (already_known h) fs ->
  exists h', compute_delta h fs = Returns (h', []).
Proof.
  intros Hall.
  destruct (compute_delta_returns h fs) as [[h' nd] Hc].
  { eapply Forall_impl; [done|]. apply already_known_well_dated. }
  exists h'. rewrite Hc. do 2 f_equal. apply elem_of_nil_inv.
  intros s [Hnone (f & Hf & Hs)]%(new_dates_elem _ _ _ _ Hc).
  rewrite Forall_forall in Hall. specialize (Hall f Hf).
  unfold already_known in Hall.
  destruct (date_id_index _ _ Hs) as [idx Hidx]. rewrite Hidx in Hall.
  destruct Hall as (s' & Hs' & [i Hi]). congruence.
Qed.

(** ** The marker *)

Lemma is_digit_digit_char (n : Z) : is_digit (digit_char (n mod 10)) = true.
Proof.
  pose proof (Z.mod_pos_bound n 10 ltac:(lia)) as Hb.
  unfold is_digit. rewrite ord_digit_char by done.
  apply andb_true_iff. split; apply Z.leb_le; lia.
Qed.

(** A formatted date has the form [YYYY-MM-DD] exactly when its year has
    four digits. *)
Lemma strftime_iso_form (d : date) :
  valid_date d = true -> iso_form (strftime d) = true <-> 1000 <= year d.
Proof.
  intros (Hy & _)%valid_date_bounds. split.
  - intros H. destruct (Z_lt_le_dec (year d) 1000) as [Hlt|]; [|done].
    exfalso. revert H. unfold strftime. cbn [numeral zfill].
    assert (year d / 10 / 10 / 10 = 0) as ->.
    { rewrite !Z.div_div by lia. apply Z.div_small. lia. }
    change (0 =? 0) with true.
    destruct (year d / 10 =? 0), (year d / 10 / 10 =? 0);
      cbn [iso_form]; done.
  - intros H. rewrite strftime_iso_text by lia.
    unfold iso_text. cbn [zfill iso_form]. by rewrite !is_digit_digit_char.
Qed.

Lemma last_is_greatest {A} (R : relation A) (l : list A) (x : A) :
  StronglySorted R l -> last l = Some x ->
  forall y, y ∈ l -> y = x \/ R y x.
Proof.
  induction 1 as [|a l Hs IH Hall]; [done|].
  intros Hlast y [->|Hy]%elem_of_cons.
  - destruct l as [|b l]; [left; by injection Hlast|].
    right. rewrite Forall_forall in Hall. apply Hall.
    rewrite last_cons in Hlast.
    destruct (last (b :: l)) eqn:E; [|by apply last_None in E].
    injection Hlast as <-. by apply last_Some_elem_of.
  - destruct l as [|b l]; [by apply elem_of_nil in Hy|].
    apply IH; [|done]. rewrite last_cons in Hlast.
    destruct (last (b :: l)) eqn:E; [done|]. by apply last_None in E.
Qed.

(** ** An interrupted save *)

Lemma persist_interrupted svc history2 m_lai m_ndvi newest w o w' n :
  persist svc history2 m_lai m_ndvi newest w = (o, w') ->
  write_fate svc HistoryJson = Interrupted n ->
  state_file (disk w') = state_file (disk w)
  /\ (o = Stop Crashed ->
      write_fate svc IndexHtml = Completes ->
      write_fate svc NdviHtml = Completes ->
      history_file (disk w') = Some (Torn history2 n))
  /\ (o <> Stop Crashed -> history_file (disk w') = history_file (disk w)).
Proof.
  unfold persist, save_map, save_history, save_marker, finish_write, bind,
    open_w.
  intros H E. rewrite E in H.
  destruct (write_fate svc IndexHtml), (write_fate svc NdviHtml); simpl in H;
    injection H as <- <-; simpl; done.
Qed.

(** ** The pixel count *)

Lemma draw_pixels_length color_of address date (features : list pixel_feature) :
  length features
  = (length (draw_pixels color_of address date features)
     + length (List.filter passed_over features))%nat.
Proof.
  induction features as [|px features IH]; [done|].
  change (draw_pixels color_of address date (px :: features))
    with (match
            match geometry px, properties px with
            | Some (lon, lat), Some v =>
                Some (Rectangle (pixel_bounds lon lat) (color_of v)
                        address date v)
            | _, _ => None
            end
          with
          | Some y => y :: draw_pixels color_of address date features
          | None => draw_pixels color_of address date features
          end).
  cbn [List.filter length]. unfold passed_over at 1.
  destruct (geometry px) as [[lon lat]|], (properties px);
    cbn [length]; lia.
Qed.

(** ** The scenarios of the specification *)

Example strptime_examples :
  strptime (slice_to 8 "20250310T000000") = Some (mkdate 2025 3 10)
  /\ strftime (mkdate 2025 3 10) = "2025-03-10"
  /\ strptime "20250230" = None
  /\ strptime "20240229" = Some (mkdate 2024 2 29)
  /\ strptime "2025101x" = None
  /\ strptime "00000101" = None
  /\ strftime (mkdate 987 1 2) = "987-01-02"
  /\ iso_text (mkdate 987 1 2) = "0987-01-02".
Proof. repeat split; vm_compute; reflexivity. Qed.

(** An empty history and one candidate of 2025-03-10. *)
Example scenario_first_run :
  first_run.1 = Ret tt
  /\ history_file (disk first_run.2)
     = Some (Whole (mkhistory ["2025-03-10"]
                      {[ "2025-03-10" := "20250310T000000" ]}
                      {[ "2025-03-10" := 2 ]}))
  /\ state_file (disk first_run.2) = Some (Whole "2025-03-10").
Proof. repeat split; vm_compute; reflexivity. Qed.

(** A known date returned again, with a new one. *)
Example scenario_overlap :
  exists h', compute_delta known_history overlapping_images
             = Returns (h', ["2025-03-17"]).
Proof. eexists. vm_compute. reflexivity. Qed.

(** * The claims *)

(** C1, as stated, fails: of two candidates a day apart, the last day of
    999 and the first day of 1000, the delta lists the later date first,
    since the year 999 is printed on three digits; the delta is not the
    text of any list of dates in ascending calendar order. *)
Lemma early_years_out_of_order :
  Forall well_dated early_images
  /\ date_id (mkimage (Some "09991231T013651")) = Some "999-12-31"
  /\ date_id (mkimage (Some "10000101T013651")) = Some "1000-01-01"
  /\ exists h',
       compute_delta empty_history early_images
       = Returns (h', ["1000-01-01"; "999-12-31"])
       /\ ~ exists ds, ["1000-01-01"; "999-12-31"] = strftime <$> ds
                       /\ Forall (fun d => valid_date d = true) ds
                       /\ StronglySorted date_lt ds.
Proof.
  split; [repeat constructor; vm_compute; eauto|].
  split; [vm_compute; reflexivity|]. split; [vm_compute; reflexivity|].
  eexists. split; [vm_compute; reflexivity|].
  intros (ds & E & Hv & Hs).
  destruct ds as [|d1 [|d2 [|]]]; try discriminate E.
  injection E as E1 E2.
  apply Forall_cons in Hv as [V1 Hv]. apply Forall_cons in Hv as [V2 _].
  assert (1000 <= year d1) as H1.
  { apply strftime_iso_form; [done|]. rewrite <- E1. reflexivity. }
  assert (~ 1000 <= year d2) as H2.
  { intros Hy%strftime_iso_form; [|done]. rewrite <- E2 in Hy.
    discriminate Hy. }
  apply StronglySorted_inv in Hs as [_ Hlt].
  apply Forall_cons in Hlt as [Hlt _].
  unfold date_lt, date_compare in Hlt.
  destruct (Z.compare_spec (year d1) (year d2)); [lia|lia|done].
Qed.

(** C1, amended.  On candidates that each carry a date, the delta is
    computed, and [new_dates] holds exactly the dates of the candidates
    whose date identifier is not a key of [date_to_index] at the start,
    each once, in ascending order of their text; it is the same for
    every order of the candidates; and when every candidate has a year
    of four digits, it is the text of a list of dates in strictly
    ascending calendar order. *)
Theorem new_dates_exact_and_sorted (h : history)
    (features : list image_feature) :
  Forall well_dated features ->
  exists h' new_dates,
    compute_delta h features = Returns (h', new_dates)
    /\ (forall s, s ∈ new_dates <->
                  date_to_index h !! s = None
                  /\ exists f, f ∈ features /\ date_id f = Some s)
    /\ NoDup new_dates
    /\ Sorted String.le new_dates
    /\ (forall features', features' ≡ₚ features ->
          exists h'', compute_delta h features' = Returns (h'', new_dates))
    /\ (Forall full_year features ->
        exists ds, new_dates = strftime <$> ds
                   /\ Forall (fun d => valid_date d = true
                                       /\ 1000 <= year d) ds
                   /\ StronglySorted date_lt ds).
Proof.
  intros Hwf.
  destruct (compute_delta_returns h features Hwf) as [[h' nd] Hc].
  exists h', nd. split; [done|].
  destruct (new_dates_elem _ _ _ _ Hc) as [Hnd Hin].
  split; [done|]. split; [done|].
  split; [by eapply new_dates_text_sorted|].
  split; [|by eapply new_dates_calendar_sorted].
  intros features' Hp.
  assert (Hwf' : Forall well_dated features') by by rewrite Hp.
  destruct (compute_delta_returns h features' Hwf') as [[h'' nd'] Hc'].
  exists h''. rewrite Hc'. do 2 f_equal.
  destruct (new_dates_elem _ _ _ _ Hc') as [Hnd' Hin'].
  apply (Sorted_unique String.le).
  - by eapply new_dates_text_sorted.
  - by eapply new_dates_text_sorted.
  - apply NoDup_Permutation; [done..|].
    intros s. rewrite Hin, Hin'. by setoid_rewrite Hp.
Qed.

Lemma new_dates_exact_and_sorted_witness :
  Forall well_dated overlapping_images
  /\ Forall full_year overlapping_images
  /\ exists h' ds,
       compute_delta empty_history overlapping_images
       = Returns (h', strftime <$> ds)
       /\ length ds = 2%nat
       /\ StronglySorted date_lt ds.
Proof.
  assert (Hfull : Forall full_year overlapping_images).
  { repeat constructor; simpl; eexists;
      (split; [vm_compute; reflexivity|simpl; lia]). }
  assert (Hwf : Forall well_dated overlapping_images).
  { eapply Forall_impl; [exact Hfull|]. apply full_year_well_dated. }
  split; [exact Hwf|]. split; [exact Hfull|].
  destruct (new_dates_exact_and_sorted empty_history overlapping_images Hwf)
    as (h' & nd & Hc & _ & _ & _ & _ & Hcal).
  destruct (Hcal Hfull) as (ds & -> & _ & Hs).
  exists h', ds. split; [exact Hc|]. split; [|exact Hs].
  apply (f_equal (fun r => match r with
                           | Returns (_, l) => length l
                           | Raises _ => 0%nat
                           end)) in Hc.
  cbv beta iota in Hc. rewrite length_fmap in Hc.
  rewrite <- Hc. vm_compute. reflexivity.
Defined.



(** C3, as stated, fails: computing the delta on the empty history with
    one candidate changes the history (its [date_to_index] gains the
    date), and computing it again on the history so changed gives an
    empty delta where the first gave one date. *)
Lemma delta_changes_history :
  exists h' h'',
    compute_delta empty_history [mkimage (Some "20250310T000000")]
    = Returns (h', ["2025-03-10"])
    /\ h' <> empty_history
    /\ compute_delta h' [mkimage (Some "20250310T000000")]
       = Returns (h'', []).
Proof.
  exists (mkhistory [] {[ "2025-03-10" := "20250310T000000" ]} ∅).
  exists (mkhistory [] {[ "2025-03-10" := "20250310T000000" ]} ∅).
  split; [vm_compute; reflexivity|]. split; [|vm_compute; reflexivity].
  intros E. apply (f_equal (fun h => date_to_index h !! "2025-03-10")) in E.
  vm_compute in E. discriminate E.
Qed.

(** C3, amended.  The delta is a function of the candidates and of the
    keys of [date_to_index] alone; computing it leaves [dates] and
    [pixel_counts] as they are and every index already recorded as it is;
    it adds to [date_to_index] the first-seen index of each new date, and
    nothing else; computed again on the history it returns, it is empty. *)
Theorem delta_records_new_indices (h : history) (fs : list image_feature)
    (h' : history) (new_dates : list string) :
  compute_delta h fs = Returns (h', new_dates) ->
  dates h' = dates h
  /\ pixel_counts h' = pixel_counts h
  /\ (forall s, date_to_index h' !! s =
                match date_to_index h !! s with
                | Some i => Some i
                | None => first_seen s fs
                end)
  /\ (forall s, s ∈ new_dates <->
                date_to_index h !! s = None
                /\ is_Some (date_to_index h' !! s))
  /\ (forall g, dom (date_to_index g) = dom (date_to_index h) ->
                exists g', compute_delta g fs = Returns (g', new_dates))
  /\ compute_delta h' fs = Returns (h', []).
Proof.
  intros Hc.
  pose proof Hc as (raw & Hscan & _)%compute_delta_inv.
  destruct (scan_features_frame _ _ _ Hscan) as [Hd Hp]. simpl in *.
  pose proof (fun s => scan_features_lookup _ _ _ s Hscan) as Hlook.
  simpl in Hlook.
  destruct (new_dates_elem _ _ _ _ Hc) as [Hnd Hin].
  pose proof (scan_features_well_dated _ _ _ Hscan) as Hwf.
  split; [done|]. split; [done|]. split; [done|]. split; [|split].
  - intros s. rewrite Hin, Hlook, <- first_seen_some.
    split; intros [E ?]; rewrite E in *; done.
  - intros g Hdom.
    destruct (compute_delta_returns g fs Hwf) as [[g' nd'] Hc'].
    exists g'. rewrite Hc'. do 2 f_equal. symmetry.
    apply (new_dates_unique _ _ _ _ _ _ _ _ Hc Hc').
    destruct (new_dates_elem _ _ _ _ Hc') as [_ Hin'].
    intros s. rewrite Hin, Hin'.
    rewrite <- !not_elem_of_dom, Hdom. done.
  - destruct (compute_delta_returns h' fs Hwf) as [[h'' nd''] Hc''].
    destruct (new_dates_elem _ _ _ _ Hc'') as [_ Hin''].
    assert (nd'' = []) as ->.
    { apply elem_of_nil_inv. intros s [Hnone Hf]%Hin''.
      rewrite Hlook in Hnone. apply first_seen_some in Hf.
      destruct (date_to_index h !! s); [done|].
      rewrite Hnone in Hf. by destruct Hf. }
    rewrite Hc''. do 2 f_equal.
    apply compute_delta_inv in Hc'' as (raw'' & Hscan'' & _).
    destruct (scan_features_frame _ _ _ Hscan'') as [Hd'' Hp''].
    pose proof (fun s => scan_features_lookup _ _ _ s Hscan'') as Hlook''.
    simpl in *. destruct h'' as [d2 i2 p2], h' as [d1 i1 p1]. simpl in *.
    subst. f_equal. apply map_eq. intros s. rewrite Hlook'', Hlook.
    destruct (date_to_index h !! s); [done|]. by destruct (first_seen s fs).
Qed.

Lemma delta_records_new_indices_witness :
  compute_delta empty_history [mkimage (Some "20250310T000000")]
  = Returns (mkhistory [] {[ "2025-03-10" := "20250310T000000" ]} ∅,
             ["2025-03-10"])
  /\ compute_delta
       (mkhistory [] {[ "2025-03-10" := "20250310T000000" ]} ∅)
       [mkimage (Some "20250310T000000")]
     = Returns (mkhistory [] {[ "2025-03-10" := "20250310T000000" ]} ∅, []).
Proof.
  assert (H : compute_delta empty_history [mkimage (Some "20250310T000000")]
              = Returns
                  (mkhistory [] {[ "2025-03-10" := "20250310T000000" ]} ∅,
                   ["2025-03-10"])) by (vm_compute; reflexivity).
  split; [exact H|].
  exact (proj2 (proj2 (proj2 (proj2 (proj2
           (delta_records_new_indices _ _ _ _ H)))))).
Defined.

(** C4.  When the service counts no new image, or when every candidate
    it returns has a date that already has an index, the script ends by
    [exit(0)] after its status line and every file is as it was. *)
Theorem noop_run_leaves_files svc w df :
  ee_initialize svc = true ->
  read_excel svc = Returns df ->
  (collection_size svc = Returns 0%nat
   \/ exists n history0 info,
        collection_size svc = Returns (S n)
        /\ read_history (disk w) = Returns history0
        /\ collection_getInfo svc = Returns info
        /\ Forall (already_known history0) (default [] info)) ->
  exists w',
    run svc w = (Stop (Exit 0), w')
    /\ exit_code (run svc w).1 = Some 0
    /\ disk w' = disk w
    /\ opened w' = opened w
    /\ exists l, (l = NoNewImages \/ l = NoNewDates)
                 /\ last (stdout w') = Some l.
Proof.
  intros Hi Hdf Hcase.
  assert (exists w' l, detect svc w = (Stop (Exit 0), w')
                       /\ (l = NoNewImages \/ l = NoNewDates)
                       /\ last (stdout w') = Some l) as (w' & l & Hd & Hl & Hlast).
  { unfold detect. rewrite Hi, Hdf. simpl. unfold bind at 1. simpl.
    destruct Hcase as [Hn|(n & h0 & info & Hn & Hh & Hinfo & Hall)];
      rewrite Hn; unfold bind at 1; simpl.
    - eexists _, NoNewImages. split; [reflexivity|]. split; [by left|].
      simpl. by rewrite last_snoc.
    - destruct (load_history_total _ _ Hh) as (w1 & Hload & _).
      unfold bind at 1. rewrite Hload, Hinfo. unfold bind at 1. simpl.
      destruct (nothing_new _ _ Hall) as [h1 ->].
      unfold bind; simpl.
      eexists _, NoNewDates. split; [reflexivity|]. split; [by right|].
      simpl. by rewrite last_snoc. }
  assert (Hrun : run svc w = (Stop (Exit 0), w')).
  { unfold run. unfold bind at 1. by rewrite Hd. }
  exists w'. rewrite Hrun. split; [done|]. split; [done|].
  destruct (quiet_detect _ _ _ _ Hd) as (? & ? & _). eauto.
Qed.

Lemma noop_run_leaves_files_witness :
  exists w',
    run replay_service (boot known_disk) = (Stop (Exit 0), w')
    /\ disk w' = known_disk.
Proof.
  destruct (noop_run_leaves_files replay_service (boot known_disk)
              [("uu-0001", "Shinjo 1")] eq_refl eq_refl)
    as (w' & Hrun & _ & Hdisk & _ & _).
  - right. exists 0%nat, known_history, (Some [mkimage (Some "20250310T000000")]).
    split; [reflexivity|]. split; [reflexivity|]. split; [reflexivity|].
    constructor; [|constructor]. exists "2025-03-10".
    split; [vm_compute; reflexivity|]. vm_compute. eauto.
  - exists w'. split; [exact Hrun|exact Hdisk].
Defined.

(** C5, as stated, fails: the history file lists 2025-03-10 in [dates]
    and in [pixel_counts] but holds no index for it; a run that receives
    an image of that day takes the date for a new one, reaches its end,
    and writes a history that lists the date twice and holds another
    pixel count for it. *)
Lemma unindexed_date_is_overwritten :
  read_history unindexed_disk = Returns unindexed_history
  /\ "2025-03-10" ∈ dates unindexed_history
  /\ pixel_counts unindexed_history !! "2025-03-10" = Some 120
  /\ (run first_service (boot unindexed_disk)).1 = Ret tt
  /\ exists history2,
       history_file (disk (run first_service (boot unindexed_disk)).2)
       = Some (Whole history2)
       /\ dates history2 = ["2025-03-10"; "2025-03-10"]
       /\ pixel_counts history2 !! "2025-03-10" = Some 2.
Proof.
  split; [reflexivity|]. split; [by left|].
  split; [vm_compute; reflexivity|]. split; [vm_compute; reflexivity|].
  eexists. split; [vm_compute; reflexivity|].
  split; vm_compute; reflexivity.
Qed.

(** C5, amended.  A run that reaches its end writes a history whose
    [dates] extend those it loaded; a date that had an index before the
    run has the same index after it, and the same pixel count; and when
    the three parts of the loaded history name the same dates, so do
    those of the history written, and each date of the loaded history
    keeps both its entries. *)
Theorem history_append_only svc w w' :
  run svc w = (Ret tt, w') ->
  exists history0 history2,
    read_history (disk w) = Returns history0
    /\ history_file (disk w') = Some (Whole history2)
    /\ (exists added, dates history2 = dates history0 ++ added)
    /\ (forall s, s ∈ dates history0 -> s ∈ dates history2)
    /\ (forall s i, date_to_index history0 !! s = Some i ->
                    date_to_index history2 !! s = Some i)
    /\ (forall s n, is_Some (date_to_index history0 !! s) ->
                    pixel_counts history0 !! s = Some n ->
                    pixel_counts history2 !! s = Some n)
    /\ (consistent history0 ->
        consistent history2
        /\ forall s, s ∈ dates history0 ->
                     date_to_index history2 !! s
                     = date_to_index history0 !! s
                     /\ pixel_counts history2 !! s
                        = pixel_counts history0 !! s).
Proof.
  intros (df & fields & h0 & info & h1 & nd & h2 & newest & ml & mn
          & _ & _ & Hh & _ & Hc & _ & Hdates & Hdti & Hpc & ->)%finished_run.
  exists h0, h2. split; [done|]. split; [done|].
  destruct (new_dates_elem _ _ _ _ Hc) as [_ Hin].
  pose proof Hc as (raw & Hscan & _)%compute_delta_inv.
  pose proof (fun s => scan_features_lookup _ _ _ s Hscan) as Hlook.
  simpl in Hlook.
  assert (Hold : forall s, is_Some (date_to_index h0 !! s) -> s ∉ nd).
  { intros s [i Hi] [Hnone _]%Hin. congruence. }
  assert (Hkeep : forall s, is_Some (date_to_index h0 !! s) ->
                            date_to_index h2 !! s = date_to_index h0 !! s
                            /\ pixel_counts h2 !! s = pixel_counts h0 !! s).
  { intros s Hs. rewrite Hdti, Hlook, Hpc.
    rewrite decide_False by auto. by destruct Hs as [i ->]. }
  split; [eauto|]. split.
  { intros s Hs. rewrite Hdates. apply elem_of_app. by left. }
  split.
  { intros s i Hi. destruct (Hkeep s) as [-> _]; eauto. }
  split.
  { intros s n Hs Hn. destruct (Hkeep s) as [_ ->]; eauto. }
  intros Hcons. split.
  - intros s. destruct (Hcons s) as [Hci Hcp].
    rewrite Hdates, elem_of_app, Hdti, Hlook, Hpc.
    destruct (decide (s ∈ nd)) as [Hs|Hs].
    + destruct (new_dates_indexed _ _ _ _ _ Hc Hs) as (-> & Hseen & _).
      split; (split; [intros _|by right]); eauto.
    + split.
      * rewrite Hci. split.
        -- intros [[i ->]|?]; [eauto|done].
        -- intros Hsome. left.
           destruct (date_to_index h0 !! s) eqn:E; [eauto|].
           destruct Hs. apply Hin. split; [done|]. by apply first_seen_some.
      * rewrite Hcp. split; [intros [?|?]; done|by left].
  - intros s Hs. apply Hkeep. by apply Hcons.
Qed.

Lemma history_append_only_witness :
  exists history2,
    history_file (disk (run overlap_service (boot known_disk)).2)
    = Some (Whole history2)
    /\ "2025-03-10" ∈ dates history2
    /\ date_to_index history2 !! "2025-03-10" = Some "20250310T000000"
    /\ pixel_counts history2 !! "2025-03-10" = Some 120
    /\ consistent history2.
Proof.
  destruct (history_append_only overlap_service (boot known_disk)
              (run overlap_service (boot known_disk)).2)
    as (h0 & h2 & Hh & Hfile & _ & Hsup & Hidx & Hpc & Hcons).
  - vm_compute. reflexivity.
  - change (Returns known_history = Returns h0) in Hh. injection Hh as <-.
    exists h2. split; [exact Hfile|].
    split; [apply Hsup; by left|].
    split; [apply Hidx; vm_compute; reflexivity|].
    split; [apply Hpc; [eexists|]; vm_compute; reflexivity|].
    apply Hcons. intros s.
    destruct (decide (s = "2025-03-10")) as [->|Hne].
    + split; (split; intros _; [eexists; vm_compute; reflexivity|by left]).
    + unfold known_history. simpl.
      rewrite list_elem_of_singleton, !lookup_singleton_ne by done.
      split; (split; [done|by intros [? ?]]).
Defined.

(** C6.  The colour of a value at the boundaries of both scales, and of
    a missing value and of NaN. *)
Theorem color_boundaries :
  (get_lai_color (Some 0.49%float) = "#d73027"
   /\ get_lai_color (Some 0.5%float) = "#fc8d59"
   /\ get_lai_color (Some 0.99%float) = "#fc8d59"
   /\ get_lai_color (Some 1.0%float) = "#fee08b"
   /\ get_lai_color (Some 1.99%float) = "#fee08b"
   /\ get_lai_color (Some 2.0%float) = "#91cf60"
   /\ get_lai_color (Some 2.99%float) = "#91cf60"
   /\ get_lai_color (Some 3.0%float) = "#1a9850"
   /\ get_lai_color None = "#808080"
   /\ get_lai_color (Some nan) = "#808080")
  /\ (get_ndvi_color (Some 0.19%float) = "#d73027"
      /\ get_ndvi_color (Some 0.2%float) = "#fc8d59"
      /\ get_ndvi_color (Some 0.39%float) = "#fc8d59"
      /\ get_ndvi_color (Some 0.4%float) = "#fee08b"
      /\ get_ndvi_color (Some 0.59%float) = "#fee08b"
      /\ get_ndvi_color (Some 0.6%float) = "#91cf60"
      /\ get_ndvi_color (Some 0.79%float) = "#91cf60"
      /\ get_ndvi_color (Some 0.8%float) = "#1a9850"
      /\ get_ndvi_color None = "#808080"
      /\ get_ndvi_color (Some nan) = "#808080").
Proof. repeat split; reflexivity. Qed.

(** C7, as stated, fails: with the two candidates of 999-12-31 and
    1000-01-01 the run reaches its end and the marker file holds
    [999-12-31], which is not of the form [YYYY-MM-DD] and is not the
    latest date processed. *)
Lemma marker_of_early_years :
  (run early_service (boot empty_disk)).1 = Ret tt
  /\ state_file (disk (run early_service (boot empty_disk)).2)
     = Some (Whole "999-12-31")
  /\ iso_form "999-12-31" = false
  /\ strftime (mkdate 999 12 31) = "999-12-31"
  /\ (exists history2,
        history_file (disk (run early_service (boot empty_disk)).2)
        = Some (Whole history2)
        /\ strftime (mkdate 1000 1 1) ∈ dates history2)
  /\ date_lt (mkdate 999 12 31) (mkdate 1000 1 1).
Proof.
  split; [vm_compute; reflexivity|]. split; [vm_compute; reflexivity|].
  split; [reflexivity|]. split; [vm_compute; reflexivity|].
  split; [|reflexivity].
  eexists. split; [vm_compute; reflexivity|]. by left.
Qed.

(** C7, amended.  A run opens its files in the order maps, history,
    marker, and it opens the marker file only when the history file has
    been written whole.  After a run that reaches its end the marker
    file holds the last date identifier of the delta, the greatest as
    text; when every candidate has a year of four digits, it has the
    form [YYYY-MM-DD] and is the text of the latest date of the delta. *)
Theorem marker_written_after_history svc w o w' :
  run svc w = (o, w') ->
  (exists new,
     opened w' = opened w ++ new
     /\ new `prefix_of` [IndexHtml; NdviHtml; HistoryJson; StateTxt]
     /\ (StateTxt ∈ new ->
         write_fate svc HistoryJson = Completes
         /\ exists history2, history_file (disk w') = Some (Whole history2))
     /\ (StateTxt ∉ new -> state_file (disk w') = state_file (disk w)))
  /\ (o = Ret tt ->
      exists history0 info history1 new_dates newest,
        read_history (disk w) = Returns history0
        /\ collection_getInfo svc = Returns info
        /\ compute_delta history0 (default [] info)
           = Returns (history1, new_dates)
        /\ state_file (disk w') = Some (Whole newest)
        /\ last new_dates = Some newest
        /\ (forall s, s ∈ new_dates -> String.le s newest)
        /\ (Forall full_year (default [] info) ->
            exists d,
              newest = strftime d /\ valid_date d = true
              /\ iso_form newest = true
              /\ forall s, s ∈ new_dates ->
                   exists d', s = strftime d' /\ valid_date d' = true
                              /\ date_le d' d)).
Proof.
  intros Hrun. split.
  - apply run_inv in Hrun as [(Hsame & Hop & _)|Hrun].
    { exists []. rewrite app_nil_r. split; [done|].
      split; [apply prefix_nil|]. split; [by intros ?%elem_of_nil|].
      intros _. by rewrite Hsame. }
    destruct Hrun as (df & h1 & nd & w1 & h2 & ml & mn & newest & w2
                      & _ & _ & Hp & Hq & Ho).
    destruct (persist_opened _ _ _ _ _ _ _ _ Hp) as (new & Hnew & Hpre & Hm).
    exists new. rewrite <- Ho, <- Hq. split; [done|]. split; [done|].
    split; [intros Hin; destruct (Hm Hin); eauto|].
    by apply (persist_unopened _ _ _ _ _ _ _ _ _ Hp).
  - intros ->. apply finished_run in Hrun
      as (df & fields & h0 & info & h1 & nd & h2 & newest & ml & mn
          & _ & _ & Hh & Hinfo & Hc & Hlast & _ & _ & _ & ->).
    exists h0, info, h1, nd, newest.
    do 5 (split; [done|]). split.
    { pose proof (new_dates_text_sorted _ _ _ _ Hc) as Hs.
      apply Sorted_StronglySorted in Hs; [|apply _].
      intros s Hin.
      destruct (last_is_greatest _ _ _ Hs Hlast s Hin) as [->|?]; done. }
    intros Hfull.
    destruct (new_dates_calendar_sorted h0 (default [] info) h1 nd Hc Hfull)
      as (ds & -> & Hvalid & Hsorted).
    rewrite fmap_last in Hlast.
    destruct (last ds) as [d|] eqn:Hd; [|done]. injection Hlast as <-.
    rewrite Forall_forall in Hvalid.
    pose proof (last_Some_elem_of _ _ Hd) as Hdin.
    destruct (Hvalid d Hdin) as [Vd Yd].
    exists d. split; [done|]. split; [done|].
    split; [by apply strftime_iso_form|].
    intros s (d' & -> & Hd')%list_elem_of_fmap. exists d'.
    split; [done|]. split; [by apply Hvalid|].
    destruct (last_is_greatest _ _ _ Hsorted Hd d' Hd') as [->|Hlt].
    + apply date_le_refl.
    + unfold date_le, date_lt in *. by rewrite Hlt.
Qed.

Lemma marker_written_after_history_witness :
  state_file (disk first_run.2) = Some (Whole "2025-03-10")
  /\ iso_form "2025-03-10" = true
  /\ opened first_run.2 = [IndexHtml; NdviHtml; HistoryJson; StateTxt].
Proof.
  destruct (marker_written_after_history first_service
              (boot empty_disk) (Ret tt) first_run.2)
    as [(new & Hnew & _) Hmark].
  - vm_compute. reflexivity.
  - destruct (Hmark eq_refl)
      as (h0 & info & h1 & nd & newest & _ & Hinfo & _ & Hfile & _ & _
          & Hfull).
    injection Hinfo as <-.
    destruct Hfull as (d & _ & _ & Hiso & _).
    { repeat constructor; simpl; eexists;
        (split; [vm_compute; reflexivity|simpl; lia]). }
    assert (E : newest = "2025-03-10").
    { vm_compute in Hfile. by injection Hfile as <-. }
    rewrite E in Hfile, Hiso.
    split; [exact Hfile|]. split; [exact Hiso|]. vm_compute. reflexivity.
Defined.

(** C8, as stated, fails: the process stops while the history is being
    saved, and the history file, whole before the run, cannot be loaded
    after it. *)
Lemma history_save_not_atomic :
  (run torn_service (boot known_disk)).1 = Stop Crashed
  /\ read_history known_disk = Returns known_history
  /\ history_file (disk (run torn_service (boot known_disk)).2)
     <> history_file known_disk
  /\ read_history (disk (run torn_service (boot known_disk)).2)
     = Raises JSONDecodeError.
Proof.
  split; [vm_compute; reflexivity|]. split; [reflexivity|].
  split; [|vm_compute; reflexivity].
  vm_compute. discriminate.
Qed.

(** C8, amended.  The history is written in place.  When the process
    stops after [n] characters of that write, the file holds those [n]
    characters of the new text instead of what it held, and cannot be
    loaded; the marker file is as it was.  In a run that stops for
    another reason before that write, the history file is as it was. *)
Theorem interrupted_save_tears_history svc w o w' n :
  run svc w = (o, w') ->
  write_fate svc HistoryJson = Interrupted n ->
  state_file (disk w') = state_file (disk w)
  /\ (o = Stop Crashed ->
      write_fate svc IndexHtml = Completes ->
      write_fate svc NdviHtml = Completes ->
      exists history2,
        history_file (disk w') = Some (Torn history2 n)
        /\ read_history (disk w') = Raises JSONDecodeError)
  /\ (o <> Stop Crashed -> history_file (disk w') = history_file (disk w)).
Proof.
  intros [(Hsame & _ & h & -> & Hh)|Hrun]%run_inv Hfate.
  - rewrite Hsame. split; [done|]. split; [|done].
    intros [= ->]. done.
  - destruct Hrun as (df & h1 & nd & w1 & h2 & ml & mn & newest & w2
                      & _ & _ & Hp & Hq & _).
    destruct (persist_interrupted _ _ _ _ _ _ _ _ _ Hp Hfate)
      as (Hs & Ht & Hu).
    rewrite Hq in *. split; [done|]. split; [|done].
    intros Ho Hi Hn. exists h2. specialize (Ht Ho Hi Hn).
    split; [done|]. unfold read_history. by rewrite Ht.
Qed.

Lemma interrupted_save_tears_history_witness :
  exists history2,
    history_file (disk (run torn_service (boot known_disk)).2)
    = Some (Torn history2 0).
Proof.
  destruct (interrupted_save_tears_history torn_service
              (boot known_disk)
              (run torn_service (boot known_disk)).1
              (run torn_service (boot known_disk)).2 0)
    as (_ & Htorn & _).
  - vm_compute. reflexivity.
  - reflexivity.
  - destruct Htorn as (h2 & Hfile & _).
    + vm_compute. reflexivity.
    + reflexivity.
    + reflexivity.
    + exists h2. exact Hfile.
Defined.

(** C9.  A field whose sampling raises, or answers without features,
    adds no rectangle and no pixel to the date: the layers and the count
    are those of the other fields, one line reports the field between the
    lines of the fields before and after it, and the run still reaches
    its end when everything but the samplings goes well. *)
Theorem sampling_failure_skipped svc df target_index date f fields1 fields2 :
  is_polygon f = true ->
  (forall got, sampled svc target_index f <> Returns (Some got)) ->
  lai_children (sample_fields svc df target_index date (fields1 ++ f :: fields2))
  = lai_children (sample_fields svc df target_index date (fields1 ++ fields2))
  /\ ndvi_children
       (sample_fields svc df target_index date (fields1 ++ f :: fields2))
     = ndvi_children
         (sample_fields svc df target_index date (fields1 ++ fields2))
  /\ date_pixels
       (sample_fields svc df target_index date (fields1 ++ f :: fields2))
     = date_pixels (sample_fields svc df target_index date (fields1 ++ fields2))
  /\ (exists l,
        (l = FieldNoData (lookup_address df (polygon_uu f))
         \/ exists e, l = FieldError (lookup_address df (polygon_uu f)) e)
        /\ report
             (sample_fields svc df target_index date (fields1 ++ f :: fields2))
           = report (sample_fields svc df target_index date fields1)
             ++ l :: report (sample_fields svc df target_index date fields2))
  /\ (forall w df' n history0 info fields coords borders,
        ee_initialize svc = true ->
        read_excel svc = Returns df' ->
        collection_size svc = Returns (S n) ->
        read_history (disk w) = Returns history0 ->
        collection_getInfo svc = Returns info ->
        Forall well_dated (default [] info) ->
        (exists g s, g ∈ default [] info /\ date_id g = Some s
                     /\ date_to_index history0 !! s = None) ->
        fields_getInfo svc = Returns fields ->
        bounds_getInfo svc = Returns coords ->
        coords <> [] ->
        outlines fields = Returns borders ->
        (forall t, write_fate svc t = Completes) ->
        exists w', run svc w = (Ret tt, w')).
Proof.
  intros Hpoly Hfail.
  destruct (contribution_failed svc df target_index date f Hpoly Hfail)
    as (l & Hc & Hl).
  rewrite !sample_fields_app, sample_fields_cons, Hc. unfold merge. simpl.
  rewrite Z.add_0_l.
  split; [done|]. split; [done|]. split; [done|]. split; [eauto|].
  intros. by eapply run_completes.
Qed.

Lemma sampling_failure_skipped_witness :
  (exists w', run failing_service (boot empty_disk) = (Ret tt, w'))
  /\ date_pixels
       (sample_fields failing_service [("uu-0001", "Shinjo 1")]
          "20250310T000000" "2025-03-10" [a_field])
     = 0.
Proof.
  destruct (sampling_failure_skipped failing_service
              [("uu-0001", "Shinjo 1")] "20250310T000000" "2025-03-10"
              a_field [] [])
    as (_ & _ & Hpix & _ & Hruns).
  - reflexivity.
  - intros got. vm_compute. discriminate.
  - split; [|exact Hpix].
    apply (Hruns (boot empty_disk) [("uu-0001", "Shinjo 1")] 0%nat
             empty_history (Some [mkimage (Some "20250310T000000")])
             [a_field] [(140.30, 38.76); (140.31, 38.77)]%float
             [Polygon [(38.76, 140.30); (38.76, 140.31); (38.77, 140.31);
                       (38.76, 140.30)]%float]);
      try reflexivity.
    + repeat constructor. vm_compute. eauto.
    + exists (mkimage (Some "20250310T000000")), "2025-03-10".
      split; [by left|]. split; vm_compute; reflexivity.
    + discriminate.
Defined.

(** C10.  After a run that reaches its end, the pixel count of each new
    date is the sum over the fields of what each field counts: the number
    of its LAI features when the field is a polygon and both samplings
    return features, whatever the NDVI features are and whether or not
    the LAI features are drawn, and nothing otherwise. *)
Theorem pixel_count_sums_lai_features svc w w' :
  run svc w = (Ret tt, w') ->
  (exists df fields history0 info history1 new_dates history2,
     read_excel svc = Returns df
     /\ fields_getInfo svc = Returns fields
     /\ read_history (disk w) = Returns history0
     /\ collection_getInfo svc = Returns info
     /\ compute_delta history0 (default [] info)
        = Returns (history1, new_dates)
     /\ history_file (disk w') = Some (Whole history2)
     /\ forall d, d ∈ new_dates ->
          exists idx,
            date_to_index history2 !! d = Some idx
            /\ pixel_counts history2 !! d
               = Some (foldr Z.add 0 (counted svc idx <$> fields)))
  /\ (forall idx f lai_features ndvi_features,
        is_polygon f = true ->
        sample svc LAI idx f = Returns (Some lai_features) ->
        sample svc NDVI idx f = Returns (Some ndvi_features) ->
        counted svc idx f = Z.of_nat (length lai_features)
        /\ forall df date,
             length lai_features
             = (length (draw_pixels get_lai_color
                          (lookup_address df (polygon_uu f)) date lai_features)
                + length (List.filter passed_over lai_features))%nat)
  /\ (forall idx f,
        is_polygon f = false
        \/ (exists e, sample svc LAI idx f = Raises e)
        \/ (exists e, sample svc NDVI idx f = Raises e)
        \/ sample svc LAI idx f = Returns None
        \/ sample svc NDVI idx f = Returns None ->
        counted svc idx f = 0).
Proof.
  intros Hrun. split; [|split].
  - apply finished_run in Hrun
      as (df & fields & h0 & info & h1 & nd & h2 & newest & ml & mn
          & Hdf & Hf & Hh & Hinfo & Hc & _ & _ & Hdti & Hpc & ->).
    exists df, fields, h0, info, h1, nd, h2.
    repeat (split; [done|]). intros d Hd.
    destruct (new_dates_indexed _ _ _ _ _ Hc Hd) as (_ & [idx Hseen] & Hidx).
    exists idx. rewrite Hdti, Hidx, Hpc, decide_True by done.
    split; [done|]. unfold pixels_on. rewrite Hidx, Hseen.
    by rewrite sample_fields_pixels.
  - intros idx f lai ndvi Hp Hl Hn. unfold counted, sampled.
    rewrite Hp, Hl, Hn. split; [done|]. intros df date.
    apply draw_pixels_length.
  - intros idx f. unfold counted, sampled.
    intros [->|[[e He]|[[e He]|[He|He]]]]; [done|..];
      destruct (is_polygon f); try done; rewrite ?He; try done;
      repeat case_match; done.
Qed.

Lemma pixel_count_sums_lai_features_witness :
  exists history2,
    history_file (disk first_run.2) = Some (Whole history2)
    /\ pixel_counts history2 !! "2025-03-10" = Some 2.
Proof.
  destruct (pixel_count_sums_lai_features first_service
              (boot empty_disk) first_run.2)
    as ((df & fields & h0 & info & h1 & nd & h2
         & Hdf & Hf & Hh & Hinfo & Hc & Hfile & Hsum) & _ & _).
  - vm_compute. reflexivity.
  - exists h2. split; [exact Hfile|].
    injection Hf as <-. injection Hh as <-. injection Hinfo as <-.
    vm_compute in Hc. injection Hc as <- <-.
    destruct (Hsum "2025-03-10") as (idx & Hidx & ->); [by left|].
    vm_compute in Hfile. injection Hfile as <-.
    vm_compute in Hidx. injection Hidx as <-.
    vm_compute. reflexivity.
Defined.

(** * Further properties of the script *)

(** ** The cloud mask *)

Lemma land_bit_zero (a : Z) (n : Z) :
  0 <= n -> Z.land a (Z.shiftl 1 n) = 0 <-> Z.testbit a n = false.
Proof.
  intros Hn. rewrite Z.shiftl_1_l. split.
  - intros H. apply (f_equal (fun x => Z.testbit x n)) in H.
    rewrite Z.land_spec, Z.pow2_bits_true, Z.bits_0, andb_true_r in H; done.
  - intros H. apply Z.bits_inj'. intros i Hi.
    rewrite Z.land_spec, Z.bits_0, Z.pow2_bits_eqb by done.
    destruct (Z.eqb_spec n i) as [->|]; [by rewrite H|apply andb_false_r].
Qed.

(** X1.  The mask of [mask_s2_clouds] keeps a pixel exactly when bit 10
    (opaque cloud) and bit 11 (cirrus) of its QA60 value are both clear;
    no other bit of the value matters. *)
Theorem cloud_mask_tests_bits_10_11 (qa : Z) :
  cloud_mask qa = true
  <-> Z.testbit qa 10 = false /\ Z.testbit qa 11 = false.
Proof.
  unfold cloud_mask.
  rewrite andb_true_iff, !Z.eqb_eq, !land_bit_zero by lia. done.
Qed.

(** ** From the index of an image to its date *)

Lemma digit_char_val (c : ascii) : is_digit c = true -> digit_char (digit_val c) = c.
Proof.
  unfold is_digit, digit_char, digit_val, chr, ord.
  rewrite andb_true_iff, !Z.leb_le. intros [H1 H2].
  replace (48 + (Z.of_N (N_of_ascii c) - 48)) with (Z.of_N (N_of_ascii c)) by lia.
  by rewrite N2Z.id, ascii_N_embedding.
Qed.

Lemma digit_val_range (c : ascii) : is_digit c = true -> 0 <= digit_val c <= 9.
Proof.
  unfold is_digit, digit_val. rewrite andb_true_iff, !Z.leb_le. lia.
Qed.

Lemma zfill_step (k : nat) (n x : Z) (t : string) :
  0 <= x < 10 ->
  zfill (S k) (10 * n + x) t = zfill k n (String (digit_char x) t).
Proof.
  intros Hx. cbn [zfill].
  replace ((10 * n + x) / 10) with n by (apply Z.div_unique with x; lia).
  replace ((10 * n + x) mod 10) with x by (apply Z.mod_unique with n; lia).
  done.
Qed.

Lemma is_digit_cases (c : ascii) :
  is_digit c = true ->
  c = "0"%char \/ c = "1"%char \/ c = "2"%char \/ c = "3"%char \/ c = "4"%char
  \/ c = "5"%char \/ c = "6"%char \/ c = "7"%char \/ c = "8"%char \/ c = "9"%char.
Proof.
  intros H. pose proof (digit_val_range c H) as Hr.
  rewrite <- (digit_char_val c H).
  assert (digit_val c = 0 \/ digit_val c = 1 \/ digit_val c = 2
          \/ digit_val c = 3 \/ digit_val c = 4 \/ digit_val c = 5
          \/ digit_val c = 6 \/ digit_val c = 7 \/ digit_val c = 8
          \/ digit_val c = 9) as Hc by lia.
  repeat destruct Hc as [->|Hc]; try rewrite Hc; vm_compute; tauto.
Qed.

Ltac each_digit c H :=
  destruct (is_digit_cases c H) as [->|[->|[->|[->|[->|[->|[->|[->|[->| ->]]]]]]]]].

Lemma match_m_digits (e f : ascii) (r : string) :
  is_digit e = true -> is_digit f = true ->
  match_m (String e (String f r))
  = first_if ((1 <=? 10 * digit_val e + digit_val f)
              && (10 * digit_val e + digit_val f <=? 12))
      (10 * digit_val e + digit_val f, r)
    ++ first_if (1 <=? digit_val e) (digit_val e, String f r).
Proof.
  intros He Hf. each_digit e He; each_digit f Hf; reflexivity.
Qed.

Lemma match_d_digits (g h : ascii) (r : string) :
  is_digit g = true -> is_digit h = true ->
  match_d (String g (String h r))
  = first_if ((1 <=? 10 * digit_val g + digit_val h)
              && (10 * digit_val g + digit_val h <=? 31))
      (10 * digit_val g + digit_val h, r)
    ++ first_if (1 <=? digit_val g) (digit_val g, String h r).
Proof.
  intros Hg Hh. each_digit g Hg; each_digit h Hh; reflexivity.
Qed.

Lemma strptime_digits (a b c d e f g h : ascii) (dt : date) :
  forallb is_digit [a; b; c; d; e; f; g; h] = true ->
  strptime (String a (String b (String c (String d (String e (String f
              (String g (String h EmptyString)))))))) = Some dt ->
  dt = mkdate (1000 * digit_val a + 100 * digit_val b + 10 * digit_val c + digit_val d)
              (10 * digit_val e + digit_val f) (10 * digit_val g + digit_val h).
Proof.
  simpl. rewrite !andb_true_iff.
  intros (Ha & Hb & Hc & Hd & He & Hf & Hg & Hh & _).
  unfold strptime, match_Ymd, match_Y. rewrite Ha, Hb, Hc, Hd.
  cbn -[match_m match_d Z.mul Z.add]. rewrite app_nil_r.
  rewrite match_m_digits by done. unfold first_if.
  destruct (_ && _), (1 <=? digit_val e);
    cbn -[match_d Z.mul Z.add]; rewrite ?app_nil_r;
    rewrite ?match_d_digits by done; unfold first_if;
    repeat (match goal with
            | |- context [if ?b then _ else _] => destruct b
            end; cbn -[Z.mul Z.add valid_date]);
    intros H; try discriminate H; by injection H as <-.
Qed.

Lemma strptime_eight_digits (a b c d e f g h : ascii) :
  forallb is_digit [a; b; c; d; e; f; g; h] = true ->
  strptime (String a (String b (String c (String d (String e (String f
              (String g (String h EmptyString))))))))
  = if valid_date (digits_date a b c d e f g h)
    then Some (digits_date a b c d e f g h) else None.
Proof.
  intros Hall. destruct (valid_date _) eqn:V.
  - pose proof (valid_date_bounds _ V) as (_ & Hm & Hd). simpl in Hm, Hd.
    simpl in Hall. rewrite !andb_true_iff in Hall.
    destruct Hall as (Ha & Hb & Hc & Hd' & He & Hf & Hg & Hh & _).
    unfold strptime, match_Ymd, match_Y. rewrite Ha, Hb, Hc, Hd'.
    cbn -[match_m match_d Z.mul Z.add]. rewrite app_nil_r.
    rewrite match_m_digits by done. unfold first_if at 1.
    replace ((1 <=? 10 * digit_val e + digit_val f)
             && (10 * digit_val e + digit_val f <=? 12)) with true
      by (symmetry; apply andb_true_iff; split; apply Z.leb_le; lia).
    cbn -[match_d Z.mul Z.add]. rewrite match_d_digits by done.
    unfold first_if at 1.
    replace ((1 <=? 10 * digit_val g + digit_val h)
             && (10 * digit_val g + digit_val h <=? 31)) with true
      by (symmetry; apply andb_true_iff; split; apply Z.leb_le; lia).
    cbn -[Z.mul Z.add valid_date]. unfold digits_date in V. by rewrite V.
  - destruct (strptime _) as [dt|] eqn:E; [|done].
    pose proof (strptime_valid _ _ E) as Hv.
    apply strptime_digits in E; [|done]. subst dt.
    unfold digits_date in V. congruence.
Qed.

Lemma ascii_zero_digit (c : ascii) :
  is_digit c = true -> Ascii.eqb c "0" = (digit_val c =? 0).
Proof. intros H. each_digit c H; reflexivity. Qed.

Lemma unpad_cons (c : ascii) (r : string) :
  unpad (String c r) = if Ascii.eqb c "0" then unpad r else String c r.
Proof. reflexivity. Qed.

(** The year is printed from its first digit that is not a zero. *)
Lemma strftime_digits (a b c d e f g h : ascii) :
  forallb is_digit [a; b; c; d; e; f; g; h] = true ->
  1 <= year (digits_date a b c d e f g h) ->
  strftime (digits_date a b c d e f g h)
  = unpad (hyphenate a b c d e f g h).
Proof.
  intros Hall Hy. cbn [forallb] in Hall. rewrite !andb_true_iff in Hall.
  destruct Hall as (Ha & Hb & Hc & Hd & He & Hf & Hg & Hh & _).
  unfold digits_date in Hy. cbn [year] in Hy.
  pose proof (digit_val_range _ Ha). pose proof (digit_val_range _ Hb).
  pose proof (digit_val_range _ Hc). pose proof (digit_val_range _ Hd).
  pose proof (digit_val_range _ He). pose proof (digit_val_range _ Hf).
  pose proof (digit_val_range _ Hg). pose proof (digit_val_range _ Hh).
  unfold strftime, digits_date, hyphenate. cbn [year month day].
  replace (10 * digit_val e + digit_val f)
    with (10 * (10 * 0 + digit_val e) + digit_val f) by lia.
  replace (10 * digit_val g + digit_val h)
    with (10 * (10 * 0 + digit_val g) + digit_val h) by lia.
  rewrite !zfill_step by lia. cbn [zfill].
  rewrite (digit_char_val e), (digit_char_val f), (digit_char_val g),
    (digit_char_val h) by done.
  do 4 rewrite unpad_cons.
  rewrite (ascii_zero_digit a), (ascii_zero_digit b), (ascii_zero_digit c),
    (ascii_zero_digit d) by done.
  cbn [numeral].
  set (va := digit_val a) in *. set (vb := digit_val b) in *.
  set (vc := digit_val c) in *. set (vd := digit_val d) in *.
  replace ((1000 * va + 100 * vb + 10 * vc + vd) / 10)
    with (100 * va + 10 * vb + vc) by (apply Z.div_unique with vd; lia).
  replace ((1000 * va + 100 * vb + 10 * vc + vd) mod 10)
    with vd by (apply Z.mod_unique with (100 * va + 10 * vb + vc); lia).
  replace ((100 * va + 10 * vb + vc) / 10)
    with (10 * va + vb) by (apply Z.div_unique with vc; lia).
  replace ((100 * va + 10 * vb + vc) mod 10)
    with vc by (apply Z.mod_unique with (10 * va + vb); lia).
  replace ((10 * va + vb) / 10) with va by (apply Z.div_unique with vb; lia).
  replace ((10 * va + vb) mod 10) with vb by (apply Z.mod_unique with va; lia).
  replace (va / 10) with 0 by (apply Z.div_unique with va; lia).
  replace (va mod 10) with va by (apply Z.mod_unique with 0; lia).
  unfold va, vb, vc, vd in *.
  rewrite (digit_char_val a), (digit_char_val b), (digit_char_val c),
    (digit_char_val d) by done.
  destruct (Z.eqb_spec (digit_val a) 0), (Z.eqb_spec (digit_val b) 0),
    (Z.eqb_spec (digit_val c) 0), (Z.eqb_spec (digit_val d) 0),
    (Z.eqb_spec (100 * digit_val a + 10 * digit_val b + digit_val c) 0),
    (Z.eqb_spec (10 * digit_val a + digit_val b) 0);
    try lia; reflexivity.
Qed.

(** X2.  When the first eight characters of an index are digits, its date
    identifier is these digits with a hyphen after the fourth and after
    the sixth and without the leading zeros of the year, whatever follows
    them, provided they spell a date of the calendar; when they do not,
    the index has no date identifier. *)
Theorem date_id_hyphenates (a b c d e f g h : ascii) (rest : string) :
  forallb is_digit [a; b; c; d; e; f; g; h] = true ->
  date_id (mkimage (Some (String a (String b (String c (String d (String e
             (String f (String g (String h rest))))))))))
  = if valid_date (digits_date a b c d e f g h)
    then Some (unpad (hyphenate a b c d e f g h)) else None.
Proof.
  intros Hall. unfold date_id. cbn [system_index mbind option_bind slice_to].
  rewrite strptime_eight_digits by done.
  destruct (valid_date _) eqn:V; [|done].
  pose proof (valid_date_bounds _ V) as (Hy & _).
  cbn [fmap option_fmap option_map]. rewrite strftime_digits by (done || lia).
  done.
Qed.

Lemma date_id_hyphenates_witness :
  date_id (mkimage (Some "20250310T000000")) = Some "2025-03-10"
  /\ date_id (mkimage (Some "09990101T000000")) = Some "999-01-01"
  /\ date_id (mkimage (Some "20250230T000000")) = None.
Proof.
  split; [|split].
  - rewrite (date_id_hyphenates "2" "0" "2" "5" "0" "3" "1" "0" "T000000"
               eq_refl). reflexivity.
  - rewrite (date_id_hyphenates "0" "9" "9" "9" "0" "1" "0" "1" "T000000"
               eq_refl). reflexivity.
  - rewrite (date_id_hyphenates "2" "0" "2" "5" "0" "2" "3" "0" "T000000"
               eq_refl). reflexivity.
Defined.

(** [strptime] reads back the eight characters of a date. *)
Lemma strptime_compact (d : date) :
  valid_date d = true -> strptime (compact d) = Some d.
Proof.
  intros V. pose proof (valid_date_bounds _ V) as (Hy & Hm & Hd).
  unfold compact. cbn [zfill].
  rewrite strptime_eight_digits by (cbn [forallb]; by rewrite !is_digit_digit_char).
  assert (Hdv : forall x, digit_val (digit_char (x mod 10)) = x mod 10).
  { intros x. unfold digit_val. rewrite ord_digit_char; [lia|].
    apply Z.mod_pos_bound. lia. }
  assert (E : digits_date (digit_char (year d / 10 / 10 / 10 mod 10))
                (digit_char (year d / 10 / 10 mod 10))
                (digit_char (year d / 10 mod 10)) (digit_char (year d mod 10))
                (digit_char (month d / 10 mod 10)) (digit_char (month d mod 10))
                (digit_char (day d / 10 mod 10)) (digit_char (day d mod 10))
              = d).
  { unfold digits_date. rewrite !Hdv. destruct d as [y m dd]. simpl in *.
    f_equal.
    - pose proof (Z.div_mod y 10 ltac:(lia)).
      pose proof (Z.div_mod (y / 10) 10 ltac:(lia)).
      pose proof (Z.div_mod (y / 10 / 10) 10 ltac:(lia)).
      pose proof (Z.div_mod (y / 10 / 10 / 10) 10 ltac:(lia)).
      assert (y / 10 / 10 / 10 / 10 = 0).
      { rewrite !Z.div_div by lia. apply Z.div_small. lia. }
      lia.
    - pose proof (Z.div_mod m 10 ltac:(lia)).
      pose proof (Z.div_mod (m / 10) 10 ltac:(lia)).
      assert (m / 10 / 10 = 0).
      { rewrite !Z.div_div by lia. apply Z.div_small. lia. }
      lia.
    - pose proof (Z.div_mod dd 10 ltac:(lia)).
      pose proof (Z.div_mod (dd / 10) 10 ltac:(lia)).
      assert (dd / 10 / 10 = 0).
      { rewrite !Z.div_div by lia. apply Z.div_small. lia. }
      lia. }
  rewrite E. by rewrite V.
Qed.

(** X3.  Round trip: an index that starts with the eight characters
    [YYYYMMDD] of a date of the calendar has as its date identifier the
    text that [strftime] prints for that date, whatever follows; this
    text has the form [YYYY-MM-DD] exactly when the year is 1000 or
    later, and it is then the date with its fields padded. *)
Theorem date_id_of_compact (d : date) (rest : string) :
  valid_date d = true ->
  date_id (mkimage (Some (compact d +:+ rest))) = Some (strftime d)
  /\ (iso_form (strftime d) = true <-> 1000 <= year d)
  /\ (1000 <= year d -> strftime d = iso_text d).
Proof.
  intros V. split; [|split].
  - unfold date_id. cbn [system_index mbind option_bind].
    assert (slice_to 8 (compact d +:+ rest) = compact d) as ->.
    { unfold compact. cbn [zfill]. reflexivity. }
    by rewrite strptime_compact.
  - by apply strftime_iso_form.
  - intros Hy. pose proof (valid_date_bounds _ V) as (? & _).
    apply strftime_iso_text. lia.
Qed.

Lemma date_id_of_compact_witness :
  date_id (mkimage (Some "20240229T013651")) = Some "2024-02-29"
  /\ date_id (mkimage (Some "09990101T013651")) = Some "999-01-01".
Proof.
  split.
  - exact (proj1 (date_id_of_compact (mkdate 2024 2 29) "T013651" eq_refl)).
  - exact (proj1 (date_id_of_compact (mkdate 999 1 1) "T013651" eq_refl)).
Defined.

(** ** Runs that stop while detecting *)

(** The scan raises nothing but [ValueError]. *)
Lemma scan_features_raises fs : forall acc e,
  scan_features acc fs = Raises e -> e = ValueError.
Proof.
  induction fs as [|f fs IH]; intros acc e H; simpl in H; [done|].
  destruct (scan_feature acc f) as [acc1|e1] eqn:E; [by eapply IH|].
  injection H as <-. unfold scan_feature in E.
  repeat case_match; by simplify_eq.
Qed.

Lemma compute_delta_malformed h fs f :
  f ∈ fs -> ~ well_dated f -> compute_delta h fs = Raises ValueError.
Proof.
  intros Hf Hn. unfold compute_delta.
  destruct (scan_features (h, []) fs) as [[h1 raw]|e] eqn:E.
  - apply scan_features_well_dated in E. rewrite Forall_forall in E.
    destruct Hn. by apply E.
  - by rewrite (scan_features_raises _ _ _ E).
Qed.

Lemma run_stops_in_detect svc w hlt w' :
  detect svc w = (Stop hlt, w') -> run svc w = (Stop hlt, w').
Proof. intros H. unfold run. unfold bind at 1. by rewrite H. Qed.

Lemma run_stops_in_build svc w df h1 nd w1 hlt w' :
  detect svc w = (Ret (df, h1, nd), w1) ->
  build svc df h1 nd w1 = (Stop hlt, w') ->
  run svc w = (Stop hlt, w').
Proof.
  intros Hd Hb. unfold run. unfold bind at 1. rewrite Hd.
  unfold bind at 1. by rewrite Hb.
Qed.

(** X4.  One candidate whose index does not start with a date makes the
    whole run end with an uncaught [ValueError], exit status 1, whatever
    the other candidates are: no file is opened for writing and the disk
    is as it was. *)
Theorem malformed_index_aborts svc w df n history0 info f :
  ee_initialize svc = true ->
  read_excel svc = Returns df ->
  collection_size svc = Returns (S n) ->
  read_history (disk w) = Returns history0 ->
  collection_getInfo svc = Returns info ->
  f ∈ default [] info -> ~ well_dated f ->
  exists w',
    run svc w = (Stop (Uncaught ValueError), w')
    /\ exit_code (run svc w).1 = Some 1
    /\ disk w' = disk w /\ opened w' = opened w.
Proof.
  intros Hi Hdf Hn Hh Hinfo Hf Hbad.
  assert (exists w', detect svc w = (Stop (Uncaught ValueError), w'))
    as [w' Hd].
  { unfold detect. rewrite Hi, Hdf, Hn. simpl. unfold bind at 1. simpl.
    unfold bind at 1. simpl. unfold bind at 1.
    destruct (load_history_total _ _ Hh) as (w1 & -> & _).
    rewrite Hinfo. unfold bind at 1. simpl.
    rewrite (compute_delta_malformed _ _ _ Hf Hbad).
    unfold bind. simpl. eauto. }
  exists w'. rewrite (run_stops_in_detect _ _ _ _ Hd).
  destruct (quiet_detect _ _ _ _ Hd) as (? & ? & _). done.
Qed.

Lemma malformed_index_aborts_witness :
  exists w', run misnamed_service (boot known_disk)
             = (Stop (Uncaught ValueError), w')
             /\ disk w' = known_disk.
Proof.
  destruct (malformed_index_aborts misnamed_service (boot known_disk)
              [("uu-0001", "Shinjo 1")] 1%nat known_history
              (Some [mkimage (Some "20250317T013651");
                     mkimage (Some "mosaic_2025")])
              (mkimage (Some "mosaic_2025")))
    as (w' & Hrun & _ & Hdisk & _); try reflexivity.
  - right. by left.
  - vm_compute. intros [d Hd]. discriminate Hd.
  - exists w'. split; [exact Hrun|exact Hdisk].
Defined.

(** X5.  A history file left torn by an interrupted save blocks every
    later run that finds an image: the run ends with an uncaught
    [JSONDecodeError] and writes nothing.  A run that finds no image does
    not read the file and exits with status 0. *)
Theorem torn_history_blocks_runs svc w df h k :
  history_file (disk w) = Some (Torn h k) ->
  ee_initialize svc = true ->
  read_excel svc = Returns df ->
  (forall n, collection_size svc = Returns (S n) ->
     exists w', run svc w = (Stop (Uncaught JSONDecodeError), w')
                /\ disk w' = disk w /\ opened w' = opened w)
  /\ (collection_size svc = Returns 0%nat ->
      exists w', run svc w = (Stop (Exit 0), w')
                 /\ disk w' = disk w /\ opened w' = opened w).
Proof.
  intros Ht Hi Hdf. split.
  - intros n Hn.
    assert (exists w', detect svc w = (Stop (Uncaught JSONDecodeError), w'))
      as [w' Hd].
    { unfold detect. rewrite Hi, Hdf, Hn. simpl. unfold bind at 1. simpl.
      unfold bind at 1. simpl. unfold bind at 1.
      unfold load_history, bind, read_disk. rewrite Ht. simpl. eauto. }
    exists w'. rewrite (run_stops_in_detect _ _ _ _ Hd).
    destruct (quiet_detect _ _ _ _ Hd) as (? & ? & _). done.
  - intros Hn.
    assert (exists w', detect svc w = (Stop (Exit 0), w')) as [w' Hd].
    { unfold detect. rewrite Hi, Hdf, Hn. simpl. unfold bind. simpl. eauto. }
    exists w'. rewrite (run_stops_in_detect _ _ _ _ Hd).
    destruct (quiet_detect _ _ _ _ Hd) as (? & ? & _). done.
Qed.

Lemma torn_history_blocks_runs_witness :
  exists w', run replay_service (boot torn_disk)
             = (Stop (Uncaught JSONDecodeError), w')
             /\ disk w' = torn_disk.
Proof.
  destruct (torn_history_blocks_runs replay_service (boot torn_disk)
              [("uu-0001", "Shinjo 1")] known_history 0%nat
              eq_refl eq_refl eq_refl) as [Hraise _].
  destruct (Hraise 0%nat eq_refl) as (w' & Hrun & Hdisk & _).
  exists w'. split; [exact Hrun|exact Hdisk].
Defined.

(** ** The calls of [exit] *)

Lemma exitless_bind {A B} (m : M A) (f : A -> M B) :
  exitless m -> (forall a, exitless (f a)) -> exitless (bind m f).
Proof.
  intros Hm Hf w c w' [(a & w1 & H1 & H2)|(h & H1 & [= <-])]%bind_inv.
  - by eapply Hf.
  - by eapply Hm.
Qed.

Lemma exitless_ret {A} (a : A) : exitless (ret a).
Proof. by intros w c w'. Qed.

Lemma exitless_raise {A} (e : exn) : exitless (@raise A e).
Proof. by intros w c w'. Qed.

Lemma exitless_call {A} (r : ext A) : exitless (call r).
Proof. destruct r; [apply exitless_ret|apply exitless_raise]. Qed.

Lemma exitless_print (l : line) : exitless (print l).
Proof. by intros w c w'. Qed.

Lemma exitless_print_all (ls : list line) : exitless (print_all ls).
Proof.
  induction ls as [|l ls IH]; simpl; [apply exitless_ret|].
  apply exitless_bind; [apply exitless_print|done].
Qed.

Lemma exitless_for_each {A S} (body : S -> A -> M S) (l : list A) :
  (forall s a, exitless (body s a)) -> forall s, exitless (for_each body s l).
Proof.
  intros Hb. induction l as [|a l IH]; intros s; simpl; [apply exitless_ret|].
  apply exitless_bind; [apply Hb|done].
Qed.

Lemma exitless_process_date svc df fields new_dates acc date :
  exitless (process_date svc df fields new_dates acc date).
Proof.
  unfold process_date. destruct acc as [[h ml] mn].
  destruct (date_to_index h !! date); [|apply exitless_raise].
  apply exitless_bind; [apply exitless_print_all|intros _].
  apply exitless_bind; [apply exitless_call|intros borders].
  apply exitless_bind; [apply exitless_print|intros _].
  apply exitless_ret.
Qed.

Lemma exitless_build svc df history1 new_dates :
  exitless (build svc df history1 new_dates).
Proof.
  unfold build.
  apply exitless_bind; [apply exitless_call|intros fields].
  apply exitless_bind; [apply exitless_call|intros coords].
  destruct (length coords =? 0)%nat; [apply exitless_raise|].
  apply exitless_bind.
  { apply exitless_for_each. intros. apply exitless_process_date. }
  intros [[h2 ml] mn].
  apply exitless_bind; [apply exitless_call|intros oldest].
  apply exitless_bind; [apply exitless_call|intros youngest].
  apply exitless_bind; [apply exitless_call|intros newest].
  apply exitless_ret.
Qed.

Lemma exitless_persist svc history2 m_lai m_ndvi newest :
  exitless (persist svc history2 m_lai m_ndvi newest).
Proof.
  intros w c w'.
  unfold persist, save_map, save_history, save_marker, finish_write, bind,
    open_w.
  destruct (write_fate svc IndexHtml), (write_fate svc NdviHtml),
    (write_fate svc HistoryJson), (write_fate svc StateTxt); simpl; done.
Qed.

Lemma call_stop_inv {A} (r : ext A) w h w' :
  call r w = (Stop h, w') -> exists e, r = Raises e /\ h = Uncaught e.
Proof. destruct r as [a|e]; intros [= <- <-]; eauto. Qed.

Lemma print_inv (l : line) w o w' :
  print l w = (o, w') ->
  o = Ret tt /\ w' = mkworld (disk w) (stdout w ++ [l]) (opened w).
Proof. by intros [= <- <-]. Qed.

(** How the first part of the script ends by [exit]. *)
Lemma detect_exit_inv svc w c w' :
  detect svc w = (Stop (Exit c), w') ->
  (c = 1 /\ ee_initialize svc = false /\ last (stdout w') = Some InitError)
  \/ (c = 0 /\ ee_initialize svc = true
      /\ ((collection_size svc = Returns 0%nat
           /\ last (stdout w') = Some NoNewImages)
          \/ (exists n history0 info history1,
                collection_size svc = Returns (S n)
                /\ read_history (disk w) = Returns history0
                /\ collection_getInfo svc = Returns info
                /\ compute_delta history0 (default [] info)
                   = Returns (history1, [])
                /\ last (stdout w') = Some NoNewDates))).
Proof.
  assert (Hcall : forall A B (r : ext A) w0 h w1 c0,
            call r w0 = (Stop h, w1) -> @Stop B (Exit c0) = Stop h -> False).
  { intros A B r w0 h w1 c0 (e & _ & ->)%call_stop_inv. done. }
  unfold detect. destruct (ee_initialize svc); simpl; intros H.
  2:{ apply bind_inv in H as [(a & w1 & (_ & ->)%print_inv & He)|(h & [=] & _)].
      unfold exit, stop in He. simplify_eq. left. simpl.
      by rewrite last_snoc. }
  apply bind_inv in H as [(df & w1 & (_ & ->)%call_inv & H)|(h & Hc & Ho)];
    [|by destruct (Hcall _ _ _ _ _ _ _ Hc Ho)].
  apply bind_inv in H as [(n & w2 & (Hn & ->)%call_inv & H)|(h & Hc & Ho)];
    [|by destruct (Hcall _ _ _ _ _ _ _ Hc Ho)].
  right. destruct n as [|n]; simpl in H.
  { apply bind_inv in H
      as [(a & w3 & (_ & ->)%print_inv & He)|(h & [=] & _)].
    unfold exit, stop in He. simplify_eq.
    split; [done|]. split; [done|]. left. simpl. by rewrite last_snoc. }
  apply bind_inv in H as [(h0 & w3 & Hload & H)|(h & Hload & Ho)].
  2:{ unfold load_history, bind, read_disk in Hload.
      destruct (history_file (disk w)) as [[?|? ?]|]; simpl in Hload;
        by simplify_eq. }
  apply load_history_inv in Hload.
  apply bind_inv in H as [(info & w4 & (Hinfo & ->)%call_inv & H)|(h & Hc & Ho)];
    [|by destruct (Hcall _ _ _ _ _ _ _ Hc Ho)].
  apply bind_inv in H as [([h1 nd] & w5 & (Hc & ->)%call_inv & H)|(h & Hc & Ho)];
    [|by destruct (Hcall _ _ _ _ _ _ _ Hc Ho)].
  apply bind_inv in H
    as [(a & w6 & (_ & ->)%print_inv & H)|(h & [=] & _)].
  destruct nd as [|d nd]; simpl in H; [|done].
  apply bind_inv in H
    as [(a' & w7 & (_ & ->)%print_inv & He)|(h & [=] & _)].
  unfold exit, stop in He. simplify_eq.
  split; [done|]. split; [done|]. right.
  exists n, h0, info, h1. simpl. by rewrite last_snoc.
Qed.

(** X6.  A run that ends by [exit] has written nothing and opened no
    file, and it ended in one of three places, told by the status and the
    last line printed: status 1 after the initialisation failed; status 0
    with no new image; status 0 with images that bring no new date.
    Nothing after the delta calls [exit]. *)
Theorem exit_is_early svc w c w' :
  run svc w = (Stop (Exit c), w') ->
  disk w' = disk w /\ opened w' = opened w
  /\ ((c = 1 /\ ee_initialize svc = false
       /\ last (stdout w') = Some InitError)
      \/ (c = 0 /\ ee_initialize svc = true
          /\ ((collection_size svc = Returns 0%nat
               /\ last (stdout w') = Some NoNewImages)
              \/ (exists n history0 info history1,
                    collection_size svc = Returns (S n)
                    /\ read_history (disk w) = Returns history0
                    /\ collection_getInfo svc = Returns info
                    /\ compute_delta history0 (default [] info)
                       = Returns (history1, [])
                    /\ last (stdout w') = Some NoNewDates)))).
Proof.
  unfold run.
  intros [([[df h1] nd] & w1 & Hd & H)|(h & Hd & [= <-])]%bind_inv.
  - apply bind_inv in H
      as [([[[h2 ml] mn] newest] & w2 & Hb & H)|(h & Hb & [= <-])].
    + by apply exitless_persist in H.
    + by apply exitless_build in Hb.
  - destruct (quiet_detect _ _ _ _ Hd) as (? & ? & _).
    split; [done|]. split; [done|]. by apply detect_exit_inv in Hd.
Qed.

Lemma exit_is_early_witness :
  disk (run replay_service (boot known_disk)).2 = known_disk.
Proof.
  apply (exit_is_early replay_service (boot known_disk) 0
           (run replay_service (boot known_disk)).2).
  vm_compute. reflexivity.
Defined.

(** ** Running again *)

(** After the scan every candidate is known. *)
Lemma scan_makes_known h fs h' new_dates :
  compute_delta h fs = Returns (h', new_dates) ->
  Forall (already_known h') fs.
Proof.
  intros (raw & Hscan & _)%compute_delta_inv.
  pose proof (scan_features_well_dated _ _ _ Hscan) as Hwf.
  rewrite Forall_forall in Hwf. apply Forall_forall. intros f Hf.
  specialize (Hwf f Hf). unfold already_known, well_dated in *.
  destruct (system_index f) as [idx|] eqn:Ei; [|done].
  destruct Hwf as [d Hd]. exists (strftime d).
  assert (Hid : date_id f = Some (strftime d)).
  { unfold date_id. rewrite Ei. cbn [mbind option_bind]. by rewrite Hd. }
  split; [done|].
  pose proof (scan_features_lookup _ _ _ (strftime d) Hscan) as Hl.
  simpl in Hl. rewrite Hl.
  destruct (date_to_index h !! strftime d); [eauto|].
  apply first_seen_some. eauto.
Qed.

Lemma known_mono h h' f :
  date_to_index h' = date_to_index h -> already_known h f -> already_known h' f.
Proof. unfold already_known. by intros ->. Qed.

(** The script ends by [exit(0)] when the history loads and no candidate
    is new. *)
Lemma run_exits_when_nothing_new svc w df n history0 info :
  ee_initialize svc = true ->
  read_excel svc = Returns df ->
  collection_size svc = Returns (S n) ->
  read_history (disk w) = Returns history0 ->
  collection_getInfo svc = Returns info ->
  Forall (already_known history0) (default [] info) ->
  exists w', run svc w = (Stop (Exit 0), w')
             /\ disk w' = disk w /\ opened w' = opened w.
Proof.
  intros Hi Hdf Hn Hh Hinfo Hall.
  assert (exists w', detect svc w = (Stop (Exit 0), w')) as [w' Hd].
  { unfold detect. rewrite Hi, Hdf, Hn. simpl. unfold bind at 1. simpl.
    unfold bind at 1. simpl.
    destruct (load_history_total _ _ Hh) as (w1 & Hload & _).
    unfold bind at 1. rewrite Hload, Hinfo. unfold bind at 1. simpl.
    destruct (nothing_new _ _ Hall) as [h1 ->].
    unfold bind; simpl. eauto. }
  exists w'. rewrite (run_stops_in_detect _ _ _ _ Hd).
  destruct (quiet_detect _ _ _ _ Hd) as (? & ? & _). done.
Qed.

(** X7.  After a run that reached its end, a second run on the disk it
    left, with the same answers of the service, exits with status 0: it
    opens no file for writing and leaves the four files as the first run
    wrote them. *)
Theorem replay_is_noop svc w w' :
  run svc w = (Ret tt, w') ->
  exists w'',
    run svc (boot (disk w')) = (Stop (Exit 0), w'')
    /\ disk w'' = disk w'
    /\ opened w'' = [].
Proof.
  intros Hrun.
  pose proof Hrun as (df & h1 & nd & w1 & h2 & ml & mn & newest & w2
                      & Hd & Hb & Hdisk)%run_finished_inv.
  apply detect_inv in Hd
    as (Hi & Hdf & n & h0 & info & Hn & Hh & Hinfo & Hc & _).
  apply build_inv in Hb as (fields & _ & _ & _ & Hdti & _).
  destruct (run_exits_when_nothing_new svc (boot (disk w')) df n h2 info)
    as (w'' & Hrun' & Hd' & Ho'); try done.
  - simpl. by rewrite Hdisk.
  - eapply Forall_impl; [by eapply scan_makes_known|].
    intros f. by apply known_mono.
  - eauto.
Qed.

Lemma replay_is_noop_witness :
  exists w'', run first_service (boot (disk first_run.2))
              = (Stop (Exit 0), w'')
              /\ disk w'' = disk first_run.2.
Proof.
  destruct (replay_is_noop first_service (boot empty_disk) first_run.2)
    as (w'' & Hrun & Hdisk & _).
  - vm_compute. reflexivity.
  - exists w''. split; [exact Hrun|exact Hdisk].
Defined.

(** X8.  A new date for which no field could be sampled is recorded all
    the same by a run that reaches its end: the date is in [dates], its
    pixel count is 0, and every candidate of the run is known to the saved
    history, so that no later run samples that date again. *)
Theorem failed_date_is_recorded svc w w' :
  run svc w = (Ret tt, w') ->
  exists fields history0 info history1 new_dates history2,
    fields_getInfo svc = Returns fields
    /\ read_history (disk w) = Returns history0
    /\ collection_getInfo svc = Returns info
    /\ compute_delta history0 (default [] info)
       = Returns (history1, new_dates)
    /\ history_file (disk w') = Some (Whole history2)
    /\ forall d idx,
         d ∈ new_dates ->
         date_to_index history2 !! d = Some idx ->
         (forall f got, f ∈ fields ->
                        sampled svc idx f <> Returns (Some got)) ->
         d ∈ dates history2
         /\ pixel_counts history2 !! d = Some 0
         /\ Forall (already_known history2) (default [] info).
Proof.
  intros (df & fields & h0 & info & h1 & nd & h2 & newest & ml & mn
          & Hdf & Hf & Hh & Hinfo & Hc & _ & Hdates & Hdti & Hpc
          & ->)%finished_run.
  exists fields, h0, info, h1, nd, h2. repeat (split; [done|]).
  intros d idx Hd Hidx Hfail. split; [|split].
  - rewrite Hdates. apply elem_of_app. by right.
  - rewrite Hpc, decide_True by done. f_equal.
    unfold pixels_on. rewrite <- Hdti, Hidx, sample_fields_pixels.
    clear -Hfail. induction fields as [|f fields IH]; [done|].
    cbn [fmap list_fmap foldr]. rewrite IH.
    + unfold counted. destruct (is_polygon f); [|done].
      destruct (sampled svc idx f) as [[[lai ndvi]|]|e] eqn:E; try done.
      destruct (Hfail f (lai, ndvi)); [by left|done].
    + intros g got Hg. apply Hfail. by right.
  - eapply Forall_impl; [by eapply scan_makes_known|].
    intros f. by apply known_mono.
Qed.

Lemma failed_date_is_recorded_witness :
  exists history2,
    history_file (disk (run failing_service (boot empty_disk)).2)
    = Some (Whole history2)
    /\ pixel_counts history2 !! "2025-03-10" = Some 0.
Proof.
  destruct (failed_date_is_recorded failing_service (boot empty_disk)
              (run failing_service (boot empty_disk)).2)
    as (fields & h0 & info & h1 & nd & h2 & Hf & Hh & Hinfo & Hc & Hfile & H).
  - vm_compute. reflexivity.
  - exists h2. split; [exact Hfile|].
    injection Hh as <-. injection Hinfo as <-.
    vm_compute in Hc. injection Hc as <- <-.
    destruct (H "2025-03-10" "20250310T000000") as (_ & Hpc & _).
    + by left.
    + vm_compute in Hfile. injection Hfile as <-. vm_compute. reflexivity.
    + intros f got _. vm_compute. discriminate.
    + exact Hpc.
Defined.

(** ** The layers of the maps *)

Section Layers.

Variables (svc : service) (df : list (string * string)).
Variables (fields : list field_feature) (new_dates : list string).

Lemma process_date_layers h ml mn date h' ml' mn' w w' :
  process_date svc df fields new_dates (h, ml, mn) date w
  = (Ret (h', ml', mn'), w') ->
  date_to_index h' = date_to_index h
  /\ exists l_lai l_ndvi,
       ml' = ml ++ [l_lai] /\ mn' = mn ++ [l_ndvi]
       /\ layer_of_date svc df fields new_dates (date_to_index h)
            "LAI_" lai_children date l_lai
       /\ layer_of_date svc df fields new_dates (date_to_index h)
            "NDVI_" ndvi_children date l_ndvi.
Proof.
  unfold process_date.
  destruct (date_to_index h !! date) as [idx|] eqn:Hidx; [|done].
  intros ([] & w1 & _ & H)%bind_ret_inv.
  apply bind_ret_inv in H as (borders & w2 & (Hb & ->)%call_inv & H).
  apply bind_ret_inv in H as ([] & w3 & _ & H).
  injection H as <- <- <- <-. split; [done|].
  eexists _, _. split; [done|]. split; [done|].
  split; exists idx, borders; done.
Qed.

Lemma date_loop_layers (l : list string) : forall h ml mn h' ml' mn' w w',
  for_each (process_date svc df fields new_dates) (h, ml, mn) l w
  = (Ret (h', ml', mn'), w') ->
  exists new_lai new_ndvi,
    ml' = ml ++ new_lai /\ mn' = mn ++ new_ndvi
    /\ Forall2 (layer_of_date svc df fields new_dates (date_to_index h)
                  "LAI_" lai_children) l new_lai
    /\ Forall2 (layer_of_date svc df fields new_dates (date_to_index h)
                  "NDVI_" ndvi_children) l new_ndvi.
Proof.
  induction l as [|date l IH]; intros h ml mn h' ml' mn' w w' H;
    cbn [for_each] in H.
  - injection H as <- <- <- <-. exists [], []. rewrite !app_nil_r.
    repeat split; constructor.
  - apply bind_ret_inv in H as ([[h1 ml1] mn1] & w1 & Hd & H).
    apply process_date_layers in Hd
      as (Hdti & l1 & l2 & -> & -> & Hl1 & Hl2).
    apply IH in H as (nl & nn & -> & -> & Hnl & Hnn).
    rewrite Hdti in Hnl, Hnn.
    exists (l1 :: nl), (l2 :: nn). rewrite <- !app_assoc.
    repeat split; try done; by constructor.
Qed.

End Layers.

Lemma build_layers svc df history1 new_dates history2 m_lai m_ndvi newest
    w w' :
  build svc df history1 new_dates w
  = (Ret (history2, m_lai, m_ndvi, newest), w') ->
  exists fields,
    fields_getInfo svc = Returns fields
    /\ Forall2 (layer_of_date svc df fields new_dates
                  (date_to_index history1) "LAI_" lai_children)
         new_dates (layers m_lai)
    /\ Forall2 (layer_of_date svc df fields new_dates
                  (date_to_index history1) "NDVI_" ndvi_children)
         new_dates (layers m_ndvi).
Proof.
  unfold build.
  intros (fields & w1 & (Hf & ->)%call_inv & H)%bind_ret_inv.
  apply bind_ret_inv in H as (coords & w2 & (Hc & ->)%call_inv & H).
  destruct (length coords =? 0)%nat; [done|].
  apply bind_ret_inv in H as ([[h2 ml] mn] & w3 & Hloop & H).
  apply date_loop_layers in Hloop as (nl & nn & -> & -> & Hnl & Hnn).
  apply bind_ret_inv in H as (oldest & w4 & _ & H).
  apply bind_ret_inv in H as (youngest & w5 & _ & H).
  apply bind_ret_inv in H as (newest' & w6 & _ & H).
  injection H as <- <- <- <- <-. exists fields. done.
Qed.

(** X9.  The maps written by a run that reaches its end hold one layer
    per new date and nothing else, in the order of [new_dates]: the layer
    of a date is named [LAI_] or [NDVI_] followed by the date, it holds
    the rectangles of the fields followed by the field boundaries, and it
    is shown exactly when its date is the last of [new_dates].  The dates
    of earlier runs have no layer. *)
Theorem layers_follow_new_dates svc w w' :
  run svc w = (Ret tt, w') ->
  exists df fields history0 info history1 new_dates newest m_lai m_ndvi,
    read_excel svc = Returns df
    /\ fields_getInfo svc = Returns fields
    /\ read_history (disk w) = Returns history0
    /\ collection_getInfo svc = Returns info
    /\ compute_delta history0 (default [] info)
       = Returns (history1, new_dates)
    /\ last new_dates = Some newest
    /\ index_html (disk w') = Some (Whole m_lai)
    /\ ndvi_html (disk w') = Some (Whole m_ndvi)
    /\ Forall2 (layer_of_date svc df fields new_dates
                  (date_to_index history1) "LAI_" lai_children)
         new_dates (layers m_lai)
    /\ Forall2 (layer_of_date svc df fields new_dates
                  (date_to_index history1) "NDVI_" ndvi_children)
         new_dates (layers m_ndvi)
    /\ (forall l, l ∈ layers m_lai ->
                  (show l = true <-> name l = "LAI_" +:+ newest))
    /\ (forall l, l ∈ layers m_ndvi ->
                  (show l = true <-> name l = "NDVI_" +:+ newest)).
Proof.
  intros (df & h1 & nd & w1 & h2 & ml & mn & newest & w2
          & Hd & Hb & Hdisk)%run_finished_inv.
  apply detect_inv in Hd
    as (_ & Hdf & n & h0 & info & _ & Hh & Hinfo & Hc & _).
  pose proof Hb as (fields & Hf & Hl & Hn)%build_layers.
  apply build_inv in Hb as (fields' & Hf' & Hlast & _).
  exists df, fields, h0, info, h1, nd, newest, ml, mn.
  rewrite Hdisk. repeat (split; [done|]).
  assert (Hshow : forall tag pick m,
            Forall2 (layer_of_date svc df fields nd (date_to_index h1)
                       tag pick) nd m ->
            forall l, l ∈ m -> show l = true <-> name l = tag +:+ newest).
  { intros tag pick m HF l Hin.
    apply list_elem_of_lookup in Hin as [i Hi].
    destruct (Forall2_lookup_r _ _ _ _ _ HF Hi)
      as (d & _ & idx & borders & _ & _ & ->).
    simpl. rewrite bool_decide_eq_true, Hlast. split.
    - by intros [= ->].
    - intros E. by apply (inj (String.app tag)) in E as ->. }
  split; [by eapply Hshow|by eapply Hshow].
Qed.

Lemma layers_follow_new_dates_witness :
  exists m_lai,
    index_html (disk first_run.2) = Some (Whole m_lai)
    /\ forall l, l ∈ layers m_lai ->
                 (show l = true <-> name l = "LAI_2025-03-10").
Proof.
  destruct (layers_follow_new_dates first_service (boot empty_disk)
              first_run.2)
    as (df & fields & h0 & info & h1 & nd & newest & ml & mn
        & _ & _ & Hh & Hinfo & Hc & Hlast & Hml & _ & _ & _ & Hshow & _).
  - vm_compute. reflexivity.
  - exists ml. split; [exact Hml|].
    injection Hh as <-. injection Hinfo as <-.
    vm_compute in Hc. injection Hc as <- <-.
    injection Hlast as <-. exact Hshow.
Defined.

(** ** Fields that are not polygons *)

Lemma outlines_app fields1 fields2 :
  outlines (fields1 ++ fields2)
  = match outlines fields1 with
    | Returns b1 =>
        match outlines fields2 with
        | Returns b2 => Returns (b1 ++ b2)
        | Raises e => Raises e
        end
    | Raises e => Raises e
    end.
Proof.
  induction fields1 as [|f fields1 IH]; simpl.
  - by destruct (outlines fields2).
  - destruct (String.eqb (geom_type f) "Polygon"); [|done].
    destruct (coordinates f); [done|]. rewrite IH.
    destruct (outlines fields1); [|done]. by destruct (outlines fields2).
Qed.

Lemma contribution_other svc df idx date f :
  is_polygon f = false ->
  contribution svc df idx date f = mkstate [] [] 0 [].
Proof.
  unfold contribution, process_field, is_polygon. by intros ->.
Qed.

Lemma contribution_ext svc svc' df idx date f :
  (is_polygon f = true -> forall b, sample svc' b idx f = sample svc b idx f) ->
  contribution svc' df idx date f = contribution svc df idx date f.
Proof.
  intros Hs. destruct (is_polygon f) eqn:Hp.
  - unfold contribution, process_field. by rewrite !Hs.
  - by rewrite !contribution_other.
Qed.

Lemma sample_fields_ext svc svc' df idx date fields :
  (forall f, f ∈ fields -> is_polygon f = true ->
             forall b, sample svc' b idx f = sample svc b idx f) ->
  sample_fields svc' df idx date fields = sample_fields svc df idx date fields.
Proof.
  induction fields as [|f fields IH]; intros Hs; [done|].
  rewrite !sample_fields_cons, IH.
  - f_equal. apply contribution_ext. apply Hs. by left.
  - intros g Hg. apply Hs. by right.
Qed.

(** X10.  A field whose geometry is not of type [Polygon] leaves no
    trace on a layer: with or without it the loop over the fields gives
    the same rectangles, count and report lines, and the same boundaries;
    and it is never sampled, since the answers of the service for it do
    not matter. *)
Theorem other_geometry_is_passed_over svc df idx date f fields1 fields2 :
  is_polygon f = false ->
  sample_fields svc df idx date (fields1 ++ f :: fields2)
  = sample_fields svc df idx date (fields1 ++ fields2)
  /\ outlines (fields1 ++ f :: fields2) = outlines (fields1 ++ fields2)
  /\ forall svc',
       (forall b g, is_polygon g = true ->
                    sample svc' b idx g = sample svc b idx g) ->
       sample_fields svc' df idx date (fields1 ++ f :: fields2)
       = sample_fields svc df idx date (fields1 ++ f :: fields2).
Proof.
  intros Hp. split; [|split].
  - rewrite !sample_fields_app, sample_fields_cons, contribution_other by done.
    by rewrite merge_empty_l.
  - rewrite !outlines_app. cbn [outlines].
    unfold is_polygon in Hp. by rewrite Hp.
  - intros svc' Hs. apply sample_fields_ext. intros g _ Hg b. by apply Hs.
Qed.

Lemma other_geometry_is_passed_over_witness :
  sample_fields first_service [("uu-0001", "Shinjo 1")]
    "20250310T000000" "2025-03-10" [a_multipolygon; a_field]
  = sample_fields first_service [("uu-0001", "Shinjo 1")]
      "20250310T000000" "2025-03-10" [a_field]
  /\ outlines [a_multipolygon; a_field] = outlines [a_field].
Proof.
  destruct (other_geometry_is_passed_over first_service
              [("uu-0001", "Shinjo 1")] "20250310T000000" "2025-03-10"
              a_multipolygon [] [a_field] eq_refl) as (H1 & H2 & _).
  split; [exact H1|exact H2].
Defined.

(** ** Bounds without a corner *)

(** X11.  When the bounds of the fields come back as a ring without a
    corner, the centre of the map divides by zero: a run that found new
    dates ends with an uncaught [ZeroDivisionError], exit status 1, before
    any date is sampled.  No file is opened for writing and the disk is as
    it was, so that the candidates of the run are not all known to the
    history on the disk. *)
Theorem empty_bounds_divide_by_zero svc w df history1 new_dates w1 fields :
  detect svc w = (Ret (df, history1, new_dates), w1) ->
  fields_getInfo svc = Returns fields ->
  bounds_getInfo svc = Returns [] ->
  run svc w = (Stop (Uncaught ZeroDivisionError), w1)
  /\ exit_code (run svc w).1 = Some 1
  /\ disk w1 = disk w /\ opened w1 = opened w
  /\ exists history0 info,
       read_history (disk w) = Returns history0
       /\ collection_getInfo svc = Returns info
       /\ ~ Forall (already_known history0) (default [] info).
Proof.
  intros Hd Hf Hc.
  assert (Hrun : run svc w = (Stop (Uncaught ZeroDivisionError), w1)).
  { eapply run_stops_in_build; [done|].
    unfold build. rewrite Hf, Hc. reflexivity. }
  rewrite Hrun. split; [done|]. split; [done|].
  destruct (quiet_detect _ _ _ _ Hd) as (Hq & Ho & _).
  split; [done|]. split; [done|].
  apply detect_inv in Hd
    as (_ & _ & n & h0 & info & _ & Hh & Hinfo & Hdelta & Hnd).
  exists h0, info. repeat (split; [done|]). intros Hall.
  destruct (nothing_new _ _ Hall) as [h1 Hnone]. congruence.
Qed.

Lemma empty_bounds_divide_by_zero_witness :
  (run no_bounds_service (boot empty_disk)).1
  = Stop (Uncaught ZeroDivisionError).
Proof.
  destruct (empty_bounds_divide_by_zero no_bounds_service (boot empty_disk)
              [("uu-0001", "Shinjo 1")]
              (mkhistory [] {[ "2025-03-10" := "20250310T000000" ]} ∅)
              ["2025-03-10"]
              (detect no_bounds_service (boot empty_disk)).2 [a_field])
    as [Hrun _].
  - vm_compute. reflexivity.
  - reflexivity.
  - reflexivity.
  - by rewrite Hrun.
Defined.

(** ** A history file that cannot be opened *)

Lemma persist_history_refused svc history2 m_lai m_ndvi newest w o w' :
  persist svc history2 m_lai m_ndvi newest w = (o, w') ->
  write_fate svc IndexHtml = Completes ->
  write_fate svc NdviHtml = Completes ->
  write_fate svc HistoryJson = Refused ->
  o = Stop (Uncaught OSError)
  /\ disk w' = mkfiles (history_file (disk w)) (state_file (disk w))
                       (Some (Whole m_lai)) (Some (Whole m_ndvi))
  /\ opened w' = opened w ++ [IndexHtml; NdviHtml; HistoryJson].
Proof.
  unfold persist, save_map, save_history, save_marker, finish_write, bind,
    open_w.
  intros H E1 E2 E3. rewrite E1, E2, E3 in H. simpl in H.
  injection H as <- <-. simpl. by rewrite <- !app_assoc.
Qed.

(** X12.  The maps are saved before the history.  When both maps are
    written and opening the history file is refused, the run ends with an
    uncaught [OSError]: the two HTML files already hold the layers of the
    new dates, while the history file and the marker file are as they
    were, so that the next run finds the same dates new again. *)
Theorem refused_history_leaves_new_maps svc w o w' :
  run svc w = (o, w') ->
  write_fate svc IndexHtml = Completes ->
  write_fate svc NdviHtml = Completes ->
  write_fate svc HistoryJson = Refused ->
  opened w' <> opened w ->
  o = Stop (Uncaught OSError)
  /\ opened w' = opened w ++ [IndexHtml; NdviHtml; HistoryJson]
  /\ history_file (disk w') = history_file (disk w)
  /\ state_file (disk w') = state_file (disk w)
  /\ exists df fields history1 new_dates m_lai m_ndvi,
       index_html (disk w') = Some (Whole m_lai)
       /\ ndvi_html (disk w') = Some (Whole m_ndvi)
       /\ Forall2 (layer_of_date svc df fields new_dates
                     (date_to_index history1) "LAI_" lai_children)
            new_dates (layers m_lai)
       /\ Forall2 (layer_of_date svc df fields new_dates
                     (date_to_index history1) "NDVI_" ndvi_children)
            new_dates (layers m_ndvi).
Proof.
  intros [(_ & Hsame & _)|Hrun]%run_inv Hi Hn Hh Hop; [done|].
  destruct Hrun as (df & h1 & nd & w1 & h2 & ml & mn & newest & w2
                    & Hd & Hb & Hp & Hq & Ho).
  destruct (persist_history_refused _ _ _ _ _ _ _ _ Hp Hi Hn Hh)
    as (-> & Hdisk & Hopened).
  rewrite Hdisk, Hopened, Hq, Ho. simpl. repeat (split; [done|]).
  apply build_layers in Hb as (fields & _ & Hl & Hnl).
  exists df, fields, h1, nd, ml, mn. done.
Qed.

Lemma refused_history_leaves_new_maps_witness :
  history_file (disk (run refused_service (boot known_disk)).2)
  = Some (Whole known_history)
  /\ exists m_lai, index_html (disk (run refused_service (boot known_disk)).2)
                   = Some (Whole m_lai).
Proof.
  destruct (refused_history_leaves_new_maps refused_service (boot known_disk)
              (run refused_service (boot known_disk)).1
              (run refused_service (boot known_disk)).2)
    as (_ & _ & Hh & _ & df & fields & h1 & nd & ml & mn & Hml & _);
    try reflexivity.
  - vm_compute. discriminate.
  - split; [rewrite Hh; reflexivity|]. exists ml. exact Hml.
Defined.

(** ** The title panels *)

Lemma sorted_first_least (l : list string) (x : string) :
  item_first (sorted l) = Returns x ->
  x ∈ l /\ forall s, s ∈ l -> String.le x s.
Proof.
  intros H. pose proof (sorted_Sorted l) as Hs.
  apply Sorted_StronglySorted in Hs; [|apply _].
  pose proof (sorted_perm l) as Hp.
  destruct (sorted l) as [|y l'] eqn:E; [done|]. injection H as ->.
  apply StronglySorted_inv in Hs as [_ Hall]. rewrite Forall_forall in Hall.
  split.
  - rewrite <- Hp. by left.
  - intros s Hin. rewrite <- Hp in Hin.
    apply elem_of_cons in Hin as [->|Hin]; [done|by apply Hall].
Qed.

Lemma sorted_last_greatest (l : list string) (x : string) :
  item_last (sorted l) = Returns x ->
  x ∈ l /\ forall s, s ∈ l -> String.le s x.
Proof.
  unfold item_last. intros H.
  destruct (last (sorted l)) as [y|] eqn:E; [|done]. injection H as ->.
  pose proof (sorted_Sorted l) as Hs.
  apply Sorted_StronglySorted in Hs; [|apply _].
  pose proof (sorted_perm l) as Hp. split.
  - rewrite <- Hp. by eapply last_Some_elem_of.
  - intros s Hin. rewrite <- Hp in Hin.
    destruct (last_is_greatest _ _ _ Hs E s Hin) as [->|?]; done.
Qed.

Lemma build_panels svc df history1 new_dates history2 m_lai m_ndvi newest
    w w' :
  build svc df history1 new_dates w
  = (Ret (history2, m_lai, m_ndvi, newest), w') ->
  exists fields oldest youngest,
    fields_getInfo svc = Returns fields
    /\ item_first (sorted (dates history2)) = Returns oldest
    /\ item_last (sorted (dates history2)) = Returns youngest
    /\ panel m_lai
       = mktitle oldest youngest (length (dates history2)) (length fields)
           (Some (sum_values (pixel_counts history2))) newest
    /\ panel m_ndvi
       = mktitle oldest youngest (length (dates history2)) (length fields)
           None newest.
Proof.
  unfold build.
  intros (fields & w1 & (Hf & ->)%call_inv & H)%bind_ret_inv.
  apply bind_ret_inv in H as (coords & w2 & (Hc & ->)%call_inv & H).
  destruct (length coords =? 0)%nat; [done|].
  apply bind_ret_inv in H as ([[h2 ml] mn] & w3 & Hloop & H).
  apply bind_ret_inv in H as (oldest & w4 & (Ho & ->)%call_inv & H).
  apply bind_ret_inv in H as (youngest & w5 & (Hy & ->)%call_inv & H).
  apply bind_ret_inv in H as (newest' & w6 & _ & H).
  injection H as <- <- <- <- <-. exists fields, oldest, youngest.
  simpl. repeat (split; [done|]).
  assert (length (sorted (dates h2)) = length (dates h2)) as ->
    by by rewrite sorted_perm.
  done.
Qed.

(** X13.  The title panels of a run that reaches its end are computed
    from the history that the run saves: the number of days is the number
    of its dates, the span runs from the least to the greatest of its
    dates, the pixel total is the sum of its pixel counts, and the latest
    update is the date written to the marker file.  The NDVI panel shows
    the same but for the pixel total, which it lacks. *)
Theorem title_panels svc w w' :
  run svc w = (Ret tt, w') ->
  exists fields history2 newest m_lai m_ndvi,
    fields_getInfo svc = Returns fields
    /\ history_file (disk w') = Some (Whole history2)
    /\ state_file (disk w') = Some (Whole newest)
    /\ index_html (disk w') = Some (Whole m_lai)
    /\ ndvi_html (disk w') = Some (Whole m_ndvi)
    /\ n_days (panel m_lai) = length (dates history2)
    /\ n_fields (panel m_lai) = length fields
    /\ total_pixels (panel m_lai) = Some (sum_values (pixel_counts history2))
    /\ latest (panel m_lai) = newest
    /\ span_from (panel m_lai) ∈ dates history2
    /\ span_to (panel m_lai) ∈ dates history2
    /\ (forall s, s ∈ dates history2 ->
          String.le (span_from (panel m_lai)) s
          /\ String.le s (span_to (panel m_lai)))
    /\ panel m_ndvi
       = mktitle (span_from (panel m_lai)) (span_to (panel m_lai))
           (n_days (panel m_lai)) (n_fields (panel m_lai)) None newest.
Proof.
  intros (df & h1 & nd & w1 & h2 & ml & mn & newest & w2
          & Hd & Hb & Hdisk)%run_finished_inv.
  apply build_panels in Hb
    as (fields & oldest & youngest & Hf & Ho & Hy & Hpl & Hpn).
  apply sorted_first_least in Ho as [Ho1 Ho2].
  apply sorted_last_greatest in Hy as [Hy1 Hy2].
  exists fields, h2, newest, ml, mn. rewrite Hdisk, Hpl, Hpn. simpl.
  repeat (split; [done|]). split; [|done]. intros s Hs. auto.
Qed.

Lemma title_panels_witness :
  exists m_lai,
    index_html (disk first_run.2) = Some (Whole m_lai)
    /\ n_days (panel m_lai) = 1%nat
    /\ total_pixels (panel m_lai) = Some 2.
Proof.
  destruct (title_panels first_service (boot empty_disk) first_run.2)
    as (fields & h2 & newest & ml & mn & _ & Hfile & _ & Hml & _ & Hn & _
        & Ht & _).
  - vm_compute. reflexivity.
  - exists ml. split; [exact Hml|].
    vm_compute in Hfile. injection Hfile as <-.
    rewrite Hn, Ht. split; vm_compute; reflexivity.
Defined.

(** ** The pixel total *)

Lemma sum_values_insert (m : gmap string Z) (k : string) (v : Z) :
  m !! k = None -> sum_values (<[k := v]> m) = v + sum_values m.
Proof.
  intros H. unfold sum_values. rewrite map_fold_insert_L; [done| |done].
  intros. lia.
Qed.

Lemma sum_values_extended (nd : list string) (v : string -> Z) :
  forall (m0 m2 : gmap string Z),
  NoDup nd ->
  (forall d, d ∈ nd -> m0 !! d = None) ->
  (forall d, m2 !! d = if decide (d ∈ nd) then Some (v d) else m0 !! d) ->
  sum_values m2 = sum_values m0 + foldr Z.add 0 (v <$> nd).
Proof.
  induction nd as [|d nd IH]; intros m0 m2 Hnd Hfresh Hm2.
  - simpl. assert (m2 = m0) as ->; [|lia].
    apply map_eq. intros k. rewrite Hm2. rewrite decide_False; [done|].
    by intros ?%elem_of_nil.
  - apply NoDup_cons in Hnd as [Hd Hnd].
    assert (E : m2 = <[d := v d]> (delete d m2)).
    { rewrite insert_delete_eq. symmetry. apply insert_id.
      rewrite Hm2. rewrite decide_True; [done|by left]. }
    rewrite E, sum_values_insert by apply lookup_delete_eq.
    rewrite (IH m0 (delete d m2)); [cbn [fmap list_fmap foldr]; lia|done| |].
    + intros k Hk. apply Hfresh. by right.
    + intros k. destruct (decide (k = d)) as [->|Hne].
      * rewrite lookup_delete_eq, decide_False by done.
        symmetry. apply Hfresh. by left.
      * rewrite lookup_delete_ne by done. rewrite Hm2.
        destruct (decide (k ∈ nd)) as [Hin|Hnin].
        -- rewrite decide_True; [done|by right].
        -- rewrite decide_False; [done|]. by intros [?|?]%elem_of_cons.
Qed.

(** X14.  The pixel total shown on the LAI map is the sum over the saved
    history; when the history read at the start names the same dates in
    its three parts, that total is the total of the history read plus the
    counts of the new dates: the total never loses the pixels of an
    earlier run. *)
Theorem pixel_total_grows_by_new_dates svc w w' :
  run svc w = (Ret tt, w') ->
  exists df fields history0 info history1 new_dates history2 m_lai,
    read_excel svc = Returns df
    /\ fields_getInfo svc = Returns fields
    /\ read_history (disk w) = Returns history0
    /\ collection_getInfo svc = Returns info
    /\ compute_delta history0 (default [] info)
       = Returns (history1, new_dates)
    /\ history_file (disk w') = Some (Whole history2)
    /\ index_html (disk w') = Some (Whole m_lai)
    /\ total_pixels (panel m_lai) = Some (sum_values (pixel_counts history2))
    /\ (consistent history0 ->
        sum_values (pixel_counts history2)
        = sum_values (pixel_counts history0)
          + foldr Z.add 0
              ((fun d => default 0 (pixel_counts history2 !! d))
               <$> new_dates)).
Proof.
  intros Hrun.
  pose proof Hrun as (df & fields & h0 & info & h1 & nd & h2 & newest & ml
    & mn & Hdf & Hf & Hh & Hinfo & Hc & _ & _ & _ & Hpc & Hdisk)%finished_run.
  pose proof Hrun as (df' & h1' & nd' & w1 & h2' & ml' & mn' & newest' & w2
    & _ & Hb & Hdisk')%run_finished_inv.
  rewrite Hdisk in Hdisk'. injection Hdisk' as <- <- <- <-.
  apply build_panels in Hb as (fields' & oldest & youngest & _ & _ & _ & Hpl & _).
  exists df, fields, h0, info, h1, nd, h2, ml. rewrite Hdisk, Hpl. simpl.
  repeat (split; [done|]). intros Hcons.
  destruct (new_dates_elem _ _ _ _ Hc) as [Hnd Hin].
  apply (sum_values_extended nd); [done| |].
  - intros d [Hnone _]%Hin. destruct (Hcons d) as [Hi Hp].
    destruct (pixel_counts h0 !! d) eqn:E; [|done].
    assert (is_Some (date_to_index h0 !! d)) as [? ?]; [|congruence].
    apply Hi, Hp. eauto.
  - intros d. destruct (decide (d ∈ nd)) as [Hd|Hd]; rewrite Hpc;
      [rewrite decide_True by done|rewrite decide_False by done]; done.
Qed.

Lemma pixel_total_grows_by_new_dates_witness :
  exists history2,
    history_file (disk first_run.2) = Some (Whole history2)
    /\ sum_values (pixel_counts history2)
       = 0 + (default 0 (pixel_counts history2 !! "2025-03-10") + 0).
Proof.
  destruct (pixel_total_grows_by_new_dates first_service (boot empty_disk)
              first_run.2)
    as (df & fields & h0 & info & h1 & nd & h2 & ml
        & _ & _ & Hh & Hinfo & Hc & Hfile & _ & _ & Hsum).
  - vm_compute. reflexivity.
  - exists h2. split; [exact Hfile|].
    injection Hh as <-. injection Hinfo as <-.
    vm_compute in Hc. injection Hc as <- <-.
    rewrite Hsum; [reflexivity|].
    intros s. simpl. split; (split; [by intros ?%elem_of_nil|by intros [? ?]]).
Defined.

(** ** The address of a field *)

(** X15.  The address of a field is that of the first row of the
    spreadsheet whose [polygon_uu] equals the field's; later rows with the
    same identifier are not looked at.  A field whose identifier is in no
    row, or that has no identifier, is labelled with the fixed text for an
    unknown address. *)
Theorem address_of_first_matching_row (df : list (string * string))
    (u : string) :
  (forall rows1 a rows2,
     df = rows1 ++ (u, a) :: rows2 ->
     (forall row, row ∈ rows1 -> row.1 <> u) ->
     lookup_address df (Some u) = a)
  /\ ((forall row, row ∈ df -> row.1 <> u) ->
      lookup_address df (Some u) = unknown_address)
  /\ lookup_address df None = unknown_address.
Proof.
  assert (Hnone : forall rows, (forall row, row ∈ rows -> row.1 <> u) ->
                    filter (fun row : string * string => row.1 = u) rows = []).
  { induction rows as [|row rows IH]; intros H; [done|].
    rewrite filter_cons_False by (apply H; by left).
    apply IH. intros r Hr. apply H. by right. }
  split; [|split; [|done]].
  - intros rows1 a rows2 -> H1. unfold lookup_address.
    rewrite filter_app, (Hnone rows1 H1), filter_cons_True by done. done.
  - intros H. unfold lookup_address. by rewrite Hnone.
Qed.

Lemma address_of_first_matching_row_witness :
  lookup_address [("uu-0002", "Shinjo 2"); ("uu-0001", "Shinjo 1");
                  ("uu-0001", "Shinjo 1 bis")] (Some "uu-0001") = "Shinjo 1"
  /\ lookup_address [("uu-0002", "Shinjo 2")] (Some "uu-0001")
     = unknown_address.
Proof.
  split.
  - apply (proj1 (address_of_first_matching_row _ "uu-0001")
             [("uu-0002", "Shinjo 2")] "Shinjo 1"
             [("uu-0001", "Shinjo 1 bis")] eq_refl).
    intros row ->%list_elem_of_singleton. discriminate.
  - apply (proj1 (proj2 (address_of_first_matching_row _ "uu-0001"))).
    intros row ->%list_elem_of_singleton. discriminate.
Defined.

(** ** The colours *)

(** X16.  Both colour maps give the neutral gray exactly when the value
    is missing or is a NaN: a number, the infinities included, is never
    drawn gray, and the two maps are gray on the same values. *)
Theorem gray_only_when_missing (v : option float) :
  (get_lai_color v = "#808080"
   <-> v = None \/ exists x, v = Some x /\ isnan x = true)
  /\ (get_ndvi_color v = "#808080"
      <-> v = None \/ exists x, v = Some x /\ isnan x = true).
Proof.
  unfold get_lai_color, get_ndvi_color.
  destruct v as [x|]; [|split; split; auto].
  destruct (isnan x) eqn:E.
  - split; split; eauto.
  - split; (split; [|intros [?|(y & [= <-] & ?)]; congruence]);
      repeat case_match; discriminate.
Qed.

(** ** The rectangles of a date *)

Lemma draw_pixels_elem color_of address date features e :
  e ∈ draw_pixels color_of address date features
  <-> exists lon lat v,
        mkpixel (Some (lon, lat)) (Some v) ∈ features
        /\ e = rectangle_of color_of address date lon lat v.
Proof.
  unfold draw_pixels. rewrite list_elem_of_omap. split.
  - intros ([[[lon lat]|] [v|]] & Hin & H); simplify_eq/=.
    by exists lon, lat, v.
  - intros (lon & lat & v & Hin & ->). by eexists.
Qed.

Lemma contribution_drawn svc df idx date f :
  contribution svc df idx date f
  = if is_polygon f then
      match sampled svc idx f with
      | Returns (Some (lai, ndvi)) =>
          mkstate
            (draw_pixels get_lai_color (lookup_address df (polygon_uu f))
               date lai)
            (draw_pixels get_ndvi_color (lookup_address df (polygon_uu f))
               date ndvi)
            (Z.of_nat (length lai))
            [FieldPixels (lookup_address df (polygon_uu f)) (length lai)]
      | Returns None =>
          mkstate [] [] 0 [FieldNoData (lookup_address df (polygon_uu f))]
      | Raises e =>
          mkstate [] [] 0 [FieldError (lookup_address df (polygon_uu f)) e]
      end
    else mkstate [] [] 0 [].
Proof.
  unfold contribution, process_field, sampled, is_polygon, say.
  repeat case_match; simplify_eq/=; done.
Qed.

(** X17.  The rectangles of a date on the LAI layer are exactly those of
    the LAI pixels, with a geometry and properties, of the polygon fields
    whose two samplings both answered with features; each has the bounds
    of its pixel, the colour that the LAI map gives to its own value, and
    the address of its field and the date as labels.  Likewise on the NDVI
    layer with the NDVI pixels and the NDVI map.  A field one of whose
    samplings failed draws nothing on either layer. *)
Theorem rectangles_of_a_date svc df idx date fields e :
  (e ∈ lai_children (sample_fields svc df idx date fields)
   <-> exists f lai ndvi lon lat v,
         f ∈ fields /\ is_polygon f = true
         /\ sampled svc idx f = Returns (Some (lai, ndvi))
         /\ mkpixel (Some (lon, lat)) (Some v) ∈ lai
         /\ e = rectangle_of get_lai_color (lookup_address df (polygon_uu f))
                  date lon lat v)
  /\ (e ∈ ndvi_children (sample_fields svc df idx date fields)
      <-> exists f lai ndvi lon lat v,
            f ∈ fields /\ is_polygon f = true
            /\ sampled svc idx f = Returns (Some (lai, ndvi))
            /\ mkpixel (Some (lon, lat)) (Some v) ∈ ndvi
            /\ e = rectangle_of get_ndvi_color
                     (lookup_address df (polygon_uu f)) date lon lat v).
Proof.
  induction fields as [|f fields [IHl IHn]].
  - split; (split; [by intros ?%elem_of_nil|]);
      by intros (f & ? & ? & ? & ? & ? & ?%elem_of_nil & _).
  - rewrite sample_fields_cons. cbn [merge lai_children ndvi_children].
    rewrite !elem_of_app, IHl, IHn, contribution_drawn.
    split; split.
    + intros [H|(g & lai & ndvi & lon & lat & v & Hg & H)].
      * destruct (is_polygon f) eqn:Hp; [|by apply elem_of_nil in H].
        destruct (sampled svc idx f) as [[[lai ndvi]|]|?] eqn:Hs;
          try by apply elem_of_nil in H.
        apply draw_pixels_elem in H as (lon & lat & v & Hin & ->).
        exists f, lai, ndvi, lon, lat, v. repeat split; try done. by left.
      * exists g, lai, ndvi, lon, lat, v. split; [by right|done].
    + intros (g & lai & ndvi & lon & lat & v & Hg & Hp & Hs & Hin & ->).
      apply elem_of_cons in Hg as [->|Hg].
      * left. rewrite Hp, Hs. apply draw_pixels_elem. by exists lon, lat, v.
      * right. by exists g, lai, ndvi, lon, lat, v.
    + intros [H|(g & lai & ndvi & lon & lat & v & Hg & H)].
      * destruct (is_polygon f) eqn:Hp; [|by apply elem_of_nil in H].
        destruct (sampled svc idx f) as [[[lai ndvi]|]|?] eqn:Hs;
          try by apply elem_of_nil in H.
        apply draw_pixels_elem in H as (lon & lat & v & Hin & ->).
        exists f, lai, ndvi, lon, lat, v. repeat split; try done. by left.
      * exists g, lai, ndvi, lon, lat, v. split; [by right|done].
    + intros (g & lai & ndvi & lon & lat & v & Hg & Hp & Hs & Hin & ->).
      apply elem_of_cons in Hg as [->|Hg].
      * left. rewrite Hp, Hs. apply draw_pixels_elem. by exists lon, lat, v.
      * right. by exists g, lai, ndvi, lon, lat, v.
Qed.

(** ** The field boundaries *)

(** X18.  When every polygon field has a ring, the boundaries of a layer
    are one outline per polygon field, in the order of the fields: the
    first ring of the field with each [(lon, lat)] turned into
    [(lat, lon)]; further rings (holes) are not drawn.  Conversely the
    boundaries are drawn only if every polygon field has a ring. *)
Theorem outlines_of_polygons (fields : list field_feature) :
  (Forall (fun f => is_polygon f = true -> coordinates f <> []) fields ->
   outlines fields
   = Returns (outline_of <$> filter (fun f => is_polygon f = true) fields))
  /\ (forall borders,
        outlines fields = Returns borders ->
        Forall (fun f => is_polygon f = true -> coordinates f <> []) fields).
Proof.
  split.
  - induction 1 as [|f fields Hf _ IH]; [done|].
    cbn [outlines]. unfold is_polygon in *.
    destruct (String.eqb (geom_type f) "Polygon") eqn:Hp.
    + rewrite filter_cons_True by done.
      destruct (coordinates f) as [|ring rest] eqn:Hc; [by destruct Hf|].
      rewrite IH, fmap_cons. unfold outline_of at 2. by rewrite Hc.
    + rewrite filter_cons_False by (by rewrite Hp). done.
  - induction fields as [|f fields IH]; intros borders H; [constructor|].
    cbn [outlines] in H. unfold is_polygon in *.
    destruct (String.eqb (geom_type f) "Polygon") eqn:Hp.
    + destruct (coordinates f) as [|ring rest] eqn:Hc; [done|].
      destruct (outlines fields) as [l|] eqn:Ho; [|done].
      constructor; [by rewrite Hc|by eapply IH].
    + constructor; [by rewrite Hp|by eapply IH].
Qed.

Lemma outlines_of_polygons_witness :
  outlines [a_multipolygon; a_field] = Returns [outline_of a_field].
Proof.
  apply (proj1 (outlines_of_polygons [a_multipolygon; a_field])).
  repeat constructor; discriminate.
Defined.
